(** * OCPP charge-point simulator: a shallow embedding of [src/main.js]

    [src/main.js] holds the script twice.  The development follows the
    first copy, the one whose methods carry [/** ... */] comments; the
    second copy has the same statements but for four places, noted where
    they matter: the constructor leaves [_availabilityChangeCb] [null],
    [handleCallError] is a method and not part of a comment,
    [setConnectorAvailability] cascades on [Number(c) == 0] instead of
    [connectorId === 0], and the default server URL reads [ws://].
    (The first copy declares [requestedMessage] with [let] in two [case]s
    of one [switch]; the methods are given the meaning their statements
    have, which is also the meaning of the second copy, where the
    declarations are [var].)

    The file is organised as the script is: JavaScript values and the
    coercions the script relies on, the world around the class, the
    constants, the utility functions, the [ChargePoint] class with the
    socket callbacks that [wsConnect] installs, and the shell.  The
    vocabulary of the properties and the properties follow.

    Modelling conventions.
    - A JavaScript value is a [jsval].  Numbers are the integers
      ([JNum], printed in decimal as JavaScript prints integers below
      [10^21]) and [NaN] ([JNaN]); fractional numbers and infinities are
      outside the model.  Strings are [string]s.
    - [JSON.stringify] applied to a frame is modelled by
      [JS.JSON_stringify], which yields the tree that the frame text
      denotes ([undefined] members dropped, [undefined] and [NaN] array
      slots printed as [null]).  [JS.JSON_text] prints a tree as text
      where the script concatenates it into a log line.  An inbound
      message is the array that [JSON.parse] makes of it; text that does
      not parse to an array is outside the model.
    - [sessionStorage] and [localStorage] are finite maps from strings to
      strings; [setItem] stores [String(value)].
    - Everything outside the class that the class talks to is part of
      [World]: what is asked of the sockets, the callbacks that were
      called, the timers, and two oracles for [Math.random] and the
      clock.  [console.log] and the DOM are not modelled. *)

From Stdlib Require Import ZArith QArith Qround String Ascii List Lia.
From stdpp Require Import base gmap strings list pretty.

Set Warnings "-register-all".

Open Scope string_scope.
Open Scope Z_scope.

(** ** JavaScript values *)

Inductive jsval : Type :=
  | JUndef
  | JNull
  | JBool (b : bool)
  | JNaN
  | JNum (n : Z)
  | JStr (s : string)
  | JArr (items : list jsval)
  | JObj (members : list (string * jsval)).

Module JS.

(** [a.join(',')] on already converted items. *)
Fixpoint join_comma (l : list string) : string :=
  match l with
  | [] => ""
  | [x] => x
  | x :: rest => x +:+ "," +:+ join_comma rest
  end.

(** [String(v)], which is also what [sessionStorage.setItem], string
    concatenation with [+] and template literals apply to [v]. *)
Fixpoint toString (v : jsval) : string :=
  match v with
  | JUndef => "undefined"
  | JNull => "null"
  | JBool true => "true"
  | JBool false => "false"
  | JNaN => "NaN"
  | JNum n => pretty n
  | JStr s => s
  | JArr items =>
      join_comma
        (List.map (fun x => match x with
                            | JUndef | JNull => ""
                            | _ => toString x
                            end) items)
  | JObj _ => "[object Object]"
  end.

(** [!!v] *)
Definition truthy (v : jsval) : bool :=
  match v with
  | JUndef | JNull | JNaN => false
  | JBool b => b
  | JNum n => negb (n =? 0)
  | JStr s => negb (String.eqb s "")
  | JArr _ | JObj _ => true
  end.

(** [v === s] for a string constant [s]. *)
Definition strict_eq_str (v : jsval) (s : string) : bool :=
  match v with
  | JStr s' => String.eqb s' s
  | _ => false
  end.

(** [v == s] for a string constant [s] that is not a numeric literal
    (every constant the script compares with is a word): strings are
    compared as they are, arrays and objects through their [toString],
    and numbers, booleans, [null] and [undefined] are never equal. *)
Definition loose_eq_str (v : jsval) (s : string) : bool :=
  match v with
  | JStr _ | JArr _ | JObj _ => String.eqb (toString v) s
  | _ => false
  end.

(** [v === n] for a numeric constant [n]. *)
Definition strict_eq_num (v : jsval) (n : Z) : bool :=
  match v with
  | JNum m => m =? n
  | _ => false
  end.

(** Own property lookup in an object: as in an object literal and in
    [JSON.parse], the last member with a given name is the one in force. *)
Fixpoint lookup_member (k : string) (members : list (string * jsval)) : option jsval :=
  match members with
  | [] => None
  | (k', v) :: rest =>
      match lookup_member k rest with
      | Some v' => Some v'
      | None => if String.eqb k' k then Some v else None
      end
  end.

(** [v.name] for the member names the script reads ([type], [idTag],
    [transactionId], [connectorId], [requestedMessage], [status],
    [interval], [idTagInfo]); none of them is a built-in property of a
    string, number, boolean or array.  [None] is the [TypeError] raised
    when [v] is [null] or [undefined]. *)
Definition get_field (v : jsval) (name : string) : option jsval :=
  match v with
  | JUndef | JNull => None
  | JObj members => Some (default JUndef (lookup_member name members))
  | _ => Some JUndef
  end.

(** [a[i]] on an array. *)
Definition index (a : list jsval) (i : nat) : jsval := nth i a JUndef.

(** Names listed by [Object.keys]: each member name once. *)
Fixpoint member_names (members : list (string * jsval)) : list string :=
  match members with
  | [] => []
  | (k, _) :: rest =>
      if existsb (String.eqb k) (List.map fst rest) then member_names rest
      else k :: member_names rest
  end.

(** [Object.keys(v).length]; [None] is the [TypeError] on [null] and
    [undefined]. *)
Definition keys_length (v : jsval) : option nat :=
  match v with
  | JUndef | JNull => None
  | JObj members => Some (length (member_names members))
  | JArr items => Some (length items)
  | JStr s => Some (String.length s)
  | _ => Some 0%nat
  end.

(** A parameter default [f(x = d)]: used when the argument is
    [undefined]. *)
Definition default_arg (v d : jsval) : jsval :=
  match v with
  | JUndef => d
  | _ => v
  end.

(** *** Reading numbers out of strings *)

Definition is_space (c : ascii) : bool :=
  let n := nat_of_ascii c in
  ((9 <=? n)%nat && (n <=? 13)%nat) || (n =? 32)%nat.

Fixpoint skip_spaces (s : string) : string :=
  match s with
  | String c rest => if is_space c then skip_spaces rest else s
  | EmptyString => s
  end.

Definition digit_value (radix : Z) (c : ascii) : option Z :=
  let n := Z.of_nat (nat_of_ascii c) in
  let d :=
    if (48 <=? n) && (n <=? 57) then Some (n - 48)
    else if (97 <=? n) && (n <=? 122) then Some (n - 87)
    else if (65 <=? n) && (n <=? 90) then Some (n - 55)
    else None in
  match d with
  | Some k => if k <? radix then Some k else None
  | None => None
  end.

(** The longest prefix of digits of [s], read in [radix]; [None] when
    the prefix is empty. *)
Fixpoint read_digits (radix : Z) (acc : option Z) (s : string) : option Z * string :=
  match s with
  | String c rest =>
      match digit_value radix c with
      | Some d => read_digits radix (Some (default 0 acc * radix + d)) rest
      | None => (acc, s)
      end
  | EmptyString => (acc, s)
  end.

Definition strip_sign (s : string) : Z * string :=
  match s with
  | String "-" rest => (-1, rest)
  | String "+" rest => (1, rest)
  | _ => (1, s)
  end.

Definition strip_hex_prefix (s : string) : option string :=
  match s with
  | String "0" (String "x" rest) | String "0" (String "X" rest) => Some rest
  | _ => None
  end.

(** [parseInt(s)]: leading white space, a sign, an optional [0x], then
    as many digits as there are. *)
Definition parseInt (s : string) : jsval :=
  let (sign, body) := strip_sign (skip_spaces s) in
  let (radix, digits) :=
    match strip_hex_prefix body with
    | Some rest => (16, rest)
    | None => (10, body)
    end in
  match fst (read_digits radix None digits) with
  | Some n => JNum (sign * n)
  | None => JNaN
  end.

(** [Number(s)] on a string whose value is an integer written in
    decimal: white space around it is ignored, the empty string is [0].
    Literals with a fraction, an exponent or a radix prefix denote
    numbers the model has no integer spelling for in general; they read
    as [NaN] here. *)
Definition string_to_number (s : string) : jsval :=
  let (sign, body) := strip_sign (skip_spaces s) in
  match read_digits 10 None body with
  | (Some n, rest) =>
      match skip_spaces rest with
      | EmptyString => JNum (sign * n)
      | _ => JNaN
      end
  | (None, _) =>
      match skip_spaces s with
      | EmptyString => JNum 0
      | _ => JNaN
      end
  end.

(** [Number(v)] *)
Definition toNumber (v : jsval) : jsval :=
  match v with
  | JUndef => JNaN
  | JNull => JNum 0
  | JBool true => JNum 1
  | JBool false => JNum 0
  | JNaN => JNaN
  | JNum n => JNum n
  | JStr s => string_to_number s
  | JArr _ => string_to_number (toString v)
  | JObj _ => JNaN
  end.

(** *** [JSON.stringify] *)

(** The tree denoted by the text [JSON.stringify(v)]. *)
Fixpoint JSON_stringify (v : jsval) : jsval :=
  match v with
  | JNaN => JNull
  | JArr items =>
      JArr (List.map (fun x => match x with
                               | JUndef => JNull
                               | _ => JSON_stringify x
                               end) items)
  | JObj members =>
      JObj ((fix go (ms : list (string * jsval)) : list (string * jsval) :=
               match ms with
               | [] => []
               | (k, JUndef) :: rest => go rest
               | (k, x) :: rest => (k, JSON_stringify x) :: go rest
               end) members)
  | _ => v
  end.

Definition hex_digit (n : nat) : string :=
  String.substring n 1 "0123456789abcdef".

Definition escape_char (c : ascii) : string :=
  let n := nat_of_ascii c in
  if (n =? 34)%nat then String (ascii_of_nat 92) (String (ascii_of_nat 34) "")
  else if (n =? 92)%nat then "\\"
  else if (n =? 8)%nat then "\b"
  else if (n =? 9)%nat then "\t"
  else if (n =? 10)%nat then "\n"
  else if (n =? 12)%nat then "\f"
  else if (n =? 13)%nat then "\r"
  else if (n <? 32)%nat then "\u00" +:+ hex_digit (n / 16) +:+ hex_digit (n mod 16)
  else String c "".

Fixpoint escape (s : string) : string :=
  match s with
  | EmptyString => ""
  | String c rest => escape_char c +:+ escape rest
  end.

Definition quote (s : string) : string :=
  String (ascii_of_nat 34) (escape s) +:+ String (ascii_of_nat 34) "".

(** The compact text of a tree produced by [JSON_stringify]. *)
Fixpoint JSON_text (v : jsval) : string :=
  match v with
  | JUndef => "undefined"
  | JNull | JNaN => "null"
  | JBool true => "true"
  | JBool false => "false"
  | JNum n => pretty n
  | JStr s => quote s
  | JArr items => "[" +:+ join_comma (List.map JSON_text items) +:+ "]"
  | JObj members =>
      "{" +:+ join_comma (List.map (fun m => quote (fst m) +:+ ":" +:+ JSON_text (snd m)) members)
          +:+ "}"
  end.

End JS.

(** ** The world the class lives in *)

(** What the script asks of its sockets. *)
Inductive wire_event : Type :=
  | WsNew (sock : nat) (url : string) (protocols : list string)
  | WsSend (sock : nat) (data : jsval)
  | WsClose (sock : nat) (code : Z).

(** Calls of the three callbacks the shell installs. *)
Inductive event : Type :=
  | StatusChange (s msg : string)
  | Log (msg : string)
  | AvailabilityChange (connectorId newAvailability : jsval).

(** The two stores, the fields of the [ChargePoint] object, and the
    environment: [wire] and [events] in the order of the calls,
    [intervals] the [setInterval] timers that are armed (handle and
    delay in milliseconds), [sleepers] the [RemoteStartTransaction]
    handlers suspended at their [await] (delay and tag), and the oracles
    read by [Math.random()] and by [luxon.DateTime.utc().toISO()].
    A socket is known by a number; [WsSend] records a call of [send]
    (the [InvalidStateError] that a socket raises while it is still
    connecting is not modelled).  Timer handles are positive, as the
    browser guarantees. *)
Record World : Type := mkWorld {
  sessionStorage : gmap string string;
  localStorage : gmap string string;
  _websocket : option nat;
  _heartbeat : option positive;
  _statusChangeCb : bool;
  _availabilityChangeCb : bool;
  _loggingCb : bool;
  _remoteStartStopResponse : string;
  _remoteStartDelaySeconds : jsval;
  wire : list wire_event;
  events : list event;
  intervals : list (positive * jsval);
  sleepers : list (jsval * jsval);
  next_timer : positive;
  next_socket : nat;
  random : nat -> Q;
  random_pos : nat;
  clock : nat -> string;
  clock_pos : nat
}.

Definition set_sessionStorage (x : gmap string string) (w : World) : World :=
  mkWorld x (localStorage w) (_websocket w) (_heartbeat w) (_statusChangeCb
    w) (_availabilityChangeCb w) (_loggingCb w) (_remoteStartStopResponse w)
    (_remoteStartDelaySeconds w) (wire w) (events w) (intervals w) (sleepers
    w) (next_timer w) (next_socket w) (random w) (random_pos w) (clock w)
    (clock_pos w).

Definition set_localStorage (x : gmap string string) (w : World) : World :=
  mkWorld (sessionStorage w) x (_websocket w) (_heartbeat w)
    (_statusChangeCb w) (_availabilityChangeCb w) (_loggingCb w)
    (_remoteStartStopResponse w) (_remoteStartDelaySeconds w) (wire w)
    (events w) (intervals w) (sleepers w) (next_timer w) (next_socket w)
    (random w) (random_pos w) (clock w) (clock_pos w).

Definition set_websocket (x : option nat) (w : World) : World :=
  mkWorld (sessionStorage w) (localStorage w) x (_heartbeat w)
    (_statusChangeCb w) (_availabilityChangeCb w) (_loggingCb w)
    (_remoteStartStopResponse w) (_remoteStartDelaySeconds w) (wire w)
    (events w) (intervals w) (sleepers w) (next_timer w) (next_socket w)
    (random w) (random_pos w) (clock w) (clock_pos w).

Definition set_heartbeat (x : option positive) (w : World) : World :=
  mkWorld (sessionStorage w) (localStorage w) (_websocket w) x
    (_statusChangeCb w) (_availabilityChangeCb w) (_loggingCb w)
    (_remoteStartStopResponse w) (_remoteStartDelaySeconds w) (wire w)
    (events w) (intervals w) (sleepers w) (next_timer w) (next_socket w)
    (random w) (random_pos w) (clock w) (clock_pos w).

Definition set_statusChangeCb (x : bool) (w : World) : World :=
  mkWorld (sessionStorage w) (localStorage w) (_websocket w) (_heartbeat w)
    x (_availabilityChangeCb w) (_loggingCb w) (_remoteStartStopResponse w)
    (_remoteStartDelaySeconds w) (wire w) (events w) (intervals w) (sleepers
    w) (next_timer w) (next_socket w) (random w) (random_pos w) (clock w)
    (clock_pos w).

Definition set_availabilityChangeCb (x : bool) (w : World) : World :=
  mkWorld (sessionStorage w) (localStorage w) (_websocket w) (_heartbeat w)
    (_statusChangeCb w) x (_loggingCb w) (_remoteStartStopResponse w)
    (_remoteStartDelaySeconds w) (wire w) (events w) (intervals w) (sleepers
    w) (next_timer w) (next_socket w) (random w) (random_pos w) (clock w)
    (clock_pos w).

Definition set_loggingCb (x : bool) (w : World) : World :=
  mkWorld (sessionStorage w) (localStorage w) (_websocket w) (_heartbeat w)
    (_statusChangeCb w) (_availabilityChangeCb w) x
    (_remoteStartStopResponse w) (_remoteStartDelaySeconds w) (wire w)
    (events w) (intervals w) (sleepers w) (next_timer w) (next_socket w)
    (random w) (random_pos w) (clock w) (clock_pos w).

Definition set_remoteStartStopResponse (x : string) (w : World) : World :=
  mkWorld (sessionStorage w) (localStorage w) (_websocket w) (_heartbeat w)
    (_statusChangeCb w) (_availabilityChangeCb w) (_loggingCb w) x
    (_remoteStartDelaySeconds w) (wire w) (events w) (intervals w) (sleepers
    w) (next_timer w) (next_socket w) (random w) (random_pos w) (clock w)
    (clock_pos w).

Definition set_remoteStartDelaySeconds (x : jsval) (w : World) : World :=
  mkWorld (sessionStorage w) (localStorage w) (_websocket w) (_heartbeat w)
    (_statusChangeCb w) (_availabilityChangeCb w) (_loggingCb w)
    (_remoteStartStopResponse w) x (wire w) (events w) (intervals w)
    (sleepers w) (next_timer w) (next_socket w) (random w) (random_pos w)
    (clock w) (clock_pos w).

Definition set_wire (x : list wire_event) (w : World) : World :=
  mkWorld (sessionStorage w) (localStorage w) (_websocket w) (_heartbeat w)
    (_statusChangeCb w) (_availabilityChangeCb w) (_loggingCb w)
    (_remoteStartStopResponse w) (_remoteStartDelaySeconds w) x (events w)
    (intervals w) (sleepers w) (next_timer w) (next_socket w) (random w)
    (random_pos w) (clock w) (clock_pos w).

Definition set_events (x : list event) (w : World) : World :=
  mkWorld (sessionStorage w) (localStorage w) (_websocket w) (_heartbeat w)
    (_statusChangeCb w) (_availabilityChangeCb w) (_loggingCb w)
    (_remoteStartStopResponse w) (_remoteStartDelaySeconds w) (wire w) x
    (intervals w) (sleepers w) (next_timer w) (next_socket w) (random w)
    (random_pos w) (clock w) (clock_pos w).

Definition set_intervals (x : list (positive * jsval)) (w : World) : World :=
  mkWorld (sessionStorage w) (localStorage w) (_websocket w) (_heartbeat w)
    (_statusChangeCb w) (_availabilityChangeCb w) (_loggingCb w)
    (_remoteStartStopResponse w) (_remoteStartDelaySeconds w) (wire w)
    (events w) x (sleepers w) (next_timer w) (next_socket w) (random w)
    (random_pos w) (clock w) (clock_pos w).

Definition set_sleepers (x : list (jsval * jsval)) (w : World) : World :=
  mkWorld (sessionStorage w) (localStorage w) (_websocket w) (_heartbeat w)
    (_statusChangeCb w) (_availabilityChangeCb w) (_loggingCb w)
    (_remoteStartStopResponse w) (_remoteStartDelaySeconds w) (wire w)
    (events w) (intervals w) x (next_timer w) (next_socket w) (random w)
    (random_pos w) (clock w) (clock_pos w).

Definition set_next_timer (x : positive) (w : World) : World :=
  mkWorld (sessionStorage w) (localStorage w) (_websocket w) (_heartbeat w)
    (_statusChangeCb w) (_availabilityChangeCb w) (_loggingCb w)
    (_remoteStartStopResponse w) (_remoteStartDelaySeconds w) (wire w)
    (events w) (intervals w) (sleepers w) x (next_socket w) (random w)
    (random_pos w) (clock w) (clock_pos w).

Definition set_next_socket (x : nat) (w : World) : World :=
  mkWorld (sessionStorage w) (localStorage w) (_websocket w) (_heartbeat w)
    (_statusChangeCb w) (_availabilityChangeCb w) (_loggingCb w)
    (_remoteStartStopResponse w) (_remoteStartDelaySeconds w) (wire w)
    (events w) (intervals w) (sleepers w) (next_timer w) x (random w)
    (random_pos w) (clock w) (clock_pos w).

Definition set_random_pos (x : nat) (w : World) : World :=
  mkWorld (sessionStorage w) (localStorage w) (_websocket w) (_heartbeat w)
    (_statusChangeCb w) (_availabilityChangeCb w) (_loggingCb w)
    (_remoteStartStopResponse w) (_remoteStartDelaySeconds w) (wire w)
    (events w) (intervals w) (sleepers w) (next_timer w) (next_socket w)
    (random w) x (clock w) (clock_pos w).

Definition set_clock_pos (x : nat) (w : World) : World :=
  mkWorld (sessionStorage w) (localStorage w) (_websocket w) (_heartbeat w)
    (_statusChangeCb w) (_availabilityChangeCb w) (_loggingCb w)
    (_remoteStartStopResponse w) (_remoteStartDelaySeconds w) (wire w)
    (events w) (intervals w) (sleepers w) (next_timer w) (next_socket w)
    (random w) (random_pos w) (clock w) x.

Definition add_wire (e : wire_event) (w : World) : World :=
  set_wire (wire w ++ [e]) w.

Definition add_event (e : event) (w : World) : World :=
  set_events (events w ++ [e]) w.

(** [luxon.DateTime.utc().toISO()] *)
Definition utc_now (w : World) : string * World :=
  (clock w (clock_pos w), set_clock_pos (S (clock_pos w)) w).

(** [Math.random()] *)
Definition Math_random (w : World) : Q * World :=
  (random w (random_pos w), set_random_pos (S (random_pos w)) w).

(** [setInterval(this.sendHeartbeat, ms)] *)
Definition setInterval (ms : jsval) (w : World) : positive * World :=
  (next_timer w,
   set_next_timer (Pos.succ (next_timer w))
     (set_intervals ((next_timer w, ms) :: intervals w) w)).

(** [clearInterval(h)] *)
Definition clearInterval (h : positive) (w : World) : World :=
  set_intervals (List.filter (fun t => negb (Pos.eqb (fst t) h)) (intervals w)) w.

(** [v * 1000] and [1000 * v] *)
Definition times_1000 (v : jsval) : jsval :=
  match JS.toNumber v with
  | JNum n => JNum (n * 1000)
  | _ => JNaN
  end.

(** ** Constants *)

Definition KEY_CP_STATUS : string := "cp_status".
Definition KEY_METER_VALUE : string := "meter_value".
Definition KEY_CONN_STATUS : string := "conn_status".
Definition KEY_CONN_AVAILABILITY : string := "conn_availability".

Definition CP_ERROR : string := "error".
Definition CP_DISCONNECTED : string := "disconnected".
Definition CP_CONNECTING : string := "connecting".
Definition CP_CONNECTED : string := "connected".
Definition CP_AUTHORIZED : string := "authorized".
Definition CP_INTRANSACTION : string := "in_transaction".

Definition CONN_AVAILABLE : string := "Available".
Definition CONN_CHARGING : string := "Charging".
Definition CONN_UNAVAILABLE : string := "Unavailable".
Definition CONN_FINISHING : string := "Finishing".

Definition START_TRANSACTION : string := "StartTransaction".
Definition STOP_TRANSACTION : string := "StopTransaction".
Definition AUTHORIZE : string := "Authorize".
Definition BOOT_NOTIFICATION : string := "BootNotification".

Definition AVAILABITY_OPERATIVE : string := "Operative".
Definition AVAILABITY_INOPERATIVE : string := "Inoperative".

Definition WSURL : string := "WSURL".
Definition CPID : string := "CPID".
Definition TAGID : string := "TAG".

(** ** Utility functions *)

(** What [formatDate] asks of its [Date]: the six getters, for a valid
    date (an invalid one answers [NaN] to each, which is outside the
    model). *)
Record Date : Type := mkDate {
  getFullYear : Z;
  getMonth : Z;
  getDate : Z;
  getHours : Z;
  getMinutes : Z;
  getSeconds : Z
}.

(** [s.slice(-2)] *)
Definition slice_last_two (s : string) : string :=
  String.substring (String.length s - 2)%nat 2 s.

(** [if (s.length < 2) { s = '0' + s.slice(-2); }] *)
Definition pad (s : string) : string :=
  if (String.length s <? 2)%nat then "0" +:+ slice_last_two s else s.

(** [h] is the number that [getHours] returns, not its [String]: its
    [length] is [undefined], [undefined < 2] is false, and the [if] that
    would pad it never runs. *)
Definition formatDate (date : Date) : string :=
  let day := pad (JS.toString (JNum (getDate date))) in
  let monthIndex := pad (JS.toString (JNum (getMonth date + 1))) in
  let year := JNum (getFullYear date) in
  let h := JNum (getHours date) in
  let m := pad (JS.toString (JNum (getMinutes date))) in
  let s := pad (JS.toString (JNum (getSeconds date))) in
  JS.toString year +:+ "-" +:+ monthIndex +:+ "-" +:+ day +:+ "T" +:+ JS.toString h
    +:+ ":" +:+ m +:+ ":" +:+ s +:+ "Z".

Definition possible : string :=
  "ABCDEFGHIJKLMNOPQRSTUVWXYZabcdefghijklmnopqrstuvwxyz0123456789".

(** [s.charAt(i)]: the empty string when [i] is out of range. *)
Definition charAt (s : string) (i : Z) : string :=
  if i <? 0 then ""
  else match String.get (Z.to_nat i) s with
       | Some c => String c ""
       | None => ""
       end.

(** [Math.floor(x * n)] *)
Definition floor_times (x : Q) (n : nat) : Z :=
  Qfloor (x * inject_Z (Z.of_nat n)).

(** The body of [for (let i = 0; i < 36; i++)], [n] rounds to go. *)
Fixpoint generateId_loop (n : nat) (id : string) (w : World) : string * World :=
  match n with
  | O => (id, w)
  | S n' =>
      let (r, w1) := Math_random w in
      generateId_loop n'
        (id +:+ charAt possible (floor_times r (String.length possible))) w1
  end.

Definition generateId (w : World) : string * World :=
  generateId_loop 36 "" w.

(** [isEmpty(str)]: [!str || 0 === str.length] *)
Definition isEmpty (str : jsval) : bool :=
  negb (JS.truthy str) ||
  match str with
  | JStr s => (String.length s =? 0)%nat
  | JArr items => (length items =? 0)%nat
  | JObj members => JS.strict_eq_num (default JUndef (JS.lookup_member "length" members)) 0
  | _ => false
  end.

Definition setSessionKey (key : string) (value : jsval) (w : World) : World :=
  set_sessionStorage (<[key := JS.toString value]> (sessionStorage w)) w.

Definition getSessionKey (key : string) (default_value : string) (w : World) : string :=
  match sessionStorage w !! key with
  | Some v => if String.eqb v "" then default_value else v
  | None => default_value
  end.

Definition setKey (key : string) (value : jsval) (w : World) : World :=
  set_localStorage (<[key := JS.toString value]> (localStorage w)) w.

Definition keyDefaultValue (key : string) : string :=
  if String.eqb key WSURL then "ws:*localhost:8080/steve/websocket/CentralSystemService/"
  else if String.eqb key CPID then "CP01"
  else if String.eqb key TAGID then "DEADBEEF"
  else "".

(** The script declares [getKey] twice at its top level: first with a
    [default_value] parameter, then, among the shell's helpers, with
    [keyDefaultValue].  A script keeps the later declaration of a
    function name, so this is the [getKey] every caller reaches; a second
    argument passed to it is ignored. *)
Definition getKey (key : string) (w : World) : string :=
  match localStorage w !! key with
  | Some v => if String.eqb v "" then keyDefaultValue key else v
  | None => keyDefaultValue key
  end.

(** The earlier declaration, which the later one replaces. *)
Definition getKey_with_default (key default_value : string) (w : World) : string :=
  match localStorage w !! key with
  | Some v => if String.eqb v "" then default_value else v
  | None => default_value
  end.

(** ** The [ChargePoint] class *)

(** How a handler ends: normally, or with the [TypeError] of a member
    read on [null] or [undefined] (or of a call of something that is not
    a function).  In both cases the world is the one reached so far. *)
Inductive outcome : Type :=
  | Done (w : World)
  | TypeError (w : World).

Definition world_of (o : outcome) : World :=
  match o with
  | Done w | TypeError w => w
  end.

Module ChargePoint.

(** The fields the constructor sets. *)
Definition constructor (w : World) : World :=
  set_remoteStartDelaySeconds (JNum 0)
    (set_remoteStartStopResponse "Accepted"
       (set_loggingCb false
          (set_availabilityChangeCb true
             (set_statusChangeCb false
                (set_heartbeat None (set_websocket None w)))))).

Definition logMsg (msg : string) (w : World) : World :=
  if _loggingCb w then add_event (Log ("[OCPP] " +:+ msg)) w else w.

Definition setStatus (s msg : string) (w : World) : World :=
  let w := setSessionKey KEY_CP_STATUS (JStr s) w in
  if _statusChangeCb w then add_event (StatusChange s msg) w else w.

Definition status (w : World) : string :=
  getSessionKey KEY_CP_STATUS "" w.

Definition setLastAction (action : string) (w : World) : World :=
  setSessionKey "LastAction" (JStr action) w.

Definition getLastAction (w : World) : string :=
  getSessionKey "LastAction" "" w.

Definition wsSendData (data : jsval) (w : World) : World :=
  match _websocket w with
  | Some sock => add_wire (WsSend sock data) w
  | None => setStatus CP_ERROR "No connection to OCPP server" w
  end.

Definition wsDisconnect (w : World) : World :=
  let w := match _websocket w with
           | Some sock => add_wire (WsClose sock 3001) w
           | None => w
           end in
  setStatus CP_DISCONNECTED "" w.

Definition setHeartbeat (period : jsval) (w : World) : World :=
  let w := logMsg ("Setting heartbeat period to " +:+ JS.toString period +:+ "s") w in
  let w := match _heartbeat w with
           | Some h => clearInterval h w
           | None => w
           end in
  let (h, w) := setInterval (times_1000 period) w in
  set_heartbeat (Some h) w.

Definition sendHeartbeat (w : World) : World :=
  let w := setLastAction "Heartbeat" w in
  let (id, w) := generateId w in
  let HB := JS.JSON_stringify (JArr [JNum 2; JStr id; JStr "Heartbeat"; JObj []]) in
  let w := logMsg "Heartbeat" w in
  wsSendData HB w.

Definition sendBootNotification (w : World) : World :=
  let w := logMsg "Sending BootNotification" w in
  let w := setLastAction BOOT_NOTIFICATION w in
  let (id, w) := generateId w in
  let bn_req :=
    JS.JSON_stringify
      (JArr [JNum 2; JStr id; JStr "BootNotification";
             JObj [("chargePointVendor", JStr "Elmo");
                   ("chargePointModel", JStr "Elmo-Virtual1");
                   ("chargePointSerialNumber", JStr "elm.001.13.1");
                   ("chargeBoxSerialNumber", JStr "elm.001.13.1.01");
                   ("firmwareVersion", JStr "0.9.87");
                   ("iccid", JStr "");
                   ("imsi", JStr "");
                   ("meterType", JStr "ELM NQC-ACDC");
                   ("meterSerialNumber", JStr "elm.001.13.1.01")]]) in
  wsSendData bn_req w.

Definition authorize (tagId : jsval) (w : World) : World :=
  let w := setLastAction "Authorize" w in
  let w := logMsg ("Requesting authorization for tag " +:+ JS.toString tagId) w in
  let (id, w) := generateId w in
  let Auth :=
    JS.JSON_stringify
      (JArr [JNum 2; JStr id; JStr "Authorize"; JObj [("idTag", tagId)]]) in
  wsSendData Auth w.

Definition meterValue (w : World) : jsval :=
  JS.parseInt (getSessionKey KEY_METER_VALUE "0" w).

Definition sendMeterValue (connectorId : jsval) (w : World) : World :=
  let connectorId := JS.default_arg connectorId (JNum 0) in
  let w := setLastAction "MeterValues" w in
  let meter := getSessionKey KEY_METER_VALUE "" w in
  let (id, w) := generateId w in
  let transactionId := JS.parseInt (getSessionKey "TransactionId" "" w) in
  let (ts, w) := utc_now w in
  let mvreq :=
    JS.JSON_stringify
      (JArr [JNum 2; JStr id; JStr "MeterValues";
             JObj [("connectorId", connectorId);
                   ("transactionId", transactionId);
                   ("meterValue",
                    JArr [JObj [("sampledValue",
                                 JArr [JObj [("value", JStr meter);
                                             ("context", JStr "Sample.Periodic");
                                             ("format", JStr "Raw");
                                             ("measurand", JStr "Energy.Active.Import.Register");
                                             ("location", JStr "Outlet");
                                             ("unit", JStr "Wh")]]);
                                ("timestamp", JStr ts)]])]]) in
  let w := logMsg ("Send Meter Values (Wh): " +:+ meter +:+ " (connector "
                   +:+ JS.toString connectorId +:+ ")") w in
  wsSendData mvreq w.

Definition setMeterValue (v : jsval) (updateServer : bool) (w : World) : World :=
  let w := setSessionKey KEY_METER_VALUE v w in
  if updateServer then sendMeterValue JUndef w else w.

Definition connectorStatus (c : jsval) (w : World) : string :=
  let key := KEY_CONN_STATUS +:+ JS.toString c in
  getSessionKey key "" w.

Definition sendStatusNotification (connectorId : jsval) (w : World) : World :=
  let st := connectorStatus connectorId w in
  let w := setLastAction "StatusNotification" w in
  let (id, w) := generateId w in
  let (ts, w) := utc_now w in
  let sn_req :=
    JS.JSON_stringify
      (JArr [JNum 2; JStr id; JStr "StatusNotification";
             JObj [("connectorId", connectorId);
                   ("status", JStr st);
                   ("errorCode", JStr "NoError");
                   ("info", JStr "");
                   ("timestamp", JStr ts);
                   ("vendorId", JStr "");
                   ("vendorErrorCode", JStr "")]]) in
  let w := logMsg ("Sending StatusNotification for connector "
                   +:+ JS.toString connectorId +:+ ": " +:+ st) w in
  wsSendData sn_req w.

(** The call [this.sendStatusNotification(connectorId, newStatus)] passes
    one argument more than the method declares; it is dropped. *)
Definition setConnectorStatus (connectorId newStatus : jsval) (updateServer : bool)
    (w : World) : World :=
  let key := KEY_CONN_STATUS +:+ JS.toString connectorId in
  let w := setSessionKey key newStatus w in
  if updateServer then sendStatusNotification connectorId w else w.

(** [_cp.setMeterValue(0)] addresses the page's one charge point, which
    is the object the method runs on; the write to the [#metervalue]
    field before it is to the DOM. *)
Definition startTransaction (tagId connectorId reservationId : jsval) (w : World) : World :=
  let connectorId := JS.default_arg connectorId (JNum 1) in
  let reservationId := JS.default_arg reservationId (JNum 0) in
  let w := setStatus CP_INTRANSACTION "" w in
  let (id, w) := generateId w in
  let w := setMeterValue (JNum 0) false w in
  let (ts, w) := utc_now w in
  let strtT :=
    JS.JSON_stringify
      (JArr [JNum 2; JStr id; JStr START_TRANSACTION;
             JObj [("connectorId", connectorId);
                   ("idTag", tagId);
                   ("meterStart", JNum 0);
                   ("timestamp", JStr ts);
                   ("reservationId", reservationId)]]) in
  let w := logMsg ("Starting Transaction for tag " +:+ JS.toString tagId
                   +:+ " (connector:" +:+ JS.toString connectorId
                   +:+ ", meter value=" +:+ JS.toString (JNum 0) +:+ ")") w in
  let w := wsSendData strtT w in
  let w := setConnectorStatus connectorId (JStr CONN_CHARGING) true w in
  setLastAction START_TRANSACTION w.

Definition stopTransactionWithId (transactionId tagId : jsval) (w : World) : World :=
  let tagId := JS.default_arg tagId (JStr "DEADBEEF") in
  let w := setLastAction STOP_TRANSACTION w in
  let w := setStatus CP_AUTHORIZED "" w in
  let meterValue := meterValue w in
  let w := logMsg ("Stopping Transaction with id " +:+ JS.toString transactionId
                   +:+ " (meterValue (Wh) =" +:+ JS.toString meterValue +:+ ")") w in
  let (id, w) := generateId w in
  let (ts, w) := utc_now w in
  let (ts_begin, w) := utc_now w in
  let (ts_end, w) := utc_now w in
  let sample (value context : string) :=
    JObj [("value", JStr value);
          ("context", JStr context);
          ("format", JStr "Raw");
          ("measurand", JStr "Energy.Active.Import.Register");
          ("location", JStr "Outlet");
          ("unit", JStr "Wh")] in
  let stopParams :=
    [("transactionId", transactionId);
     ("timestamp", JStr ts);
     ("meterStop", meterValue);
     ("reason", JStr "Local");
     ("transactionData",
      JArr [JObj [("sampledValue", JArr [sample "0" "Transaction.Begin"]);
                  ("timestamp", JStr ts_begin)];
            JObj [("sampledValue", JArr [sample (JS.toString meterValue) "Transaction.End"]);
                  ("timestamp", JStr ts_end)]])] in
  let stopParams :=
    if negb (isEmpty tagId) then (stopParams ++ [("idTag", tagId)])%list else stopParams in
  let stpT :=
    JS.JSON_stringify (JArr [JNum 2; JStr id; JStr "StopTransaction"; JObj stopParams]) in
  let w := wsSendData stpT w in
  setConnectorStatus (JNum 1) (JStr CONN_FINISHING) false w.

Definition stopTransaction (tagId : jsval) (w : World) : World :=
  let transactionId := JS.parseInt (getSessionKey "TransactionId" "" w) in
  stopTransactionWithId transactionId tagId w.

Definition triggerMessage (requestedMessage c : jsval) (w : World) : World :=
  let c := JS.default_arg c (JNum 0) in
  if JS.strict_eq_str requestedMessage "BootNotification" then sendBootNotification w
  else if JS.strict_eq_str requestedMessage "Heartbeat" then sendHeartbeat w
  else if JS.strict_eq_str requestedMessage "MeterValues" then sendMeterValue c w
  else if JS.strict_eq_str requestedMessage "StatusNotification" then sendStatusNotification c w
  else if JS.strict_eq_str requestedMessage "DiagnosticStatusNotification" then w
  else if JS.strict_eq_str requestedMessage "FirmwareStatusNotification" then w
  else logMsg ("Requested Message not supported: " +:+ JS.toString requestedMessage) w.

(** [availability] calls [getKey(key, AVAILABITY_OPERATIVE)]; see
    [getKey] for which declaration answers. *)
Definition availability (connectorId : jsval) (w : World) : string :=
  let connectorId := JS.default_arg connectorId (JNum 0) in
  let key := KEY_CONN_AVAILABILITY +:+ JS.toString connectorId in
  getKey key w.

(** The body of [setConnectorAvailability], with [self] standing for the
    method where the body calls itself. *)
Definition setConnectorAvailability_body (self : jsval -> jsval -> World -> World)
    (connectorId newAvailability : jsval) (w : World) : World :=
  let key := KEY_CONN_AVAILABILITY +:+ JS.toString connectorId in
  let w := setKey key newAvailability w in
  let w :=
    if JS.loose_eq_str newAvailability AVAILABITY_INOPERATIVE then
      setConnectorStatus connectorId (JStr CONN_UNAVAILABLE) true w
    else if JS.loose_eq_str newAvailability AVAILABITY_INOPERATIVE then
      setConnectorStatus connectorId (JStr CONN_AVAILABLE) true w
    else w in
  let w :=
    if _availabilityChangeCb w then
      add_event (AvailabilityChange connectorId newAvailability) w
    else w in
  if JS.strict_eq_num connectorId 0 then
    self (JNum 2) newAvailability (self (JNum 1) newAvailability w)
  else w.

(** The method calls itself only from connector 0, on connectors 1 and
    2, so two unfoldings of the body reach every call;
    [setConnectorAvailability_unfold] below is the recursive equation of
    the source. *)
Definition setConnectorAvailability : jsval -> jsval -> World -> World :=
  setConnectorAvailability_body
    (setConnectorAvailability_body (fun _ _ w => w)).

(** [handleCallRequest] is an [async] method: it runs up to its [await]
    when it is called; what follows the [await] (the call
    [this.startTransaction(tagId)]) is parked in [sleepers] and run by
    [resumeRemoteStart] when the timeout fires. *)
Definition handleCallRequest (id request payload : jsval) (w : World) : outcome :=
  let respOk := JS.JSON_stringify (JArr [JNum 3; id; JObj [("status", JStr "Accepted")]]) in
  let connectorId := JNum 0 in
  if JS.strict_eq_str request "Reset" then
    match JS.get_field payload "type" with
    | None => TypeError w
    | Some rstType =>
        let w := logMsg ("Reset Request: type=" +:+ JS.toString rstType) w in
        let w := wsSendData respOk w in
        Done (wsDisconnect w)
    end
  else if JS.strict_eq_str request "RemoteStartTransaction" then
    match JS.get_field payload "idTag" with
    | None => TypeError w
    | Some tagId =>
        let w := logMsg ("Reception of a RemoteStartTransaction request for tag "
                         +:+ JS.toString tagId) w in
        let rstConf :=
          JS.JSON_stringify
            (JArr [JNum 3; id; JObj [("status", JStr (_remoteStartStopResponse w))]]) in
        let w := wsSendData rstConf w in
        if String.eqb (_remoteStartStopResponse w) "Rejected" then Done w
        else
          let w := logMsg ("Simulating " +:+ JS.toString (_remoteStartDelaySeconds w)
                           +:+ " sec delay for user to plug in charger") w in
          Done (set_sleepers
                  (sleepers w ++ [(times_1000 (_remoteStartDelaySeconds w), tagId)])%list w)
    end
  else if JS.strict_eq_str request "RemoteStopTransaction" then
    match JS.get_field payload "transactionId" with
    | None => TypeError w
    | Some stop_id =>
        let w := logMsg ("Reception of a RemoteStopTransaction request for transaction "
                         +:+ JS.toString stop_id) w in
        let respConf :=
          JS.JSON_stringify
            (JArr [JNum 3; id; JObj [("status", JStr (_remoteStartStopResponse w))]]) in
        let w := wsSendData respConf w in
        if String.eqb (_remoteStartStopResponse w) "Rejected" then Done w
        else Done (stopTransactionWithId stop_id JUndef w)
    end
  else if JS.strict_eq_str request "TriggerMessage" then
    match JS.get_field payload "requestedMessage" with
    | None => TypeError w
    | Some requestedMessage =>
        let connectorId :=
          match JS.get_field payload "connectorId" with
          | Some c => if JS.truthy c then c else connectorId
          | None => connectorId
          end in
        let w := logMsg ("Reception of a TriggerMessage request ("
                         +:+ JS.toString requestedMessage +:+ ")") w in
        let w := wsSendData respOk w in
        Done (triggerMessage requestedMessage connectorId w)
    end
  else if JS.strict_eq_str request "ChangeAvailability" then
    match JS.get_field payload "type", JS.get_field payload "connectorId" with
    | Some avail, Some connectorId =>
        let w := logMsg ("Reception of a ChangeAvailability request (connector "
                         +:+ JS.toString connectorId +:+ " " +:+ JS.toString avail +:+ ")") w in
        let w := wsSendData respOk w in
        Done (setConnectorAvailability (JS.toNumber connectorId) avail w)
    | _, _ => TypeError w
    end
  else if JS.strict_eq_str request "UnlockConnector" then
    Done (wsSendData respOk w)
  else if JS.strict_eq_str request "GetConfiguration" then
    match JS.get_field payload "requestedMessage" with
    | None => TypeError w
    | Some requestedMessage =>
        let w := logMsg ("Reception of a GetConfiguration request ("
                         +:+ JS.toString requestedMessage +:+ ")") w in
        let configuration :=
          JArr [JNum 3; id;
                JObj [("unknownKey", JArr []);
                      ("configurationKey",
                       JArr [JObj [("key", JStr "HeartbeatInterval");
                                   ("readonly", JBool false);
                                   ("value", JStr "900")]])]] in
        Done (wsSendData (JS.JSON_stringify configuration) w)
    end
  else
    let error := JS.JSON_stringify (JArr [JNum 4; id; JStr "NotImplemented"]) in
    Done (wsSendData error w).

(** The continuation of a [RemoteStartTransaction] handler after its
    [await]. *)
Definition resumeRemoteStart (tagId : jsval) (w : World) : World :=
  startTransaction tagId JUndef JUndef w.

(** The [switch (la)] of [handleCallResult], as a function of the action
    it switches on. *)
Definition resultHandler (la : string) (payload : jsval) (w : World) : outcome :=
  if String.eqb la BOOT_NOTIFICATION then
    match JS.get_field payload "status" with
    | None => TypeError w
    | Some st =>
        if JS.loose_eq_str st "Accepted" then
          let w := logMsg "Connection accepted" w in
          match JS.get_field payload "interval" with
          | None => TypeError w
          | Some hb_interval =>
              let w := setHeartbeat hb_interval w in
              Done (setStatus CP_CONNECTED "" w)
          end
        else
          let w := logMsg "Connection refused by server" w in
          Done (wsDisconnect w)
    end
  else if String.eqb la AUTHORIZE then
    match JS.get_field payload "idTagInfo" with
    | None => TypeError w
    | Some idTagInfo =>
        match JS.get_field idTagInfo "status" with
        | None => TypeError w
        | Some st =>
            if JS.loose_eq_str st "Invalid" then Done (logMsg "Authorization failed" w)
            else
              let w := logMsg "Authorization OK" w in
              Done (setStatus CP_AUTHORIZED "" w)
        end
    end
  else if String.eqb la START_TRANSACTION then
    match JS.get_field payload "transactionId" with
    | None => TypeError w
    | Some transactionId =>
        if negb (JS.truthy transactionId) then Done w
        else
          let w := setSessionKey "TransactionId" transactionId w in
          let w := setStatus CP_INTRANSACTION
                     ("TransactionId: " +:+ JS.toString transactionId) w in
          Done (logMsg ("Transaction id is " +:+ JS.toString transactionId) w)
    end
  else if String.eqb la STOP_TRANSACTION then
    let connectorId := JNum 1 in
    Done (setConnectorStatus connectorId (JStr CONN_AVAILABLE) false w)
  else
    match JS.keys_length payload with
    | None => TypeError w
    | Some n =>
        if (0 <? n)%nat then
          Done (logMsg ("NOT IMPLEMENTED in handleCallResult in ocpp_chargepont.js, payload: "
                        +:+ JS.JSON_text (JS.JSON_stringify payload)) w)
        else Done w
    end.

Definition handleCallResult (payload : jsval) (w : World) : outcome :=
  let la := getLastAction w in
  resultHandler la payload w.

(** *** [wsConnect] and the callbacks it installs *)

(** [new WebSocket(...)] is taken to accept the URL. *)
Definition wsConnect (wsurl cpid : string) (w : World) : World :=
  match _websocket w with
  | Some sock =>
      let w := setStatus CP_ERROR "Socket already opened. Closing it. Retry later" w in
      add_wire (WsClose sock 3001) w
  | None =>
      let sock := next_socket w in
      let w := set_next_socket (S sock) w in
      let w := add_wire (WsNew sock (wsurl +:+ "" +:+ cpid) ["ocpp1.6"; "ocpp1.5"]) w in
      set_websocket (Some sock) w
  end.

Definition onopen (w : World) : World :=
  let w := setStatus CP_CONNECTING "" w in
  sendBootNotification w.

(** [readyState] is what [self._websocket.readyState] yields when there
    is a socket to read it from, [evt_type] is [evt.type]. *)
Definition onerror (readyState : Z) (evt_type : string) (w : World) : outcome :=
  match _websocket w with
  | None => TypeError w
  | Some _ =>
      if readyState =? 1 then
        Done (setStatus CP_ERROR ("ws normal error: " +:+ evt_type) w)
      else if readyState =? 3 then
        Done (setStatus CP_ERROR ("connection cannot be opened: " +:+ evt_type) w)
      else Done (setStatus CP_ERROR ("websocket error: " +:+ evt_type) w)
  end.

(** [ddata] is [JSON.parse(msg.data)], a JSON array.  In this copy of the
    script [handleCallError] is inside a comment that is closed only in
    front of [authorize], so the call in [case 4] is a call of
    [undefined]. *)
Definition onmessage (ddata : list jsval) (w : World) : outcome :=
  let msgType := JS.index ddata 0 in
  if JS.strict_eq_num msgType 2 then
    let id := JS.index ddata 1 in
    let request := JS.index ddata 2 in
    let payload := if (3 <? length ddata)%nat then JS.index ddata 3 else JNull in
    handleCallRequest id request payload w
  else if JS.strict_eq_num msgType 3 then
    handleCallResult (JS.index ddata 2) w
  else if JS.strict_eq_num msgType 4 then
    TypeError w
  else Done w.

Definition onclose (code : Z) (w : World) : World :=
  if code =? 3001 then
    let w := setStatus CP_DISCONNECTED "" w in
    let w := logMsg "Connection closed" w in
    set_websocket None w
  else
    let w := setStatus CP_ERROR ("Connection error: " +:+ pretty code) w in
    let w := logMsg ("Connection error: " +:+ pretty code) w in
    set_websocket None w.

End ChargePoint.

(** ** The shell around the class *)

Module Shell.

(** [$(document).ready(...)]: the three callbacks are installed and the
    status is published as [disconnected]. *)
Definition ready (w : World) : World :=
  let w := ChargePoint.constructor w in
  let w := set_loggingCb true w in
  let w := set_statusChangeCb true w in
  let w := set_availabilityChangeCb true w in
  ChargePoint.setStatus CP_DISCONNECTED "" w.

(** What can happen to a charge point once the page is ready: the
    commands the buttons and form fields issue, the callbacks of the
    socket, and the two kinds of timers. *)
Inductive input : Type :=
  | Connect (wsurl cpid : string)
  | Disconnect
  | Authorize (tagId : jsval)
  | StartTransaction (tagId connectorId reservationId : jsval)
  | StopTransaction (tagId : jsval)
  | StopTransactionWithId (transactionId tagId : jsval)
  | SendHeartbeat
  | SendMeterValue (connectorId : jsval)
  | SetMeterValue (v : jsval) (updateServer : bool)
  | SetConnectorStatus (connectorId newStatus : jsval) (updateServer : bool)
  | SetConnectorAvailability (connectorId newAvailability : jsval)
  | SetStatusChangeCallback (cb : bool)
  | SetLoggingCallback (cb : bool)
  | SetAvailabilityChangeCallback (cb : bool)
  | SetRemoteStartStopResponse (value : string)
  | SetRemoteStartDelaySeconds (value : jsval)
  | SaveSetting (key : string) (value : jsval)
  | SocketOpen
  | SocketError (readyState : Z) (evt_type : string)
  | SocketMessage (ddata : list jsval)
  | SocketClose (code : Z)
  | HeartbeatTick
  | Wake (n : nat).

(** The interval timer calls [sendHeartbeat] detached from the charge
    point ([setInterval(this.sendHeartbeat, ...)] passes the bare
    function), so inside it [this] is the window and the first statement,
    [this.setLastAction('Heartbeat')], is a call of [undefined]. *)
Definition heartbeat_tick (w : World) : outcome := TypeError w.

(** The [n]th suspended [RemoteStartTransaction] handler resumes. *)
Definition wake (n : nat) (w : World) : World :=
  match nth_error (sleepers w) n with
  | Some (_, tagId) =>
      ChargePoint.resumeRemoteStart tagId
        (set_sleepers (firstn n (sleepers w) ++ skipn (S n) (sleepers w))%list w)
  | None => w
  end.

Definition exec (i : input) (w : World) : World :=
  match i with
  | Connect wsurl cpid => ChargePoint.wsConnect wsurl cpid w
  | Disconnect => ChargePoint.wsDisconnect w
  | Authorize tagId => ChargePoint.authorize tagId w
  | StartTransaction tagId connectorId reservationId =>
      ChargePoint.startTransaction tagId connectorId reservationId w
  | StopTransaction tagId => ChargePoint.stopTransaction tagId w
  | StopTransactionWithId transactionId tagId =>
      ChargePoint.stopTransactionWithId transactionId tagId w
  | SendHeartbeat => ChargePoint.sendHeartbeat w
  | SendMeterValue connectorId => ChargePoint.sendMeterValue connectorId w
  | SetMeterValue v updateServer => ChargePoint.setMeterValue v updateServer w
  | SetConnectorStatus connectorId newStatus updateServer =>
      ChargePoint.setConnectorStatus connectorId newStatus updateServer w
  | SetConnectorAvailability connectorId newAvailability =>
      ChargePoint.setConnectorAvailability connectorId newAvailability w
  | SetStatusChangeCallback cb => set_statusChangeCb cb w
  | SetLoggingCallback cb => set_loggingCb cb w
  | SetAvailabilityChangeCallback cb => set_availabilityChangeCb cb w
  | SetRemoteStartStopResponse value => set_remoteStartStopResponse value w
  | SetRemoteStartDelaySeconds value => set_remoteStartDelaySeconds value w
  | SaveSetting key value => setKey key value w
  | SocketOpen => ChargePoint.onopen w
  | SocketError readyState evt_type =>
      world_of (ChargePoint.onerror readyState evt_type w)
  | SocketMessage ddata => world_of (ChargePoint.onmessage ddata w)
  | SocketClose code => ChargePoint.onclose code w
  | HeartbeatTick => world_of (heartbeat_tick w)
  | Wake n => wake n w
  end.

Definition run (inputs : list input) (w : World) : World :=
  fold_left (fun w i => exec i w) inputs w.

(** The worlds a session can be in: the page became ready in some world
    (whatever the stores held then), and inputs followed. *)
Inductive reachable : World -> Prop :=
  | reach_ready w0 : reachable (ready w0)
  | reach_exec w i : reachable w -> reachable (exec i w).

End Shell.

(** ** Worlds to run the script in *)

(** Empty stores, nothing sent, nothing armed; [Math.random()] walks
    through [k/62] and the clock stands still. *)
Definition blank : World :=
  {| sessionStorage := ∅;
     localStorage := ∅;
     _websocket := None;
     _heartbeat := None;
     _statusChangeCb := false;
     _availabilityChangeCb := false;
     _loggingCb := false;
     _remoteStartStopResponse := "Accepted";
     _remoteStartDelaySeconds := JNum 0;
     wire := [];
     events := [];
     intervals := [];
     sleepers := [];
     next_timer := 1%positive;
     next_socket := 0%nat;
     random := fun n => (Z.of_nat ((7 * n + 3) mod 62) # 62)%Q;
     random_pos := 0%nat;
     clock := fun _ => "2024-01-01T00:00:00.000Z";
     clock_pos := 0%nat |}.

(** The page is ready, the socket is open and the server has accepted the
    [BootNotification] with a heartbeat interval of 300 seconds. *)
Definition booted : World :=
  Shell.run
    [Shell.Connect "ws://cs/" "CP01";
     Shell.SocketOpen;
     Shell.SocketMessage
       [JNum 3; JStr "boot";
        JObj [("status", JStr "Accepted"); ("interval", JNum 300);
              ("currentTime", JStr "2024-01-01T00:00:00Z")]]]
    (Shell.ready blank).

(** * The vocabulary of the properties *)

(** ** Scenarios *)

(** An [Authorize] call, then a heartbeat, before the reply comes. *)
Definition authorize_then_heartbeat : World :=
  Shell.run [Shell.Authorize (JStr "DEADBEEF"); Shell.SendHeartbeat] booted.

(** The reply to that [Authorize] call, under the call's [uniqueId]. *)
Definition authorize_reply : list jsval :=
  [JNum 3; JStr "HOVcjqx4BIPWdkry5CJQXelsz6DKRYfmt07E";
   JObj [("idTagInfo", JObj [("status", JStr "Accepted")])]].

(** A transaction was started and the server has answered with id 42;
    the reply to the StatusNotification that [startTransaction] also
    sent is still to come. *)
Definition in_transaction_42 : World :=
  Shell.run
    [Shell.StartTransaction (JStr "DEADBEEF") JUndef JUndef;
     Shell.SocketMessage [JNum 3; JStr "start"; JObj [("transactionId", JNum 42)]]]
    booted.

(** Connector 1 after the server made it [Inoperative]. *)
Definition connector1_inoperative : World :=
  Shell.exec
    (Shell.SocketMessage
       [JNum 2; JStr "c1"; JStr "ChangeAvailability";
        JObj [("connectorId", JNum 1); ("type", JStr "Inoperative")]])
    booted.

(** ** Routing of replies *)

(** The action of the outbound CALL that carried [uid], if the wire has
    one. *)
Fixpoint action_of (uid : string) (sent : list wire_event) : option string :=
  match sent with
  | [] => None
  | WsSend _ (JArr [JNum 2; JStr id; JStr action; _]) :: rest =>
      if String.eqb id uid then Some action else action_of uid rest
  | _ :: rest => action_of uid rest
  end.

(** The routing the specification asks for: a CALLRESULT goes to the
    handler of the action its [uniqueId] was sent with. *)
Definition routed_by_uniqueId (w : World) : Prop :=
  forall uid action payload,
    action_of uid (wire w) = Some action ->
    ChargePoint.onmessage [JNum 3; JStr uid; payload] w
    = ChargePoint.resultHandler action payload w.

(** ** Requests and error replies *)

(** The requests [handleCallRequest] has a [case] for. *)
Definition recognized (request : jsval) : bool :=
  existsb (JS.strict_eq_str request)
    ["Reset"; "RemoteStartTransaction"; "RemoteStopTransaction"; "TriggerMessage";
     "ChangeAvailability"; "UnlockConnector"; "GetConfiguration"].

(** The CALLERROR the specification describes:
    [[4, uniqueId, errorCode, errorDescription, errorDetails]]. *)
Definition five_element_callerror (uid code : string) (frame : jsval) : Prop :=
  exists errorDescription errorDetails,
    frame = JArr [JNum 4; JStr uid; JStr code; errorDescription; errorDetails].

(** ** Availability *)

(** What one call of [setConnectorAvailability] does before it cascades:
    the durable write, the status update and the availability callback. *)
Definition local_update (connectorId newAvailability : jsval) (w : World) : World :=
  ChargePoint.setConnectorAvailability_body (fun _ _ w => w) connectorId newAvailability w.

Definition is_availability_change (e : event) : bool :=
  match e with
  | AvailabilityChange _ _ => true
  | _ => false
  end.

(** The calls of the availability callback, in order. *)
Definition availability_changes (w : World) : list event :=
  List.filter is_availability_change (events w).

(** ** The heartbeat timer *)

(** The timer that [_heartbeat] names in [w] is no longer armed in [w']. *)
Definition heartbeat_cancelled (w w' : World) : Prop :=
  forall h, _heartbeat w = Some h -> h ∉ List.map fst (intervals w').

(** ** Transactions *)

Definition in_transaction (w : World) : Prop :=
  ChargePoint.status w = CP_INTRANSACTION.

(** The session store has a [TransactionId]. *)
Definition transactionId_set (w : World) : Prop :=
  is_Some (sessionStorage w !! "TransactionId").

(** A StartTransaction CALL has been handed to a socket. *)
Definition start_sent (w : World) : Prop :=
  exists sock id payload,
    WsSend sock (JArr [JNum 2; JStr id; JStr START_TRANSACTION; payload]) ∈ wire w.

(** The invariant the specification states. *)
Definition in_transaction_has_id (w : World) : Prop :=
  in_transaction w -> transactionId_set w.

(** The invariant the script keeps. *)
Definition in_transaction_started (w : World) : Prop :=
  in_transaction w -> transactionId_set w \/ start_sent w.

(** A step that removes no session key, does not make the status
    [in_transaction], and only adds to the wire. *)
Definition quiet (w w' : World) : Prop :=
  (forall k, is_Some (sessionStorage w !! k) -> is_Some (sessionStorage w' !! k))
  /\ (sessionStorage w' !! KEY_CP_STATUS = sessionStorage w !! KEY_CP_STATUS
      \/ exists s, sessionStorage w' !! KEY_CP_STATUS = Some s /\ s <> CP_INTRANSACTION)
  /\ wire w `prefix_of` wire w'.

(** ** Identifiers *)

(** An ASCII upper-case letter, lower-case letter or digit. *)
Definition is_alnum (c : ascii) : bool :=
  let n := nat_of_ascii c in
  ((65 <=? n)%nat && (n <=? 90)%nat)
  || ((97 <=? n)%nat && (n <=? 122)%nat)
  || ((48 <=? n)%nat && (n <=? 57)%nat).

(** 36 characters, each of them a letter or a digit. *)
Definition well_formed_id (id : string) : Prop :=
  String.length id = 36%nat
  /\ Forall (fun c => is_alnum c = true) (list_ascii_of_string id).

(** [Math.random()] stays within [[0, 1)]. *)
Definition unit_draws (w : World) : Prop :=
  forall k, (0 <= random w k)%Q /\ (random w k < 1)%Q.

(** What is asked of a socket is not a CALL, or is a CALL whose
    [uniqueId] is a well-formed identifier. *)
Definition call_ok (e : wire_event) : Prop :=
  match e with
  | WsSend _ (JArr (JNum 2 :: uniqueId :: _)) =>
      exists id, uniqueId = JStr id /\ well_formed_id id
  | _ => True
  end.

(** A step that leaves the oracle alone and adds only such requests to
    the wire. *)
Definition sends_well (w w' : World) : Prop :=
  random w' = random w
  /\ exists l, wire w' = (wire w ++ l)%list /\ (unit_draws w -> Forall call_ok l).

(** ** Dates *)

(** The getters of a date of the years 1000 to 9999. *)
Definition calendar_date (date : Date) : Prop :=
  1000 <= getFullYear date <= 9999
  /\ 0 <= getMonth date <= 11
  /\ 1 <= getDate date <= 31
  /\ 0 <= getHours date <= 23
  /\ 0 <= getMinutes date <= 59
  /\ 0 <= getSeconds date <= 59.

(** ** The steps a method is made of *)

(** The six values the script gives the status. *)
Definition statuses : list string :=
  [CP_ERROR; CP_DISCONNECTED; CP_CONNECTING; CP_CONNECTED; CP_AUTHORIZED; CP_INTRANSACTION].

(** One step of a method: a line for the log, a change of status, a write
    to one of the script's keys, something asked of a socket, a draw, a
    look at the clock, a heartbeat timer, a handler put to sleep or woken,
    a socket taken or dropped.  [stores_id] says whether the step may
    write the [TransactionId], [changes_availability] whether it may write
    to the durable store. *)
Inductive effect (stores_id changes_availability : bool) : World -> World -> Prop :=
  | eff_log msg w : effect stores_id changes_availability w (ChargePoint.logMsg msg w)
  | eff_status s msg w :
      In s statuses ->
      effect stores_id changes_availability w (ChargePoint.setStatus s msg w)
  | eff_lastAction action w :
      effect stores_id changes_availability w (ChargePoint.setLastAction action w)
  | eff_meter v w :
      effect stores_id changes_availability w (setSessionKey KEY_METER_VALUE v w)
  | eff_connector c v w :
      effect stores_id changes_availability w
        (setSessionKey (KEY_CONN_STATUS +:+ JS.toString c) v w)
  | eff_transactionId v w :
      stores_id = true -> JS.truthy v = true ->
      effect stores_id changes_availability w (setSessionKey "TransactionId" v w)
  | eff_availability c v w :
      changes_availability = true ->
      effect stores_id changes_availability w
        (setKey (KEY_CONN_AVAILABILITY +:+ JS.toString c) v w)
  | eff_availability_cb c a w :
      effect stores_id changes_availability w (add_event (AvailabilityChange c a) w)
  | eff_wire e w : effect stores_id changes_availability w (add_wire e w)
  | eff_draws n w : effect stores_id changes_availability w (set_random_pos n w)
  | eff_clock n w : effect stores_id changes_availability w (set_clock_pos n w)
  | eff_heartbeat period w :
      effect stores_id changes_availability w (ChargePoint.setHeartbeat period w)
  | eff_sleepers l w : effect stores_id changes_availability w (set_sleepers l w)
  | eff_websocket s w : effect stores_id changes_availability w (set_websocket s w)
  | eff_next_socket n w : effect stores_id changes_availability w (set_next_socket n w).

(** A sequence of steps. *)
Definition effects (stores_id changes_availability : bool) : World -> World -> Prop :=
  rtc (effect stores_id changes_availability).

(** The inputs that only set a field of the charge point or a setting. *)
Definition is_setting (i : Shell.input) : bool :=
  match i with
  | Shell.SetStatusChangeCallback _ | Shell.SetLoggingCallback _
  | Shell.SetAvailabilityChangeCallback _ | Shell.SetRemoteStartStopResponse _
  | Shell.SetRemoteStartDelaySeconds _ | Shell.SaveSetting _ _ => true
  | _ => false
  end.

(** The inputs that can store a transaction id: a CALLRESULT that comes
    while [LastAction] is [StartTransaction]. *)
Definition may_store_id (i : Shell.input) (w : World) : bool :=
  match i with
  | Shell.SocketMessage ddata =>
      JS.strict_eq_num (JS.index ddata 0) 3
      && String.eqb (ChargePoint.getLastAction w) START_TRANSACTION
  | _ => false
  end.

(** The inputs that can change an availability: the command and the
    [ChangeAvailability] request. *)
Definition may_change_availability (i : Shell.input) : bool :=
  match i with
  | Shell.SetConnectorAvailability _ _ => true
  | Shell.SocketMessage ddata =>
      JS.strict_eq_num (JS.index ddata 0) 2
      && JS.strict_eq_str (JS.index ddata 2) "ChangeAvailability"
  | _ => false
  end.

(** What a step may write to the session store. *)
Definition session_write (stores_id : bool) (k v : string) : Prop :=
  (k = KEY_CP_STATUS /\ In v statuses)
  \/ k = "LastAction"
  \/ k = KEY_METER_VALUE
  \/ (exists c, k = KEY_CONN_STATUS +:+ JS.toString c)
  \/ (stores_id = true /\ k = "TransactionId"
      /\ exists x, JS.truthy x = true /\ v = JS.toString x).

(** The session keys the script writes. *)
Definition script_key (k : string) : bool :=
  String.eqb k KEY_CP_STATUS || String.eqb k "LastAction" || String.eqb k KEY_METER_VALUE
  || String.eqb k "TransactionId" || String.prefix KEY_CONN_STATUS k.

(** The status in the store is one of the six. *)
Definition status_valid (w : World) : Prop :=
  exists s, sessionStorage w !! KEY_CP_STATUS = Some s /\ In s statuses.

(** At most one timer is armed, the one [_heartbeat] names. *)
Definition single_timer (w : World) : Prop :=
  match _heartbeat w with
  | Some h => exists ms, intervals w = [(h, ms)]
  | None => intervals w = []
  end.

(** ** Frames *)

(** What [JSON.stringify] makes of the member of an object: nothing of
    [undefined], [null] of [NaN]. *)
Definition json_member (v : jsval) : jsval :=
  match v with
  | JUndef => JUndef
  | _ => JS.JSON_stringify v
  end.

(** The members of [JSON.stringify] of an object. *)
Definition stringify_members (ms : list (string * jsval)) : list (string * jsval) :=
  match JS.JSON_stringify (JObj ms) with
  | JObj l => l
  | _ => []
  end.

(** The status after a send: [error] if there was no socket. *)
Definition after_send (sock : option nat) (store : gmap string string) : gmap string string :=
  match sock with
  | Some _ => store
  | None => <[KEY_CP_STATUS := CP_ERROR]> store
  end.

(** The frames a send adds to the wire: none if there was no socket. *)
Definition sent (sock : option nat) (frame : jsval) : list wire_event :=
  match sock with
  | Some s => [WsSend s frame]
  | None => []
  end.

(** A CALLRESULT or a CALLERROR under the [uniqueId] [uid]. *)
Definition answers (uid : string) (frame : jsval) : Prop :=
  exists rest,
    frame = JArr (JNum 3 :: JStr uid :: rest) \/ frame = JArr (JNum 4 :: JStr uid :: rest).

(** The answer [{"status": s}] to the request [uid]. *)
Definition status_reply (uid s : string) : jsval :=
  JArr [JNum 3; JStr uid; JObj [("status", JStr s)]].

(** The messages [triggerMessage] sends something for. *)
Definition triggers (requestedMessage : jsval) : bool :=
  existsb (JS.strict_eq_str requestedMessage)
    ["BootNotification"; "Heartbeat"; "MeterValues"; "StatusNotification"].

(** * Properties *)

(** ** What the helpers leave alone *)

Lemma set_random_pos_id w : set_random_pos (random_pos w) w = w.
Proof. by destruct w. Qed.

Lemma generateId_loop_world n id w :
  snd (generateId_loop n id w) = set_random_pos (n + random_pos w)%nat w.
Proof.
  revert id w. induction n as [|n IH]; intros id w; simpl.
  - apply eq_sym, set_random_pos_id.
  - rewrite IH. unfold set_random_pos; simpl. by rewrite Nat.add_succ_r.
Qed.

(** [generateId] consumes 36 draws and touches nothing else. *)
Lemma generateId_world w :
  snd (generateId w) = set_random_pos (36 + random_pos w)%nat w.
Proof. apply generateId_loop_world. Qed.

(** Name the identifier that [generateId] returns and expose the world
    it leaves. *)
Ltac name_id :=
  match goal with
  | |- context [generateId ?w] =>
      let id := fresh "id" in
      let w' := fresh "w" in
      let E := fresh "E" in
      pose proof (generateId_world w) as E;
      destruct (generateId w) as [id w']; simpl in E; subst w'
  end.

(** Each of the three methods everything else is built from touches
    few fields; the lemmas below say which it leaves alone and what it
    does to the others. *)
Ltac frame :=
  intros;
  unfold ChargePoint.wsSendData, ChargePoint.setStatus, ChargePoint.logMsg, setSessionKey;
  repeat match goal with
         | |- context [if ?b then _ else _] => destruct b eqn:?
         | |- context [match ?x with Some _ => _ | None => _ end] => destruct x eqn:?
         end;
  simpl in *; congruence.

Create Rewrite HintDb world.

Lemma logMsg_sessionStorage msg w :
  sessionStorage (ChargePoint.logMsg msg w) = sessionStorage w.
Proof. frame. Qed.
#[export] Hint Rewrite logMsg_sessionStorage : world.

Lemma logMsg_localStorage msg w :
  localStorage (ChargePoint.logMsg msg w) = localStorage w.
Proof. frame. Qed.
#[export] Hint Rewrite logMsg_localStorage : world.

Lemma logMsg_websocket msg w : _websocket (ChargePoint.logMsg msg w) = _websocket w.
Proof. frame. Qed.
#[export] Hint Rewrite logMsg_websocket : world.

Lemma logMsg_heartbeat msg w : _heartbeat (ChargePoint.logMsg msg w) = _heartbeat w.
Proof. frame. Qed.
#[export] Hint Rewrite logMsg_heartbeat : world.

Lemma logMsg_statusChangeCb msg w :
  _statusChangeCb (ChargePoint.logMsg msg w) = _statusChangeCb w.
Proof. frame. Qed.
#[export] Hint Rewrite logMsg_statusChangeCb : world.

Lemma logMsg_availabilityChangeCb msg w :
  _availabilityChangeCb (ChargePoint.logMsg msg w) = _availabilityChangeCb w.
Proof. frame. Qed.
#[export] Hint Rewrite logMsg_availabilityChangeCb : world.

Lemma logMsg_loggingCb msg w : _loggingCb (ChargePoint.logMsg msg w) = _loggingCb w.
Proof. frame. Qed.
#[export] Hint Rewrite logMsg_loggingCb : world.

Lemma logMsg_wire msg w : wire (ChargePoint.logMsg msg w) = wire w.
Proof. frame. Qed.
#[export] Hint Rewrite logMsg_wire : world.

Lemma logMsg_intervals msg w : intervals (ChargePoint.logMsg msg w) = intervals w.
Proof. frame. Qed.
#[export] Hint Rewrite logMsg_intervals : world.

Lemma logMsg_random msg w : random (ChargePoint.logMsg msg w) = random w.
Proof. frame. Qed.
#[export] Hint Rewrite logMsg_random : world.

Lemma setStatus_localStorage s msg w :
  localStorage (ChargePoint.setStatus s msg w) = localStorage w.
Proof. frame. Qed.
#[export] Hint Rewrite setStatus_localStorage : world.

Lemma setStatus_websocket s msg w :
  _websocket (ChargePoint.setStatus s msg w) = _websocket w.
Proof. frame. Qed.
#[export] Hint Rewrite setStatus_websocket : world.

Lemma setStatus_heartbeat s msg w :
  _heartbeat (ChargePoint.setStatus s msg w) = _heartbeat w.
Proof. frame. Qed.
#[export] Hint Rewrite setStatus_heartbeat : world.

Lemma setStatus_statusChangeCb s msg w :
  _statusChangeCb (ChargePoint.setStatus s msg w) = _statusChangeCb w.
Proof. frame. Qed.
#[export] Hint Rewrite setStatus_statusChangeCb : world.

Lemma setStatus_availabilityChangeCb s msg w :
  _availabilityChangeCb (ChargePoint.setStatus s msg w) = _availabilityChangeCb w.
Proof. frame. Qed.
#[export] Hint Rewrite setStatus_availabilityChangeCb : world.

Lemma setStatus_loggingCb s msg w :
  _loggingCb (ChargePoint.setStatus s msg w) = _loggingCb w.
Proof. frame. Qed.
#[export] Hint Rewrite setStatus_loggingCb : world.

Lemma setStatus_wire s msg w : wire (ChargePoint.setStatus s msg w) = wire w.
Proof. frame. Qed.
#[export] Hint Rewrite setStatus_wire : world.

Lemma setStatus_intervals s msg w :
  intervals (ChargePoint.setStatus s msg w) = intervals w.
Proof. frame. Qed.
#[export] Hint Rewrite setStatus_intervals : world.

Lemma setStatus_random s msg w : random (ChargePoint.setStatus s msg w) = random w.
Proof. frame. Qed.
#[export] Hint Rewrite setStatus_random : world.

Lemma wsSendData_localStorage data w :
  localStorage (ChargePoint.wsSendData data w) = localStorage w.
Proof. frame. Qed.
#[export] Hint Rewrite wsSendData_localStorage : world.

Lemma wsSendData_websocket data w :
  _websocket (ChargePoint.wsSendData data w) = _websocket w.
Proof. frame. Qed.
#[export] Hint Rewrite wsSendData_websocket : world.

Lemma wsSendData_heartbeat data w :
  _heartbeat (ChargePoint.wsSendData data w) = _heartbeat w.
Proof. frame. Qed.
#[export] Hint Rewrite wsSendData_heartbeat : world.

Lemma wsSendData_statusChangeCb data w :
  _statusChangeCb (ChargePoint.wsSendData data w) = _statusChangeCb w.
Proof. frame. Qed.
#[export] Hint Rewrite wsSendData_statusChangeCb : world.

Lemma wsSendData_availabilityChangeCb data w :
  _availabilityChangeCb (ChargePoint.wsSendData data w) = _availabilityChangeCb w.
Proof. frame. Qed.
#[export] Hint Rewrite wsSendData_availabilityChangeCb : world.

Lemma wsSendData_loggingCb data w :
  _loggingCb (ChargePoint.wsSendData data w) = _loggingCb w.
Proof. frame. Qed.
#[export] Hint Rewrite wsSendData_loggingCb : world.

Lemma wsSendData_intervals data w :
  intervals (ChargePoint.wsSendData data w) = intervals w.
Proof. frame. Qed.
#[export] Hint Rewrite wsSendData_intervals : world.

Lemma wsSendData_random data w : random (ChargePoint.wsSendData data w) = random w.
Proof. frame. Qed.
#[export] Hint Rewrite wsSendData_random : world.

Lemma logMsg_events msg w :
  events (ChargePoint.logMsg msg w)
  = if _loggingCb w then (events w ++ [Log ("[OCPP] " +:+ msg)])%list else events w.
Proof. frame. Qed.
#[export] Hint Rewrite logMsg_events : world.

Lemma setStatus_sessionStorage s msg w :
  sessionStorage (ChargePoint.setStatus s msg w) = <[KEY_CP_STATUS:=s]> (sessionStorage w).
Proof. frame. Qed.
#[export] Hint Rewrite setStatus_sessionStorage : world.

Lemma setStatus_events s msg w :
  events (ChargePoint.setStatus s msg w)
  = if _statusChangeCb w then (events w ++ [StatusChange s msg])%list else events w.
Proof. frame. Qed.
#[export] Hint Rewrite setStatus_events : world.

Lemma wsSendData_sessionStorage data w :
  sessionStorage (ChargePoint.wsSendData data w)
  = match _websocket w with
    | Some _ => sessionStorage w
    | None => <[KEY_CP_STATUS:=CP_ERROR]> (sessionStorage w)
    end.
Proof. frame. Qed.
#[export] Hint Rewrite wsSendData_sessionStorage : world.

Lemma wsSendData_wire data w :
  wire (ChargePoint.wsSendData data w)
  = match _websocket w with
    | Some sock => (wire w ++ [WsSend sock data])%list
    | None => wire w
    end.
Proof. frame. Qed.
#[export] Hint Rewrite wsSendData_wire : world.

Lemma wsSendData_events data w :
  events (ChargePoint.wsSendData data w)
  = match _websocket w with
    | Some _ => events w
    | None =>
        if _statusChangeCb w
        then (events w ++ [StatusChange CP_ERROR "No connection to OCPP server"])%list
        else events w
    end.
Proof. frame. Qed.
#[export] Hint Rewrite wsSendData_events : world.

(** Reading a session key back. *)
Lemma getSessionKey_read key default_value w v :
  sessionStorage w !! key = Some v -> v <> "" ->
  getSessionKey key default_value w = v.
Proof.
  unfold getSessionKey. intros -> Hv. by destruct (String.eqb_spec v "").
Qed.

Lemma status_setStatus s msg w :
  ChargePoint.status (ChargePoint.setStatus s msg w) = s.
Proof.
  unfold ChargePoint.status, getSessionKey.
  rewrite setStatus_sessionStorage, lookup_insert_eq.
  by destruct (String.eqb_spec s "").
Qed.

(** Unfold the methods down to the three basic ones, name the
    identifiers and time stamps, and normalise the field reads. *)
Ltac methods :=
  unfold ChargePoint.onopen, ChargePoint.onclose, ChargePoint.onerror,
    ChargePoint.startTransaction, ChargePoint.stopTransaction,
    ChargePoint.stopTransactionWithId, ChargePoint.setMeterValue,
    ChargePoint.sendMeterValue, ChargePoint.setConnectorStatus,
    ChargePoint.sendStatusNotification, ChargePoint.sendBootNotification,
    ChargePoint.authorize, ChargePoint.sendHeartbeat, ChargePoint.wsDisconnect,
    ChargePoint.connectorStatus, ChargePoint.meterValue, ChargePoint.status,
    ChargePoint.getLastAction, ChargePoint.setLastAction,
    utc_now, setSessionKey, setKey in *.

Ltac fields := repeat (simpl; autorewrite with world).

(** The plain writes, field by field. *)
Lemma setSessionKey_sessionStorage key value w :
  sessionStorage (setSessionKey key value w)
  = <[key := JS.toString value]> (sessionStorage w).
Proof. reflexivity. Qed.

Lemma setSessionKey_websocket key value w :
  _websocket (setSessionKey key value w) = _websocket w.
Proof. reflexivity. Qed.

Lemma add_event_fields e w :
  sessionStorage (add_event e w) = sessionStorage w
  /\ _websocket (add_event e w) = _websocket w
  /\ wire (add_event e w) = wire w.
Proof. done. Qed.

Lemma setKey_fields key value w :
  sessionStorage (setKey key value w) = sessionStorage w
  /\ _websocket (setKey key value w) = _websocket w
  /\ wire (setKey key value w) = wire w.
Proof. done. Qed.

Lemma setSessionKey_wire key value w : wire (setSessionKey key value w) = wire w.
Proof. reflexivity. Qed.

Lemma connector_keys :
  KEY_CONN_STATUS +:+ JS.toString (JNum 0) = "conn_status0"
  /\ KEY_CONN_STATUS +:+ JS.toString (JNum 1) = "conn_status1"
  /\ KEY_CONN_STATUS +:+ JS.toString (JNum 2) = "conn_status2"
  /\ KEY_CONN_AVAILABILITY +:+ JS.toString (JNum 0) = "conn_availability0"
  /\ KEY_CONN_AVAILABILITY +:+ JS.toString (JNum 1) = "conn_availability1"
  /\ KEY_CONN_AVAILABILITY +:+ JS.toString (JNum 2) = "conn_availability2".
Proof. repeat (split; [by vm_compute|]). by vm_compute. Qed.

(** Two strings that differ in a character that can be read off. *)
Ltac differ :=
  let H := fresh in
  intros H;
  unfold KEY_CP_STATUS, KEY_METER_VALUE, KEY_CONN_STATUS, CP_ERROR, CP_DISCONNECTED,
    CP_CONNECTING, CP_CONNECTED, CP_AUTHORIZED, CP_INTRANSACTION in H;
  simpl in H; discriminate H.

(** ** Replies are routed by [LastAction] *)

(** C1, as stated, fails: the reply to the [Authorize] call carries that
    call's [uniqueId], yet after a heartbeat it is not given to the
    [Authorize] handler and the charge point stays [connected]; without
    the heartbeat the same reply authorizes it. *)
Lemma heartbeat_misroutes_authorize_reply :
  action_of "HOVcjqx4BIPWdkry5CJQXelsz6DKRYfmt07E" (wire authorize_then_heartbeat)
    = Some "Authorize"
  /\ ChargePoint.status
       (world_of (ChargePoint.onmessage authorize_reply authorize_then_heartbeat))
     = CP_CONNECTED
  /\ ChargePoint.status
       (world_of (ChargePoint.onmessage authorize_reply
                    (Shell.exec (Shell.Authorize (JStr "DEADBEEF")) booted)))
     = CP_AUTHORIZED
  /\ ~ routed_by_uniqueId authorize_then_heartbeat.
Proof.
  split; [by vm_compute|]. split; [by vm_compute|]. split; [by vm_compute|].
  intros H.
  specialize (H "HOVcjqx4BIPWdkry5CJQXelsz6DKRYfmt07E" "Authorize"
                (JObj [("idTagInfo", JObj [("status", JStr "Accepted")])])
                ltac:(by vm_compute)).
  apply (f_equal (fun o => ChargePoint.status (world_of o))) in H.
  vm_compute in H. discriminate H.
Qed.

Lemma getLastAction_sendHeartbeat w :
  ChargePoint.getLastAction (ChargePoint.sendHeartbeat w) = "Heartbeat".
Proof.
  methods. name_id. apply getSessionKey_read; [|done]. fields.
  destruct (_websocket w); [|rewrite lookup_insert_ne by done]; apply lookup_insert_eq.
Qed.

(** The [default] branch, which is where [Heartbeat] leads, writes to no
    store. *)
Lemma resultHandler_heartbeat payload w :
  sessionStorage (world_of (ChargePoint.resultHandler "Heartbeat" payload w))
  = sessionStorage w.
Proof.
  unfold ChargePoint.resultHandler. simpl.
  destruct (JS.keys_length payload) as [n|]; [|done].
  destruct (0 <? n)%nat; [|done]. apply logMsg_sessionStorage.
Qed.

(** C1, amended: a CALLRESULT is given to the handler of the action that
    [LastAction] holds, whatever [uniqueId] it carries; once a heartbeat
    has been sent that action is [Heartbeat], so the next reply, whichever
    call it answers, goes to the [default] branch and changes neither the
    status nor any other session key. *)
Theorem callresult_routed_by_LastAction id payload w :
  ChargePoint.onmessage [JNum 3; id; payload] w
  = ChargePoint.resultHandler (ChargePoint.getLastAction w) payload w
  /\ ChargePoint.onmessage [JNum 3; id; payload] (ChargePoint.sendHeartbeat w)
     = ChargePoint.resultHandler "Heartbeat" payload (ChargePoint.sendHeartbeat w)
  /\ sessionStorage
       (world_of (ChargePoint.onmessage [JNum 3; id; payload] (ChargePoint.sendHeartbeat w)))
     = sessionStorage (ChargePoint.sendHeartbeat w).
Proof.
  split; [reflexivity|].
  assert (ChargePoint.onmessage [JNum 3; id; payload] (ChargePoint.sendHeartbeat w)
          = ChargePoint.resultHandler "Heartbeat" payload (ChargePoint.sendHeartbeat w))
    as Hrouted.
  { change (ChargePoint.resultHandler
              (ChargePoint.getLastAction (ChargePoint.sendHeartbeat w)) payload
              (ChargePoint.sendHeartbeat w)
            = ChargePoint.resultHandler "Heartbeat" payload (ChargePoint.sendHeartbeat w)).
    by rewrite getLastAction_sendHeartbeat. }
  split; [exact Hrouted|].
  rewrite Hrouted. apply resultHandler_heartbeat.
Qed.

(** ** Sending without a socket *)

(** C8: when [wsSendData] is called while [_websocket] is [null], the
    status becomes [error], the status callback (if one is installed) is
    told "No connection to OCPP server", and no socket is asked to send
    anything. *)
Theorem wsSendData_without_socket data w :
  _websocket w = None ->
  ChargePoint.status (ChargePoint.wsSendData data w) = CP_ERROR
  /\ events (ChargePoint.wsSendData data w)
     = (if _statusChangeCb w
        then (events w ++ [StatusChange CP_ERROR "No connection to OCPP server"])%list
        else events w)
  /\ wire (ChargePoint.wsSendData data w) = wire w.
Proof.
  intros Hnull. repeat split.
  - unfold ChargePoint.wsSendData. rewrite Hnull. apply status_setStatus.
  - by rewrite wsSendData_events, Hnull.
  - by rewrite wsSendData_wire, Hnull.
Qed.

Lemma wsSendData_without_socket_witness :
  _websocket (Shell.ready blank) = None
  /\ ChargePoint.status (ChargePoint.wsSendData (JStr "[2]") (Shell.ready blank)) = CP_ERROR
  /\ events (ChargePoint.wsSendData (JStr "[2]") (Shell.ready blank))
     = [StatusChange CP_DISCONNECTED "";
        StatusChange CP_ERROR "No connection to OCPP server"]
  /\ wire (ChargePoint.wsSendData (JStr "[2]") (Shell.ready blank)) = [].
Proof.
  split; [reflexivity|].
  apply (wsSendData_without_socket (JStr "[2]") (Shell.ready blank)). reflexivity.
Defined.

(** ** A [StartTransaction] reply without an id *)

Lemma resultHandler_start_falsy payload tid w :
  JS.get_field payload "transactionId" = Some tid ->
  JS.truthy tid = false ->
  ChargePoint.resultHandler START_TRANSACTION payload w = Done w.
Proof.
  intros Hget Hfalsy. unfold ChargePoint.resultHandler. simpl.
  by rewrite Hget, Hfalsy.
Qed.

(** C6: when the reply handled as a [StartTransaction] result (the
    action in [LastAction]) has no [transactionId] member, or has it
    equal to zero, the handler returns at once: the world, and with it
    the stored [TransactionId] and the status, is the one before. *)
Theorem start_result_without_id id payload w :
  ChargePoint.getLastAction w = START_TRANSACTION ->
  JS.get_field payload "transactionId" = Some JUndef
  \/ JS.get_field payload "transactionId" = Some (JNum 0) ->
  ChargePoint.onmessage [JNum 3; id; payload] w = Done w
  /\ sessionStorage (world_of (ChargePoint.onmessage [JNum 3; id; payload] w))
       !! "TransactionId" = sessionStorage w !! "TransactionId"
  /\ ChargePoint.status (world_of (ChargePoint.onmessage [JNum 3; id; payload] w))
     = ChargePoint.status w.
Proof.
  intros Hla Hid.
  assert (ChargePoint.onmessage [JNum 3; id; payload] w = Done w) as ->; [|done].
  change (ChargePoint.resultHandler (ChargePoint.getLastAction w) payload w = Done w).
  rewrite Hla.
  destruct Hid as [Hid|Hid]; by eapply resultHandler_start_falsy.
Qed.

Lemma start_result_without_id_witness :
  ChargePoint.getLastAction in_transaction_42 = START_TRANSACTION
  /\ (JS.get_field (JObj []) "transactionId" = Some JUndef
      \/ JS.get_field (JObj []) "transactionId" = Some (JNum 0))
  /\ ChargePoint.onmessage [JNum 3; JStr "status"; JObj []] in_transaction_42
     = Done in_transaction_42
  /\ sessionStorage
       (world_of (ChargePoint.onmessage [JNum 3; JStr "status"; JObj []] in_transaction_42))
       !! "TransactionId" = sessionStorage in_transaction_42 !! "TransactionId"
  /\ ChargePoint.status
       (world_of (ChargePoint.onmessage [JNum 3; JStr "status"; JObj []] in_transaction_42))
     = ChargePoint.status in_transaction_42.
Proof.
  split; [by vm_compute|]. split; [by left|].
  apply (start_result_without_id (JStr "status") (JObj []) in_transaction_42).
  - by vm_compute.
  - by left.
Defined.

(** ** An unknown request *)

(** C5, as stated, fails: the answer to a [DataTransfer] request is the
    three-element array [[4, "X", "NotImplemented"]]. *)
Lemma unknown_request_reply_has_three_elements :
  wire (world_of (ChargePoint.onmessage
                    [JNum 2; JStr "X"; JStr "DataTransfer"; JObj []] booted))
  = (wire booted ++ [WsSend 0 (JArr [JNum 4; JStr "X"; JStr "NotImplemented"])])%list
  /\ ~ five_element_callerror "X" "NotImplemented"
         (JArr [JNum 4; JStr "X"; JStr "NotImplemented"]).
Proof.
  split; [by vm_compute|].
  intros (d & e & H). discriminate H.
Qed.

(** C5, amended: over an open socket, an inbound CALL with an action
    that [handleCallRequest] has no [case] for is answered with the
    three-element array [[4, uniqueId, "NotImplemented"]], and the
    handler does nothing else. *)
Theorem unknown_request_reply uid request rest w sock :
  recognized request = false ->
  _websocket w = Some sock ->
  ChargePoint.onmessage (JNum 2 :: JStr uid :: request :: rest) w
  = Done (add_wire (WsSend sock (JArr [JNum 4; JStr uid; JStr "NotImplemented"])) w).
Proof.
  unfold recognized. simpl. intros Hreq Hsock.
  rewrite !orb_false_iff in Hreq. destruct Hreq as (?&?&?&?&?&?&?&_).
  unfold ChargePoint.onmessage, ChargePoint.handleCallRequest, JS.index. simpl.
  repeat match goal with H : JS.strict_eq_str _ _ = false |- _ => rewrite H; clear H end.
  unfold ChargePoint.wsSendData. by rewrite Hsock.
Qed.

Lemma unknown_request_reply_witness :
  recognized (JStr "DataTransfer") = false
  /\ _websocket booted = Some 0%nat
  /\ ChargePoint.onmessage
       (JNum 2 :: JStr "X" :: JStr "DataTransfer" :: [JObj []]) booted
     = Done (add_wire (WsSend 0 (JArr [JNum 4; JStr "X"; JStr "NotImplemented"])) booted).
Proof.
  split; [reflexivity|]. split; [reflexivity|].
  apply (unknown_request_reply "X" (JStr "DataTransfer") [JObj []] booted 0%nat);
    reflexivity.
Defined.

(** ** Connector status *)

Lemma connectorStatus_written c s w :
  ChargePoint.connectorStatus c
    (setSessionKey (KEY_CONN_STATUS +:+ JS.toString c) (JStr s) w) = s.
Proof.
  unfold ChargePoint.connectorStatus, getSessionKey, setSessionKey. simpl.
  rewrite lookup_insert_eq. by destruct (String.eqb_spec s "").
Qed.

(** Over an open socket [sendStatusNotification] records itself as the
    last action and sends one CALL whose [status] is the one in the
    store. *)
Lemma sendStatusNotification_with_socket c w sock :
  _websocket w = Some sock ->
  sessionStorage (ChargePoint.sendStatusNotification c w)
  = <["LastAction" := "StatusNotification"]> (sessionStorage w)
  /\ _websocket (ChargePoint.sendStatusNotification c w) = Some sock
  /\ exists id payload,
       wire (ChargePoint.sendStatusNotification c w)
       = (wire w ++ [WsSend sock (JArr [JNum 2; JStr id; JStr "StatusNotification";
                                        payload])])%list
       /\ JS.get_field payload "status" = Some (JStr (ChargePoint.connectorStatus c w)).
Proof.
  intros Hsock. unfold ChargePoint.sendStatusNotification.
  generalize (ChargePoint.connectorStatus c w). intros st.
  name_id. unfold utc_now. fields.
  unfold ChargePoint.setLastAction, setSessionKey. simpl. rewrite Hsock.
  split; [done|]. split; [done|].
  eexists _, _. split; [reflexivity|].
  by destruct c.
Qed.

(** C9: [setConnectorStatus(c, s, true)] first writes [s] under the
    connector's session key and then runs [sendStatusNotification(c)] in
    the world so written; over an open socket that sends one
    StatusNotification CALL whose [status] member is [s], read back from
    the store. *)
Theorem setConnectorStatus_notifies_written_status c s w sock :
  _websocket w = Some sock ->
  ChargePoint.setConnectorStatus c (JStr s) true w
  = ChargePoint.sendStatusNotification c
      (setSessionKey (KEY_CONN_STATUS +:+ JS.toString c) (JStr s) w)
  /\ sessionStorage (setSessionKey (KEY_CONN_STATUS +:+ JS.toString c) (JStr s) w)
       !! (KEY_CONN_STATUS +:+ JS.toString c) = Some s
  /\ exists id payload,
       wire (ChargePoint.setConnectorStatus c (JStr s) true w)
       = (wire w ++ [WsSend sock (JArr [JNum 2; JStr id; JStr "StatusNotification";
                                        payload])])%list
       /\ JS.get_field payload "status" = Some (JStr s).
Proof.
  intros Hsock. split; [reflexivity|]. split.
  { unfold setSessionKey. simpl. apply lookup_insert_eq. }
  unfold ChargePoint.setConnectorStatus.
  destruct (sendStatusNotification_with_socket c
              (setSessionKey (KEY_CONN_STATUS +:+ JS.toString c) (JStr s) w) sock Hsock)
    as (_ & _ & id & payload & Hwire & Hstatus).
  rewrite connectorStatus_written in Hstatus.
  exists id, payload. split; [exact Hwire|exact Hstatus].
Qed.

Lemma setConnectorStatus_notifies_written_status_witness :
  _websocket booted = Some 0%nat
  /\ ChargePoint.setConnectorStatus (JNum 1) (JStr "Charging") true booted
     = ChargePoint.sendStatusNotification (JNum 1)
         (setSessionKey (KEY_CONN_STATUS +:+ JS.toString (JNum 1)) (JStr "Charging") booted)
  /\ sessionStorage
       (setSessionKey (KEY_CONN_STATUS +:+ JS.toString (JNum 1)) (JStr "Charging") booted)
       !! (KEY_CONN_STATUS +:+ JS.toString (JNum 1)) = Some "Charging"
  /\ exists id payload,
       wire (ChargePoint.setConnectorStatus (JNum 1) (JStr "Charging") true booted)
       = (wire booted ++ [WsSend 0 (JArr [JNum 2; JStr id; JStr "StatusNotification";
                                          payload])])%list
       /\ JS.get_field payload "status" = Some (JStr "Charging").
Proof.
  split; [reflexivity|].
  apply (setConnectorStatus_notifies_written_status (JNum 1) "Charging" booted 0%nat).
  reflexivity.
Defined.

(** ** Connector availability *)

Lemma setConnectorAvailability_body_ext self1 self2 connectorId newAvailability w :
  (forall c a w', c = JNum 1 \/ c = JNum 2 -> self1 c a w' = self2 c a w') ->
  ChargePoint.setConnectorAvailability_body self1 connectorId newAvailability w
  = ChargePoint.setConnectorAvailability_body self2 connectorId newAvailability w.
Proof.
  intros Hself. unfold ChargePoint.setConnectorAvailability_body.
  destruct (JS.strict_eq_num connectorId 0); [|reflexivity].
  rewrite !Hself by auto. reflexivity.
Qed.

(** The recursive equation of the source: what [setConnectorAvailability]
    calls where its body says [this.setConnectorAvailability] is
    [setConnectorAvailability] itself. *)
Lemma setConnectorAvailability_unfold connectorId newAvailability w :
  ChargePoint.setConnectorAvailability connectorId newAvailability w
  = ChargePoint.setConnectorAvailability_body ChargePoint.setConnectorAvailability
      connectorId newAvailability w.
Proof.
  unfold ChargePoint.setConnectorAvailability at 1.
  apply setConnectorAvailability_body_ext.
  intros c a w' [-> | ->]; reflexivity.
Qed.

Lemma setConnectorAvailability_body_eq self connectorId newAvailability w :
  ChargePoint.setConnectorAvailability_body self connectorId newAvailability w
  = if JS.strict_eq_num connectorId 0
    then self (JNum 2) newAvailability
           (self (JNum 1) newAvailability (local_update connectorId newAvailability w))
    else local_update connectorId newAvailability w.
Proof.
  unfold local_update, ChargePoint.setConnectorAvailability_body.
  destruct (JS.strict_eq_num connectorId 0); reflexivity.
Qed.

Lemma setConnectorAvailability_cascade connectorId newAvailability w :
  ChargePoint.setConnectorAvailability connectorId newAvailability w
  = if JS.strict_eq_num connectorId 0
    then local_update (JNum 2) newAvailability
           (local_update (JNum 1) newAvailability
              (local_update connectorId newAvailability w))
    else local_update connectorId newAvailability w.
Proof.
  unfold ChargePoint.setConnectorAvailability.
  rewrite setConnectorAvailability_body_eq. reflexivity.
Qed.

Lemma local_update_operative connectorId w :
  sessionStorage (local_update connectorId (JStr AVAILABITY_OPERATIVE) w) = sessionStorage w
  /\ wire (local_update connectorId (JStr AVAILABITY_OPERATIVE) w) = wire w.
Proof.
  unfold local_update, ChargePoint.setConnectorAvailability_body, setKey. simpl.
  destruct (_availabilityChangeCb w), (JS.strict_eq_num connectorId 0); done.
Qed.

(** With [Operative], neither branch of the [if] is taken: both test for
    [Inoperative].  No session key is written and nothing is sent, for
    connector 0 and its cascade as for any other connector. *)
Lemma setConnectorAvailability_operative connectorId w :
  sessionStorage (ChargePoint.setConnectorAvailability connectorId
                    (JStr AVAILABITY_OPERATIVE) w) = sessionStorage w
  /\ wire (ChargePoint.setConnectorAvailability connectorId
             (JStr AVAILABITY_OPERATIVE) w) = wire w.
Proof.
  rewrite setConnectorAvailability_cascade.
  destruct (JS.strict_eq_num connectorId 0).
  - split.
    + by rewrite !(proj1 (local_update_operative _ _)).
    + by rewrite !(proj2 (local_update_operative _ _)).
  - apply local_update_operative.
Qed.

(** C2: the code at [setConnectorAvailability(1, "Operative")].  Making
    the connector [Inoperative] set its status to [Unavailable] and sent
    a StatusNotification; making it [Operative] again records the
    availability but leaves the status [Unavailable] and sends nothing,
    where the claim has it [Available] with a StatusNotification. *)
Theorem operative_keeps_connector_unavailable :
  ChargePoint.connectorStatus (JNum 1) connector1_inoperative = CONN_UNAVAILABLE
  /\ ChargePoint.availability (JNum 1)
       (ChargePoint.setConnectorAvailability (JNum 1) (JStr "Operative")
          connector1_inoperative) = AVAILABITY_OPERATIVE
  /\ ChargePoint.connectorStatus (JNum 1)
       (ChargePoint.setConnectorAvailability (JNum 1) (JStr "Operative")
          connector1_inoperative) = CONN_UNAVAILABLE
  /\ wire (ChargePoint.setConnectorAvailability (JNum 1) (JStr "Operative")
             connector1_inoperative) = wire connector1_inoperative.
Proof.
  split; [by vm_compute|]. split; [by vm_compute|]. split; by vm_compute.
Qed.

Lemma local_update_inoperative c w sock :
  _websocket w = Some sock ->
  sessionStorage (local_update c (JStr AVAILABITY_INOPERATIVE) w)
  = <["LastAction" := "StatusNotification"]>
      (<[KEY_CONN_STATUS +:+ JS.toString c := CONN_UNAVAILABLE]> (sessionStorage w))
  /\ _websocket (local_update c (JStr AVAILABITY_INOPERATIVE) w) = Some sock
  /\ exists id payload,
       wire (local_update c (JStr AVAILABITY_INOPERATIVE) w)
       = (wire w ++ [WsSend sock (JArr [JNum 2; JStr id; JStr "StatusNotification";
                                        payload])])%list
       /\ JS.get_field payload "status" = Some (JStr CONN_UNAVAILABLE).
Proof.
  intros Hsock.
  set (written := setSessionKey (KEY_CONN_STATUS +:+ JS.toString c) (JStr CONN_UNAVAILABLE)
                    (setKey (KEY_CONN_AVAILABILITY +:+ JS.toString c)
                       (JStr AVAILABITY_INOPERATIVE) w)).
  assert (_websocket written = Some sock) as Hsock'.
  { subst written.
    by rewrite setSessionKey_websocket, (proj1 (proj2 (setKey_fields _ _ _))). }
  destruct (sendStatusNotification_with_socket c written sock Hsock')
    as (Hstore & Hsock'' & id & payload & Hwire & Hstatus).
  set (notified := ChargePoint.sendStatusNotification c written) in *.
  assert (local_update c (JStr AVAILABITY_INOPERATIVE) w
          = if _availabilityChangeCb notified
            then add_event (AvailabilityChange c (JStr AVAILABITY_INOPERATIVE)) notified
            else notified) as ->.
  { unfold local_update, ChargePoint.setConnectorAvailability_body,
      ChargePoint.setConnectorStatus.
    change (JS.loose_eq_str (JStr AVAILABITY_INOPERATIVE) AVAILABITY_INOPERATIVE) with true.
    cbv beta iota zeta. fold written. fold notified.
    by destruct (JS.strict_eq_num c 0). }
  assert (sessionStorage notified
          = <["LastAction" := "StatusNotification"]>
              (<[KEY_CONN_STATUS +:+ JS.toString c := CONN_UNAVAILABLE]> (sessionStorage w)))
    as Hstore'.
  { rewrite Hstore. subst written.
    by rewrite setSessionKey_sessionStorage, (proj1 (setKey_fields _ _ _)). }
  assert (wire written = wire w) as Hw.
  { subst written. by rewrite setSessionKey_wire, (proj2 (proj2 (setKey_fields _ _ _))). }
  assert (ChargePoint.connectorStatus c written = CONN_UNAVAILABLE) as Hst.
  { subst written. apply connectorStatus_written. }
  rewrite Hw in Hwire. rewrite Hst in Hstatus.
  destruct (_availabilityChangeCb notified).
  - destruct (add_event_fields (AvailabilityChange c (JStr AVAILABITY_INOPERATIVE)) notified)
      as (-> & -> & ->).
    split; [exact Hstore'|]. split; [exact Hsock''|].
    exists id, payload. split; [exact Hwire|exact Hstatus].
  - split; [exact Hstore'|]. split; [exact Hsock''|].
    exists id, payload. split; [exact Hwire|exact Hstatus].
Qed.

(** With [Inoperative] the first branch is taken: over an open socket
    the connector's status becomes [Unavailable] and a StatusNotification
    saying so is the first thing sent, for connector 0 (whose cascade
    follows) as for any other. *)
Lemma setConnectorAvailability_inoperative c w sock :
  _websocket w = Some sock ->
  ChargePoint.connectorStatus c
    (ChargePoint.setConnectorAvailability c (JStr AVAILABITY_INOPERATIVE) w)
  = CONN_UNAVAILABLE
  /\ exists id payload rest,
       wire (ChargePoint.setConnectorAvailability c (JStr AVAILABITY_INOPERATIVE) w)
       = (wire w ++ WsSend sock (JArr [JNum 2; JStr id; JStr "StatusNotification";
                                       payload]) :: rest)%list
       /\ JS.get_field payload "status" = Some (JStr CONN_UNAVAILABLE).
Proof.
  intros Hsock. rewrite setConnectorAvailability_cascade.
  destruct (local_update_inoperative c w sock Hsock)
    as (Hs0 & Hsock0 & id & payload & Hw0 & Hstatus).
  destruct (JS.strict_eq_num c 0) eqn:Hc.
  - destruct (local_update_inoperative (JNum 1) _ sock Hsock0)
      as (Hs1 & Hsock1 & id1 & payload1 & Hw1 & _).
    destruct (local_update_inoperative (JNum 2) _ sock Hsock1)
      as (Hs2 & _ & id2 & payload2 & Hw2 & _).
    assert (c = JNum 0) as ->.
    { destruct c; try discriminate Hc. simpl in Hc. apply Z.eqb_eq in Hc. by subst. }
    split.
    + unfold ChargePoint.connectorStatus. apply getSessionKey_read; [|done].
      rewrite Hs2, Hs1, Hs0.
      destruct connector_keys as (-> & -> & -> & _).
      rewrite !lookup_insert_ne by differ. apply lookup_insert_eq.
    + eexists id, payload, [_; _]. split; [|exact Hstatus].
      rewrite Hw2, Hw1, Hw0. rewrite <- !app_assoc. reflexivity.
  - split.
    + unfold ChargePoint.connectorStatus. apply getSessionKey_read; [|done].
      rewrite Hs0. rewrite lookup_insert_ne by differ. apply lookup_insert_eq.
    + exists id, payload, []. split; [exact Hw0|exact Hstatus].
Qed.

(** ** The cascade from connector 0 *)

Lemma setConnectorStatus_keeps c st updateServer w :
  localStorage (ChargePoint.setConnectorStatus c st updateServer w) = localStorage w
  /\ _availabilityChangeCb (ChargePoint.setConnectorStatus c st updateServer w)
     = _availabilityChangeCb w
  /\ availability_changes (ChargePoint.setConnectorStatus c st updateServer w)
     = availability_changes w.
Proof.
  unfold availability_changes. methods. destruct updateServer; [|done].
  name_id. fields. split; [done|]. split; [done|].
  destruct (_loggingCb w), (_websocket w), (_statusChangeCb w); simpl;
    rewrite ?List.filter_app; simpl; by rewrite ?app_nil_r.
Qed.

Lemma local_update_effect c a w :
  localStorage (local_update c a w)
  = <[KEY_CONN_AVAILABILITY +:+ JS.toString c := JS.toString a]> (localStorage w)
  /\ _availabilityChangeCb (local_update c a w) = _availabilityChangeCb w
  /\ availability_changes (local_update c a w)
     = (availability_changes w
        ++ if _availabilityChangeCb w then [AvailabilityChange c a] else [])%list.
Proof.
  unfold local_update, ChargePoint.setConnectorAvailability_body.
  set (written := setKey _ a w).
  set (updated := if JS.loose_eq_str a AVAILABITY_INOPERATIVE then _ else _).
  assert (localStorage updated = localStorage written
          /\ _availabilityChangeCb updated = _availabilityChangeCb written
          /\ availability_changes updated = availability_changes written)
    as (Hl & Hcb & Hev).
  { subst updated. destruct (JS.loose_eq_str a AVAILABITY_INOPERATIVE);
      [apply setConnectorStatus_keeps|done]. }
  assert (forall v : World,
             (if JS.strict_eq_num c 0 then v else v) = v) as Hsame
    by (intros v; by destruct (JS.strict_eq_num c 0)).
  rewrite Hsame. clear Hsame.
  change (localStorage written)
    with (<[KEY_CONN_AVAILABILITY +:+ JS.toString c := JS.toString a]> (localStorage w)) in Hl.
  change (_availabilityChangeCb written) with (_availabilityChangeCb w) in Hcb.
  change (availability_changes written) with (availability_changes w) in Hev.
  rewrite Hcb. destruct (_availabilityChangeCb w).
  - split; [exact Hl|]. split; [exact Hcb|].
    unfold availability_changes in *. simpl. by rewrite List.filter_app, Hev.
  - split; [exact Hl|]. split; [exact Hcb|]. by rewrite Hev, app_nil_r.
Qed.

(** C7: [setConnectorAvailability(0, a)] first does its own update (the
    durable write for connector 0 and the availability callback for it,
    connectors 1 and 2 still untouched) and then runs
    [setConnectorAvailability(1, a)] and [setConnectorAvailability(2, a)]
    in the world so reached; afterwards the durable availability of
    connectors 1 and 2 is [a], and the availability callback, if one is
    installed, has been called for connector 0, then 1, then 2. *)
Theorem connector0_availability_cascades s w :
  let a := JStr s in
  let w0 := local_update (JNum 0) a w in
  let w' := ChargePoint.setConnectorAvailability (JNum 0) a w in
  (localStorage w' !! "conn_availability1" = Some s
   /\ localStorage w' !! "conn_availability2" = Some s
   /\ ChargePoint.availability (JNum 1) w' = s
   /\ ChargePoint.availability (JNum 2) w' = s)
  /\ w' = ChargePoint.setConnectorAvailability (JNum 2) a
            (ChargePoint.setConnectorAvailability (JNum 1) a w0)
  /\ (localStorage w0 = <["conn_availability0" := s]> (localStorage w)
      /\ availability_changes w0
         = (availability_changes w
            ++ if _availabilityChangeCb w then [AvailabilityChange (JNum 0) a] else [])%list)
  /\ availability_changes w'
     = (availability_changes w0
        ++ if _availabilityChangeCb w
           then [AvailabilityChange (JNum 1) a; AvailabilityChange (JNum 2) a]
           else [])%list.
Proof.
  intros a w0 w'.
  assert (w' = local_update (JNum 2) a (local_update (JNum 1) a w0)) as Hw'
    by (subst w'; by rewrite setConnectorAvailability_cascade).
  destruct (local_update_effect (JNum 0) a w) as (Hl0 & Hcb0 & Hev0).
  destruct (local_update_effect (JNum 1) a w0) as (Hl1 & Hcb1 & Hev1).
  destruct (local_update_effect (JNum 2) a (local_update (JNum 1) a w0))
    as (Hl2 & Hcb2 & Hev2).
  fold w0 in Hl0, Hcb0, Hev0.
  assert (localStorage w' !! "conn_availability1" = Some s) as H1.
  { rewrite Hw', Hl2, Hl1.
    rewrite lookup_insert_ne by done. apply lookup_insert_eq. }
  assert (localStorage w' !! "conn_availability2" = Some s) as H2.
  { rewrite Hw', Hl2. apply lookup_insert_eq. }
  split; [|split; [|split]].
  - split; [done|]. split; [done|].
    unfold ChargePoint.availability, getKey. simpl JS.default_arg.
    change (KEY_CONN_AVAILABILITY +:+ JS.toString (JNum 1)) with "conn_availability1".
    change (KEY_CONN_AVAILABILITY +:+ JS.toString (JNum 2)) with "conn_availability2".
    rewrite H1, H2.
    split; by destruct (String.eqb_spec s "") as [->|].
  - rewrite Hw'. by rewrite !setConnectorAvailability_cascade.
  - split; [exact Hl0|exact Hev0].
  - rewrite Hw', Hev2, Hev1, Hcb1, Hcb0. rewrite <- app_assoc.
    by destruct (_availabilityChangeCb w).
Qed.

(** ** Disconnecting *)

(** C4, as stated, fails: the heartbeat timer armed when the boot was
    accepted is still armed after [wsDisconnect]. *)
Lemma wsDisconnect_keeps_heartbeat_timer :
  _heartbeat booted = Some 1%positive
  /\ intervals (ChargePoint.wsDisconnect booted) = [(1%positive, JNum 300000)]
  /\ ~ heartbeat_cancelled booted (ChargePoint.wsDisconnect booted).
Proof.
  split; [by vm_compute|]. split; [by vm_compute|].
  intros H. apply (H 1%positive); [by vm_compute|].
  vm_compute. left.
Qed.

(** C4, amended: [wsDisconnect] asks the socket, if there is one, to
    close with code 3001 and sets the status to [disconnected]; the
    heartbeat handle and the armed timers are as they were. *)
Theorem wsDisconnect_effect w :
  ChargePoint.status (ChargePoint.wsDisconnect w) = CP_DISCONNECTED
  /\ wire (ChargePoint.wsDisconnect w)
     = match _websocket w with
       | Some sock => (wire w ++ [WsClose sock 3001])%list
       | None => wire w
       end
  /\ _heartbeat (ChargePoint.wsDisconnect w) = _heartbeat w
  /\ intervals (ChargePoint.wsDisconnect w) = intervals w.
Proof.
  unfold ChargePoint.wsDisconnect. split; [apply status_setStatus|].
  fields. by destruct (_websocket w).
Qed.

(** ** When the charge point is [in_transaction] *)

Lemma reachable_run inputs w :
  Shell.reachable w -> Shell.reachable (Shell.run inputs w).
Proof.
  revert w. induction inputs as [|i inputs IH]; intros w Hw; [exact Hw|].
  apply IH. by apply Shell.reach_exec.
Qed.

Lemma booted_reachable : Shell.reachable booted.
Proof. apply reachable_run, Shell.reach_ready. Qed.

(** C3, as stated, fails: [startTransaction] on a connected charge point
    that never had a transaction leaves it [in_transaction] with no
    [TransactionId] in the session store. *)
Lemma startTransaction_before_any_id :
  Shell.reachable (Shell.exec (Shell.StartTransaction (JStr "DEADBEEF") JUndef JUndef) booted)
  /\ ChargePoint.status
       (Shell.exec (Shell.StartTransaction (JStr "DEADBEEF") JUndef JUndef) booted)
     = CP_INTRANSACTION
  /\ sessionStorage
       (Shell.exec (Shell.StartTransaction (JStr "DEADBEEF") JUndef JUndef) booted)
       !! "TransactionId" = None
  /\ ~ in_transaction_has_id
         (Shell.exec (Shell.StartTransaction (JStr "DEADBEEF") JUndef JUndef) booted).
Proof.
  split; [apply Shell.reach_exec, booted_reachable|].
  split; [by vm_compute|]. split; [by vm_compute|].
  intros H. destruct H as [v Hv]; [by vm_compute|].
  vm_compute in Hv. discriminate Hv.
Qed.

Lemma in_transaction_lookup w :
  in_transaction w <-> sessionStorage w !! KEY_CP_STATUS = Some CP_INTRANSACTION.
Proof.
  unfold in_transaction, ChargePoint.status, getSessionKey.
  destruct (sessionStorage w !! KEY_CP_STATUS) as [v|]; [|done].
  destruct (String.eqb_spec v ""); split; intros H; simplify_eq; done.
Qed.

Lemma quiet_refl w : quiet w w.
Proof. split; [done|]. split; [by left|done]. Qed.

Lemma quiet_trans w1 w2 w3 : quiet w1 w2 -> quiet w2 w3 -> quiet w1 w3.
Proof.
  intros (Hk1 & Hs1 & Hw1) (Hk2 & Hs2 & Hw2). split; [|split].
  - auto.
  - destruct Hs2 as [Hs2|Hs2]; [rewrite Hs2; exact Hs1|by right].
  - by etrans.
Qed.

Lemma quiet_same w w' :
  sessionStorage w' = sessionStorage w -> wire w' = wire w -> quiet w w'.
Proof. intros Hs Hw. unfold quiet. rewrite Hs, Hw. apply quiet_refl. Qed.

Lemma quiet_setSessionKey key value w :
  key <> KEY_CP_STATUS -> quiet w (setSessionKey key value w).
Proof.
  intros Hkey. unfold quiet, setSessionKey. simpl. split; [|split].
  - intros k Hk. destruct (decide (key = k)) as [->|Hne].
    + rewrite lookup_insert_eq. eauto.
    + by rewrite lookup_insert_ne.
  - left. by rewrite lookup_insert_ne.
  - done.
Qed.

Lemma quiet_setStatus s msg w :
  s <> CP_INTRANSACTION -> quiet w (ChargePoint.setStatus s msg w).
Proof.
  intros Hs. unfold quiet. rewrite setStatus_sessionStorage, setStatus_wire.
  split; [|split].
  - intros k Hk. destruct (decide (KEY_CP_STATUS = k)) as [<-|Hne].
    + rewrite lookup_insert_eq. eauto.
    + by rewrite lookup_insert_ne.
  - right. exists s. by rewrite lookup_insert_eq.
  - done.
Qed.

Lemma quiet_add_wire e w : quiet w (add_wire e w).
Proof.
  split; [done|]. split; [by left|]. simpl. by apply prefix_app_r.
Qed.

Lemma quiet_wsSendData data w : quiet w (ChargePoint.wsSendData data w).
Proof.
  unfold ChargePoint.wsSendData. destruct (_websocket w).
  - apply quiet_add_wire.
  - by apply quiet_setStatus.
Qed.

Lemma quiet_logMsg msg w : quiet w (ChargePoint.logMsg msg w).
Proof. apply quiet_same; [apply logMsg_sessionStorage|apply logMsg_wire]. Qed.

Lemma quiet_inv w w' :
  quiet w w' -> in_transaction_started w -> in_transaction_started w'.
Proof.
  intros (Hk & Hs & [l Hl]) Hinv Hin. apply in_transaction_lookup in Hin.
  destruct Hs as [Hs|(s & Hs & Hne)]; [|congruence].
  rewrite Hs in Hin. apply in_transaction_lookup in Hin.
  destruct (Hinv Hin) as [Htx|(sock & id & payload & Hsent)].
  - left. by apply Hk.
  - right. exists sock, id, payload. rewrite Hl. apply elem_of_app. by left.
Qed.

Create HintDb quiet discriminated.
#[export] Hint Constants Opaque : quiet.

#[export] Hint Resolve quiet_logMsg quiet_wsSendData quiet_add_wire : quiet.
#[export] Hint Extern 1 (quiet _ (ChargePoint.setStatus _ _ _)) =>
  (apply quiet_setStatus; differ) : quiet.
#[export] Hint Extern 1 (quiet _ (setSessionKey _ _ _)) =>
  (apply quiet_setSessionKey; differ) : quiet.
#[export] Hint Extern 1 (quiet _ (ChargePoint.setLastAction _ _)) =>
  (apply quiet_setSessionKey; differ) : quiet.
(** The fields other than the session store and the wire do not matter
    here. *)
Lemma quiet_set_localStorage x w : quiet w (set_localStorage x w).
Proof. by apply quiet_same. Qed.

Lemma quiet_set_websocket x w : quiet w (set_websocket x w).
Proof. by apply quiet_same. Qed.

Lemma quiet_set_heartbeat x w : quiet w (set_heartbeat x w).
Proof. by apply quiet_same. Qed.

Lemma quiet_set_statusChangeCb x w : quiet w (set_statusChangeCb x w).
Proof. by apply quiet_same. Qed.

Lemma quiet_set_availabilityChangeCb x w : quiet w (set_availabilityChangeCb x w).
Proof. by apply quiet_same. Qed.

Lemma quiet_set_loggingCb x w : quiet w (set_loggingCb x w).
Proof. by apply quiet_same. Qed.

Lemma quiet_set_remoteStartStopResponse x w : quiet w (set_remoteStartStopResponse x w).
Proof. by apply quiet_same. Qed.

Lemma quiet_set_remoteStartDelaySeconds x w : quiet w (set_remoteStartDelaySeconds x w).
Proof. by apply quiet_same. Qed.

Lemma quiet_set_events x w : quiet w (set_events x w).
Proof. by apply quiet_same. Qed.

Lemma quiet_set_intervals x w : quiet w (set_intervals x w).
Proof. by apply quiet_same. Qed.

Lemma quiet_set_sleepers x w : quiet w (set_sleepers x w).
Proof. by apply quiet_same. Qed.

Lemma quiet_set_next_timer x w : quiet w (set_next_timer x w).
Proof. by apply quiet_same. Qed.

Lemma quiet_set_next_socket x w : quiet w (set_next_socket x w).
Proof. by apply quiet_same. Qed.

Lemma quiet_set_random_pos x w : quiet w (set_random_pos x w).
Proof. by apply quiet_same. Qed.

Lemma quiet_set_clock_pos x w : quiet w (set_clock_pos x w).
Proof. by apply quiet_same. Qed.

Lemma quiet_add_event e w : quiet w (add_event e w).
Proof. by apply quiet_same. Qed.

Lemma quiet_setKey key value w : quiet w (setKey key value w).
Proof. by apply quiet_same. Qed.

#[export] Hint Resolve
  quiet_set_localStorage quiet_set_websocket quiet_set_heartbeat
  quiet_set_statusChangeCb quiet_set_availabilityChangeCb
  quiet_set_loggingCb quiet_set_remoteStartStopResponse
  quiet_set_remoteStartDelaySeconds quiet_set_events quiet_set_intervals
  quiet_set_sleepers quiet_set_next_timer quiet_set_next_socket
  quiet_set_random_pos quiet_set_clock_pos
  quiet_add_event quiet_setKey : quiet.

(** Name every identifier drawn on the way. *)
Ltac name_ids := repeat (cbv beta iota zeta; name_id); cbv beta iota zeta.

(** Follow a method step by step. *)
Ltac quiet_chain :=
  repeat first
    [ apply quiet_refl
    | match goal with
      | |- quiet _ (if ?b then _ else _) => destruct b
      | |- quiet _ (match ?x with Some _ => _ | None => _ end) => destruct x
      end
    | eapply quiet_trans; [|solve [eauto 3 with quiet]] ].

(** Decide the tests a handler makes before it acts. *)
Ltac handler_cases :=
  repeat match goal with
         | |- quiet _ (world_of (Done _)) => cbn [world_of]
         | |- quiet _ (world_of (TypeError _)) => cbn [world_of]
         | |- quiet _ (world_of (if ?b then _ else _)) => destruct b
         | |- quiet _ (world_of (match ?x with Some _ => _ | None => _ end)) => destruct x
         end.

Lemma quiet_sendHeartbeat w : quiet w (ChargePoint.sendHeartbeat w).
Proof. unfold ChargePoint.sendHeartbeat. name_ids. quiet_chain. Qed.

Lemma quiet_sendBootNotification w : quiet w (ChargePoint.sendBootNotification w).
Proof. unfold ChargePoint.sendBootNotification. name_ids. quiet_chain. Qed.

Lemma quiet_authorize tagId w : quiet w (ChargePoint.authorize tagId w).
Proof. unfold ChargePoint.authorize. name_ids. quiet_chain. Qed.

Lemma quiet_sendMeterValue connectorId w :
  quiet w (ChargePoint.sendMeterValue connectorId w).
Proof. unfold ChargePoint.sendMeterValue, utc_now. name_ids. quiet_chain. Qed.

Lemma quiet_sendStatusNotification connectorId w :
  quiet w (ChargePoint.sendStatusNotification connectorId w).
Proof. unfold ChargePoint.sendStatusNotification, utc_now. name_ids. quiet_chain. Qed.

#[export] Hint Resolve quiet_sendHeartbeat quiet_sendBootNotification quiet_authorize
  quiet_sendMeterValue quiet_sendStatusNotification : quiet.

Lemma quiet_setMeterValue v updateServer w :
  quiet w (ChargePoint.setMeterValue v updateServer w).
Proof. unfold ChargePoint.setMeterValue. name_ids. quiet_chain. Qed.

Lemma quiet_setConnectorStatus connectorId newStatus updateServer w :
  quiet w (ChargePoint.setConnectorStatus connectorId newStatus updateServer w).
Proof. unfold ChargePoint.setConnectorStatus. name_ids. quiet_chain. Qed.

#[export] Hint Resolve quiet_setMeterValue quiet_setConnectorStatus : quiet.

Lemma quiet_stopTransactionWithId transactionId tagId w :
  quiet w (ChargePoint.stopTransactionWithId transactionId tagId w).
Proof. unfold ChargePoint.stopTransactionWithId, utc_now. name_ids. quiet_chain. Qed.

Lemma quiet_stopTransaction tagId w : quiet w (ChargePoint.stopTransaction tagId w).
Proof. unfold ChargePoint.stopTransaction. apply quiet_stopTransactionWithId. Qed.

Lemma quiet_wsDisconnect w : quiet w (ChargePoint.wsDisconnect w).
Proof. unfold ChargePoint.wsDisconnect. name_ids. quiet_chain. Qed.

Lemma quiet_setHeartbeat period w : quiet w (ChargePoint.setHeartbeat period w).
Proof.
  unfold ChargePoint.setHeartbeat, setInterval, clearInterval. name_ids. quiet_chain.
Qed.

Lemma quiet_triggerMessage requestedMessage c w :
  quiet w (ChargePoint.triggerMessage requestedMessage c w).
Proof. unfold ChargePoint.triggerMessage. name_ids. quiet_chain. Qed.

Lemma quiet_local_update c a w : quiet w (local_update c a w).
Proof.
  unfold local_update, ChargePoint.setConnectorAvailability_body. name_ids.
  destruct (JS.strict_eq_num c 0); quiet_chain.
Qed.

Lemma quiet_setConnectorAvailability c a w :
  quiet w (ChargePoint.setConnectorAvailability c a w).
Proof.
  rewrite setConnectorAvailability_cascade.
  destruct (JS.strict_eq_num c 0); [|apply quiet_local_update].
  eapply quiet_trans; [|apply quiet_local_update].
  eapply quiet_trans; apply quiet_local_update.
Qed.

#[export] Hint Resolve quiet_stopTransactionWithId quiet_stopTransaction
  quiet_wsDisconnect quiet_setHeartbeat quiet_triggerMessage
  quiet_setConnectorAvailability : quiet.

Lemma quiet_wsConnect wsurl cpid w : quiet w (ChargePoint.wsConnect wsurl cpid w).
Proof. unfold ChargePoint.wsConnect. name_ids. quiet_chain. Qed.

Lemma quiet_onopen w : quiet w (ChargePoint.onopen w).
Proof. unfold ChargePoint.onopen. name_ids. quiet_chain. Qed.

Lemma quiet_onerror readyState evt_type w :
  quiet w (world_of (ChargePoint.onerror readyState evt_type w)).
Proof. unfold ChargePoint.onerror. handler_cases; quiet_chain. Qed.

Lemma quiet_onclose code w : quiet w (ChargePoint.onclose code w).
Proof. unfold ChargePoint.onclose. name_ids. quiet_chain. Qed.

Lemma quiet_handleCallRequest id request payload w :
  quiet w (world_of (ChargePoint.handleCallRequest id request payload w)).
Proof.
  unfold ChargePoint.handleCallRequest. cbv beta zeta.
  handler_cases; quiet_chain.
Qed.

(** A handled CALLRESULT either is a quiet step or leaves a
    [TransactionId] in the store. *)
Lemma resultHandler_quiet_or_set la payload w :
  quiet w (world_of (ChargePoint.resultHandler la payload w))
  \/ transactionId_set (world_of (ChargePoint.resultHandler la payload w)).
Proof.
  unfold ChargePoint.resultHandler.
  destruct (String.eqb la START_TRANSACTION) eqn:Hstart.
  - destruct (String.eqb la BOOT_NOTIFICATION); [left; handler_cases; quiet_chain|].
    destruct (String.eqb la AUTHORIZE); [left; handler_cases; quiet_chain|].
    destruct (JS.get_field payload "transactionId") as [tid|]; [|left; apply quiet_refl].
    destruct (JS.truthy tid); [|left; apply quiet_refl].
    right. unfold transactionId_set. cbn [negb world_of].
    rewrite logMsg_sessionStorage, setStatus_sessionStorage.
    unfold setSessionKey. simpl.
    rewrite lookup_insert_ne by done. rewrite lookup_insert_eq. eauto.
  - left. cbv beta zeta. handler_cases; quiet_chain.
Qed.

Lemma quiet_start_sent w w' : quiet w w' -> start_sent w -> start_sent w'.
Proof.
  intros (_ & _ & [l Hl]) (sock & id & payload & Hsent).
  exists sock, id, payload. rewrite Hl. apply elem_of_app. by left.
Qed.

Lemma sendStatusNotification_without_socket connectorId w :
  _websocket w = None ->
  sessionStorage (ChargePoint.sendStatusNotification connectorId w) !! KEY_CP_STATUS
  = Some CP_ERROR.
Proof.
  intros Hsock. unfold ChargePoint.sendStatusNotification, utc_now. name_ids.
  rewrite wsSendData_sessionStorage.
  match goal with
  | |- context [match _websocket ?x with _ => _ end] =>
      assert (_websocket x = None) as -> by (fields; exact Hsock)
  end.
  apply lookup_insert_eq.
Qed.

(** Name the StartTransaction frame and the world it is sent in. *)
Ltac name_start_frame w :=
  unfold ChargePoint.startTransaction, utc_now in *; name_ids;
  match goal with
  | |- context [ChargePoint.wsSendData ?frame ?x] =>
      let Hsame := fresh "Hsame" in
      set (strtT := frame); set (w3 := x);
      assert (_websocket w3 = _websocket w) as Hsame
        by (subst w3; unfold ChargePoint.setMeterValue; by fields)
  end.

Lemma startTransaction_with_socket tagId connectorId reservationId w sock :
  _websocket w = Some sock ->
  start_sent (ChargePoint.startTransaction tagId connectorId reservationId w).
Proof.
  intros Hsock. name_start_frame w.
  apply (quiet_start_sent (ChargePoint.wsSendData strtT w3)).
  { eapply quiet_trans; [|solve [eauto with quiet]]. solve [eauto with quiet]. }
  unfold start_sent. rewrite wsSendData_wire, Hsame, Hsock.
  eexists _, _, _. apply elem_of_app. right. left.
Qed.

Lemma startTransaction_without_socket tagId connectorId reservationId w :
  _websocket w = None ->
  sessionStorage (ChargePoint.startTransaction tagId connectorId reservationId w)
    !! KEY_CP_STATUS = Some CP_ERROR.
Proof.
  intros Hsock. name_start_frame w.
  unfold ChargePoint.setLastAction at 1. rewrite setSessionKey_sessionStorage.
  rewrite lookup_insert_ne by done.
  unfold ChargePoint.setConnectorStatus.
  rewrite sendStatusNotification_without_socket; [done|].
  rewrite setSessionKey_websocket, wsSendData_websocket. congruence.
Qed.

(** [startTransaction] ends [in_transaction] only if it had a socket to
    hand its CALL to; without one the two sends that follow leave the
    status at [error]. *)
Lemma startTransaction_started tagId connectorId reservationId w :
  in_transaction_started
    (ChargePoint.startTransaction tagId connectorId reservationId w).
Proof.
  intros Hin. destruct (_websocket w) as [sock|] eqn:Hsock.
  - right. exact (startTransaction_with_socket _ _ _ _ _ Hsock).
  - apply in_transaction_lookup in Hin.
    rewrite (startTransaction_without_socket _ _ _ _ Hsock) in Hin. discriminate Hin.
Qed.

Lemma wake_started n w :
  quiet w (Shell.wake n w) \/ in_transaction_started (Shell.wake n w).
Proof.
  unfold Shell.wake. destruct (nth_error (sleepers w) n) as [[delay tagId]|].
  - right. unfold ChargePoint.resumeRemoteStart. apply startTransaction_started.
  - left. apply quiet_refl.
Qed.

(** Every input either is a quiet step or establishes the invariant
    outright. *)
Lemma exec_quiet_or_started i w :
  quiet w (Shell.exec i w) \/ in_transaction_started (Shell.exec i w).
Proof.
  destruct i; cbn [Shell.exec].
  - left. apply quiet_wsConnect.
  - left. apply quiet_wsDisconnect.
  - left. apply quiet_authorize.
  - right. apply startTransaction_started.
  - left. apply quiet_stopTransaction.
  - left. apply quiet_stopTransactionWithId.
  - left. apply quiet_sendHeartbeat.
  - left. apply quiet_sendMeterValue.
  - left. apply quiet_setMeterValue.
  - left. apply quiet_setConnectorStatus.
  - left. apply quiet_setConnectorAvailability.
  - left. apply quiet_set_statusChangeCb.
  - left. apply quiet_set_loggingCb.
  - left. apply quiet_set_availabilityChangeCb.
  - left. apply quiet_set_remoteStartStopResponse.
  - left. apply quiet_set_remoteStartDelaySeconds.
  - left. apply quiet_setKey.
  - left. apply quiet_onopen.
  - left. apply quiet_onerror.
  - unfold ChargePoint.onmessage.
    destruct (JS.strict_eq_num (JS.index ddata 0) 2);
      [left; apply quiet_handleCallRequest|].
    destruct (JS.strict_eq_num (JS.index ddata 0) 3).
    + unfold ChargePoint.handleCallResult.
      destruct (resultHandler_quiet_or_set (ChargePoint.getLastAction w)
                  (JS.index ddata 2) w) as [Hq|Hset]; [by left|].
      right. intros _. by left.
    + left. destruct (JS.strict_eq_num (JS.index ddata 0) 4); apply quiet_refl.
  - left. apply quiet_onclose.
  - left. apply quiet_refl.
  - apply wake_started.
Qed.

(** C3, amended: in every world a session can reach, a charge point that
    is [in_transaction] has a [TransactionId] in the session store or
    has handed a StartTransaction CALL to a socket.  ([startTransaction]
    sets the status before any reply can come; the CALLRESULT handler
    sets it only after it has stored the id.) *)
Theorem reachable_in_transaction_started w :
  Shell.reachable w -> in_transaction_started w.
Proof.
  induction 1 as [w0|w i Hreach IH].
  - intros Hin. unfold Shell.ready, in_transaction in Hin.
    rewrite status_setStatus in Hin. discriminate Hin.
  - destruct (exec_quiet_or_started i w) as [Hq|Hs]; [|exact Hs].
    by apply (quiet_inv w).
Qed.

Lemma reachable_in_transaction_started_witness :
  Shell.reachable in_transaction_42
  /\ in_transaction in_transaction_42
  /\ in_transaction_started in_transaction_42.
Proof.
  assert (Shell.reachable in_transaction_42) as Hreach
    by apply reachable_run, booted_reachable.
  split; [exact Hreach|]. split; [by vm_compute|].
  apply (reachable_in_transaction_started in_transaction_42). exact Hreach.
Defined.

(** ** Identifiers *)

Lemma possible_has_62_characters :
  String.length possible = 62%nat
  /\ NoDup (list_ascii_of_string possible)
  /\ Forall (fun c => is_alnum c = true) (list_ascii_of_string possible).
Proof.
  split; [reflexivity|]. split.
  - apply (bool_decide_unpack _). by vm_compute.
  - apply (bool_decide_unpack _). by vm_compute.
Qed.

Lemma length_append s1 s2 :
  String.length (s1 +:+ s2) = (String.length s1 + String.length s2)%nat.
Proof. induction s1 as [|c s1 IH]; simpl; [done|by rewrite IH]. Qed.

Lemma list_ascii_append s1 s2 :
  list_ascii_of_string (s1 +:+ s2)
  = (list_ascii_of_string s1 ++ list_ascii_of_string s2)%list.
Proof. induction s1 as [|c s1 IH]; simpl; [done|by rewrite IH]. Qed.

(** A draw in [[0, 1)] scaled by the length of the alphabet and rounded
    down is an index into it. *)
Lemma floor_times_range (r : Q) (n : nat) :
  (0 < n)%nat -> (0 <= r)%Q -> (r < 1)%Q -> 0 <= floor_times r n < Z.of_nat n.
Proof.
  intros Hn Hlo Hhi. unfold floor_times.
  assert (inject_Z 0 < inject_Z (Z.of_nat n))%Q as Hpos
    by (rewrite <- Zlt_Qlt; lia).
  change (inject_Z 0) with 0%Q in Hpos.
  split.
  - rewrite <- (Qfloor_Z 0). apply Qfloor_resp_le.
    apply Qmult_le_0_compat; [done|by apply Qlt_le_weak].
  - rewrite (Zlt_Qlt _ (Z.of_nat n)).
    eapply Qle_lt_trans; [apply Qfloor_le|].
    rewrite <- (Qmult_1_l (inject_Z (Z.of_nat n))) at 2.
    by apply Qmult_lt_compat_r.
Qed.

Lemma charAt_possible k :
  0 <= k < 62 ->
  exists c, charAt possible k = String c "" /\ is_alnum c = true.
Proof.
  intros Hk.
  assert (In (Z.to_nat k) (seq 0 62)) as Hin by (apply in_seq; lia).
  assert (forallb (fun i => match charAt possible (Z.of_nat i) with
                            | String c EmptyString => is_alnum c
                            | _ => false
                            end) (seq 0 62) = true) as Hall by (by vm_compute).
  rewrite forallb_forall in Hall. specialize (Hall _ Hin).
  rewrite Z2Nat.id in Hall by lia.
  destruct (charAt possible k) as [|c [|]]; try discriminate. eauto.
Qed.

Lemma generateId_loop_shape n :
  forall id w,
    unit_draws w ->
    Forall (fun c => is_alnum c = true) (list_ascii_of_string id) ->
    String.length (fst (generateId_loop n id w)) = (String.length id + n)%nat
    /\ Forall (fun c => is_alnum c = true)
         (list_ascii_of_string (fst (generateId_loop n id w))).
Proof.
  induction n as [|n IH]; intros id w Hrand Hid; simpl.
  - by rewrite Nat.add_0_r.
  - destruct (charAt_possible (floor_times (random w (random_pos w)) 62))
      as (c & Hc & Halnum).
    { apply (floor_times_range _ 62); [lia|apply Hrand..]. }
    change (String.length possible) with 62%nat. rewrite Hc.
    destruct (IH (id +:+ String c "") (set_random_pos (S (random_pos w)) w))
      as [Hlen Hchars].
    + exact Hrand.
    + rewrite list_ascii_append. apply Forall_app. split; [done|].
      by repeat constructor.
    + split; [|done]. rewrite Hlen, length_append. simpl. lia.
Qed.

Lemma generateId_shape w :
  unit_draws w -> well_formed_id (fst (generateId w)).
Proof.
  intros Hrand.
  destruct (generateId_loop_shape 36 "" w Hrand) as [Hlen Hchars]; [constructor|].
  by split.
Qed.

Lemma blank_unit_draws : unit_draws blank.
Proof.
  intros k. simpl. split.
  - unfold Qle. simpl. lia.
  - unfold Qlt. simpl.
    pose proof (Nat.mod_upper_bound (7 * k + 3) 62 ltac:(lia)). lia.
Qed.

(** *** The identifiers of outbound CALLs *)

Lemma sends_well_refl w : sends_well w w.
Proof. split; [done|]. exists []. by rewrite app_nil_r. Qed.

Lemma sends_well_trans w1 w2 w3 :
  sends_well w1 w2 -> sends_well w2 w3 -> sends_well w1 w3.
Proof.
  intros (Hr1 & l1 & Hw1 & Hl1) (Hr2 & l2 & Hw2 & Hl2). split; [congruence|].
  exists (l1 ++ l2)%list. split; [by rewrite Hw2, Hw1, app_assoc|].
  intros Hd. apply Forall_app. split; [by apply Hl1|].
  apply Hl2. unfold unit_draws. by rewrite Hr1.
Qed.

Lemma sends_well_same w w' :
  random w' = random w -> wire w' = wire w -> sends_well w w'.
Proof. intros Hr Hw. split; [done|]. exists []. by rewrite app_nil_r. Qed.

Lemma sends_well_add_wire e w :
  (unit_draws w -> call_ok e) -> sends_well w (add_wire e w).
Proof.
  intros He. split; [done|]. exists [e]. split; [done|].
  intros Hd. constructor; [by apply He|constructor].
Qed.

Lemma sends_well_wsSendData data w :
  (unit_draws w -> call_ok (WsSend 0 data)) ->
  sends_well w (ChargePoint.wsSendData data w).
Proof.
  intros Hdata. unfold ChargePoint.wsSendData. destruct (_websocket w).
  - by apply sends_well_add_wire.
  - apply sends_well_same; [apply setStatus_random|apply setStatus_wire].
Qed.

Lemma call_ok_call sock id action payload :
  well_formed_id id ->
  call_ok (WsSend sock (JS.JSON_stringify (JArr [JNum 2; JStr id; JStr action; payload]))).
Proof. intros Hid. simpl. eauto. Qed.

Lemma unit_draws_same w w' : random w' = random w -> unit_draws w' -> unit_draws w.
Proof. unfold unit_draws. by intros ->. Qed.

Create Rewrite HintDb oracle.
Create HintDb sends discriminated.
#[export] Hint Constants Opaque : sends.

Lemma sends_well_set_localStorage x w : sends_well w (set_localStorage x w).
Proof. by apply sends_well_same. Qed.

Lemma sends_well_set_websocket x w : sends_well w (set_websocket x w).
Proof. by apply sends_well_same. Qed.

Lemma sends_well_set_heartbeat x w : sends_well w (set_heartbeat x w).
Proof. by apply sends_well_same. Qed.

Lemma sends_well_set_statusChangeCb x w : sends_well w (set_statusChangeCb x w).
Proof. by apply sends_well_same. Qed.

Lemma sends_well_set_availabilityChangeCb x w :
  sends_well w (set_availabilityChangeCb x w).
Proof. by apply sends_well_same. Qed.

Lemma sends_well_set_loggingCb x w : sends_well w (set_loggingCb x w).
Proof. by apply sends_well_same. Qed.

Lemma sends_well_set_remoteStartStopResponse x w :
  sends_well w (set_remoteStartStopResponse x w).
Proof. by apply sends_well_same. Qed.

Lemma sends_well_set_remoteStartDelaySeconds x w :
  sends_well w (set_remoteStartDelaySeconds x w).
Proof. by apply sends_well_same. Qed.

Lemma sends_well_set_events x w : sends_well w (set_events x w).
Proof. by apply sends_well_same. Qed.

Lemma sends_well_set_intervals x w : sends_well w (set_intervals x w).
Proof. by apply sends_well_same. Qed.

Lemma sends_well_set_sleepers x w : sends_well w (set_sleepers x w).
Proof. by apply sends_well_same. Qed.

Lemma sends_well_set_next_timer x w : sends_well w (set_next_timer x w).
Proof. by apply sends_well_same. Qed.

Lemma sends_well_set_next_socket x w : sends_well w (set_next_socket x w).
Proof. by apply sends_well_same. Qed.

Lemma sends_well_set_random_pos x w : sends_well w (set_random_pos x w).
Proof. by apply sends_well_same. Qed.

Lemma sends_well_set_clock_pos x w : sends_well w (set_clock_pos x w).
Proof. by apply sends_well_same. Qed.

Lemma sends_well_set_sessionStorage x w : sends_well w (set_sessionStorage x w).
Proof. by apply sends_well_same. Qed.

Lemma sends_well_add_event e w : sends_well w (add_event e w).
Proof. by apply sends_well_same. Qed.

Lemma sends_well_setKey key value w : sends_well w (setKey key value w).
Proof. by apply sends_well_same. Qed.

Lemma sends_well_setSessionKey key value w : sends_well w (setSessionKey key value w).
Proof. by apply sends_well_same. Qed.

Lemma sends_well_setLastAction action w :
  sends_well w (ChargePoint.setLastAction action w).
Proof. by apply sends_well_same. Qed.

Lemma sends_well_logMsg msg w : sends_well w (ChargePoint.logMsg msg w).
Proof. apply sends_well_same; [apply logMsg_random|apply logMsg_wire]. Qed.

Lemma sends_well_setStatus s msg w : sends_well w (ChargePoint.setStatus s msg w).
Proof. apply sends_well_same; [apply setStatus_random|apply setStatus_wire]. Qed.

#[export] Hint Resolve
  sends_well_set_localStorage
  sends_well_set_websocket
  sends_well_set_heartbeat
  sends_well_set_statusChangeCb
  sends_well_set_availabilityChangeCb
  sends_well_set_loggingCb
  sends_well_set_remoteStartStopResponse
  sends_well_set_remoteStartDelaySeconds
  sends_well_set_events
  sends_well_set_intervals
  sends_well_set_sleepers
  sends_well_set_next_timer
  sends_well_set_next_socket
  sends_well_set_random_pos
  sends_well_set_clock_pos
  sends_well_set_sessionStorage
  sends_well_add_event
  sends_well_setKey
  sends_well_setSessionKey
  sends_well_setLastAction
  sends_well_logMsg
  sends_well_setStatus : sends.

Lemma random_set_localStorage x w : random (set_localStorage x w) = random w.
Proof. reflexivity. Qed.
#[export] Hint Rewrite random_set_localStorage : oracle.

Lemma random_set_websocket x w : random (set_websocket x w) = random w.
Proof. reflexivity. Qed.
#[export] Hint Rewrite random_set_websocket : oracle.

Lemma random_set_heartbeat x w : random (set_heartbeat x w) = random w.
Proof. reflexivity. Qed.
#[export] Hint Rewrite random_set_heartbeat : oracle.

Lemma random_set_statusChangeCb x w : random (set_statusChangeCb x w) = random w.
Proof. reflexivity. Qed.
#[export] Hint Rewrite random_set_statusChangeCb : oracle.

Lemma random_set_availabilityChangeCb x w :
  random (set_availabilityChangeCb x w) = random w.
Proof. reflexivity. Qed.
#[export] Hint Rewrite random_set_availabilityChangeCb : oracle.

Lemma random_set_loggingCb x w : random (set_loggingCb x w) = random w.
Proof. reflexivity. Qed.
#[export] Hint Rewrite random_set_loggingCb : oracle.

Lemma random_set_remoteStartStopResponse x w :
  random (set_remoteStartStopResponse x w) = random w.
Proof. reflexivity. Qed.
#[export] Hint Rewrite random_set_remoteStartStopResponse : oracle.

Lemma random_set_remoteStartDelaySeconds x w :
  random (set_remoteStartDelaySeconds x w) = random w.
Proof. reflexivity. Qed.
#[export] Hint Rewrite random_set_remoteStartDelaySeconds : oracle.

Lemma random_set_events x w : random (set_events x w) = random w.
Proof. reflexivity. Qed.
#[export] Hint Rewrite random_set_events : oracle.

Lemma random_set_intervals x w : random (set_intervals x w) = random w.
Proof. reflexivity. Qed.
#[export] Hint Rewrite random_set_intervals : oracle.

Lemma random_set_sleepers x w : random (set_sleepers x w) = random w.
Proof. reflexivity. Qed.
#[export] Hint Rewrite random_set_sleepers : oracle.

Lemma random_set_next_timer x w : random (set_next_timer x w) = random w.
Proof. reflexivity. Qed.
#[export] Hint Rewrite random_set_next_timer : oracle.

Lemma random_set_next_socket x w : random (set_next_socket x w) = random w.
Proof. reflexivity. Qed.
#[export] Hint Rewrite random_set_next_socket : oracle.

Lemma random_set_random_pos x w : random (set_random_pos x w) = random w.
Proof. reflexivity. Qed.
#[export] Hint Rewrite random_set_random_pos : oracle.

Lemma random_set_clock_pos x w : random (set_clock_pos x w) = random w.
Proof. reflexivity. Qed.
#[export] Hint Rewrite random_set_clock_pos : oracle.

Lemma random_set_sessionStorage x w : random (set_sessionStorage x w) = random w.
Proof. reflexivity. Qed.
#[export] Hint Rewrite random_set_sessionStorage : oracle.

Lemma random_add_event e w : random (add_event e w) = random w.
Proof. reflexivity. Qed.
#[export] Hint Rewrite random_add_event : oracle.

Lemma random_add_wire e w : random (add_wire e w) = random w.
Proof. reflexivity. Qed.
#[export] Hint Rewrite random_add_wire : oracle.

Lemma random_setKey key value w : random (setKey key value w) = random w.
Proof. reflexivity. Qed.
#[export] Hint Rewrite random_setKey : oracle.

Lemma random_setSessionKey key value w : random (setSessionKey key value w) = random w.
Proof. reflexivity. Qed.
#[export] Hint Rewrite random_setSessionKey : oracle.

Lemma random_setLastAction action w :
  random (ChargePoint.setLastAction action w) = random w.
Proof. reflexivity. Qed.
#[export] Hint Rewrite random_setLastAction : oracle.

#[export] Hint Rewrite logMsg_random setStatus_random wsSendData_random : oracle.

(** Name an identifier together with what is known of its shape. *)
Ltac name_id_ok :=
  match goal with
  | |- context [generateId ?w] =>
      let id := fresh "id" in
      let w' := fresh "w" in
      let E := fresh "E" in
      let Hid := fresh "Hid" in
      pose proof (generateId_world w) as E;
      pose proof (generateId_shape w) as Hid;
      destruct (generateId w) as [id w']; cbn [fst snd] in E, Hid; subst w'
  end.

Ltac name_ids_ok := repeat (cbv beta iota zeta; name_id_ok); cbv beta iota zeta.

(** A frame handed to [wsSendData] is a reply, or a CALL under an
    identifier named by [name_id_ok]. *)
Ltac frame_ok :=
  let Hd := fresh "Hd" in
  intros Hd;
  first
    [ exact I
    | apply call_ok_call;
      match goal with
      | H : _ -> well_formed_id ?id |- well_formed_id ?id =>
          apply H; eapply unit_draws_same; [|exact Hd];
          autorewrite with oracle; reflexivity
      end ].

#[export] Hint Extern 1 (sends_well _ (ChargePoint.wsSendData _ _)) =>
  (apply sends_well_wsSendData; frame_ok) : sends.
#[export] Hint Extern 1 (sends_well _ (add_wire (WsNew _ _ _) _)) =>
  (apply sends_well_add_wire; intros _; exact I) : sends.
#[export] Hint Extern 1 (sends_well _ (add_wire (WsClose _ _) _)) =>
  (apply sends_well_add_wire; intros _; exact I) : sends.

Ltac sends_chain :=
  repeat first
    [ apply sends_well_refl
    | match goal with
      | |- sends_well _ (if ?b then _ else _) => destruct b
      | |- sends_well _ (match ?x with Some _ => _ | None => _ end) => destruct x
      end
    | eapply sends_well_trans; [|solve [eauto 3 with sends]] ].

Lemma sends_well_sendHeartbeat w : sends_well w (ChargePoint.sendHeartbeat w).
Proof. unfold ChargePoint.sendHeartbeat. name_ids_ok. sends_chain. Qed.

Lemma random_sendHeartbeat w : random (ChargePoint.sendHeartbeat w) = random w.
Proof. apply sends_well_sendHeartbeat. Qed.

#[export] Hint Resolve sends_well_sendHeartbeat : sends.
#[export] Hint Rewrite random_sendHeartbeat : oracle.

Lemma sends_well_sendBootNotification w :
  sends_well w (ChargePoint.sendBootNotification w).
Proof. unfold ChargePoint.sendBootNotification. name_ids_ok. sends_chain. Qed.

Lemma random_sendBootNotification w :
  random (ChargePoint.sendBootNotification w) = random w.
Proof. apply sends_well_sendBootNotification. Qed.

#[export] Hint Resolve sends_well_sendBootNotification : sends.
#[export] Hint Rewrite random_sendBootNotification : oracle.

Lemma sends_well_authorize tagId w : sends_well w (ChargePoint.authorize tagId w).
Proof. unfold ChargePoint.authorize. name_ids_ok. sends_chain. Qed.

Lemma random_authorize tagId w : random (ChargePoint.authorize tagId w) = random w.
Proof. apply sends_well_authorize. Qed.

#[export] Hint Resolve sends_well_authorize : sends.
#[export] Hint Rewrite random_authorize : oracle.

Lemma sends_well_sendMeterValue connectorId w :
  sends_well w (ChargePoint.sendMeterValue connectorId w).
Proof. unfold ChargePoint.sendMeterValue, utc_now. name_ids_ok. sends_chain. Qed.

Lemma random_sendMeterValue connectorId w :
  random (ChargePoint.sendMeterValue connectorId w) = random w.
Proof. apply sends_well_sendMeterValue. Qed.

#[export] Hint Resolve sends_well_sendMeterValue : sends.
#[export] Hint Rewrite random_sendMeterValue : oracle.

Lemma sends_well_sendStatusNotification connectorId w :
  sends_well w (ChargePoint.sendStatusNotification connectorId w).
Proof. unfold ChargePoint.sendStatusNotification, utc_now. name_ids_ok. sends_chain. Qed.

Lemma random_sendStatusNotification connectorId w :
  random (ChargePoint.sendStatusNotification connectorId w) = random w.
Proof. apply sends_well_sendStatusNotification. Qed.

#[export] Hint Resolve sends_well_sendStatusNotification : sends.
#[export] Hint Rewrite random_sendStatusNotification : oracle.

Lemma sends_well_setMeterValue v updateServer w :
  sends_well w (ChargePoint.setMeterValue v updateServer w).
Proof. unfold ChargePoint.setMeterValue. name_ids_ok. sends_chain. Qed.

Lemma random_setMeterValue v updateServer w :
  random (ChargePoint.setMeterValue v updateServer w) = random w.
Proof. apply sends_well_setMeterValue. Qed.

#[export] Hint Resolve sends_well_setMeterValue : sends.
#[export] Hint Rewrite random_setMeterValue : oracle.

Lemma sends_well_setConnectorStatus connectorId newStatus updateServer w :
  sends_well w (ChargePoint.setConnectorStatus connectorId newStatus updateServer w).
Proof. unfold ChargePoint.setConnectorStatus. name_ids_ok. sends_chain. Qed.

Lemma random_setConnectorStatus connectorId newStatus updateServer w :
  random (ChargePoint.setConnectorStatus connectorId newStatus updateServer w)
  = random w.
Proof. apply sends_well_setConnectorStatus. Qed.

#[export] Hint Resolve sends_well_setConnectorStatus : sends.
#[export] Hint Rewrite random_setConnectorStatus : oracle.

Lemma sends_well_startTransaction tagId connectorId reservationId w :
  sends_well w (ChargePoint.startTransaction tagId connectorId reservationId w).
Proof. unfold ChargePoint.startTransaction, utc_now. name_ids_ok. sends_chain. Qed.

Lemma random_startTransaction tagId connectorId reservationId w :
  random (ChargePoint.startTransaction tagId connectorId reservationId w) = random w.
Proof. apply sends_well_startTransaction. Qed.

#[export] Hint Resolve sends_well_startTransaction : sends.
#[export] Hint Rewrite random_startTransaction : oracle.

Lemma sends_well_stopTransactionWithId transactionId tagId w :
  sends_well w (ChargePoint.stopTransactionWithId transactionId tagId w).
Proof. unfold ChargePoint.stopTransactionWithId, utc_now. name_ids_ok. sends_chain. Qed.

Lemma random_stopTransactionWithId transactionId tagId w :
  random (ChargePoint.stopTransactionWithId transactionId tagId w) = random w.
Proof. apply sends_well_stopTransactionWithId. Qed.

#[export] Hint Resolve sends_well_stopTransactionWithId : sends.
#[export] Hint Rewrite random_stopTransactionWithId : oracle.

Lemma sends_well_stopTransaction tagId w :
  sends_well w (ChargePoint.stopTransaction tagId w).
Proof. unfold ChargePoint.stopTransaction. name_ids_ok. sends_chain. Qed.

Lemma random_stopTransaction tagId w :
  random (ChargePoint.stopTransaction tagId w) = random w.
Proof. apply sends_well_stopTransaction. Qed.

#[export] Hint Resolve sends_well_stopTransaction : sends.
#[export] Hint Rewrite random_stopTransaction : oracle.

Lemma sends_well_wsDisconnect w : sends_well w (ChargePoint.wsDisconnect w).
Proof. unfold ChargePoint.wsDisconnect. name_ids_ok. sends_chain. Qed.

Lemma random_wsDisconnect w : random (ChargePoint.wsDisconnect w) = random w.
Proof. apply sends_well_wsDisconnect. Qed.

#[export] Hint Resolve sends_well_wsDisconnect : sends.
#[export] Hint Rewrite random_wsDisconnect : oracle.

Lemma sends_well_setHeartbeat period w :
  sends_well w (ChargePoint.setHeartbeat period w).
Proof. unfold ChargePoint.setHeartbeat, setInterval, clearInterval. name_ids_ok. sends_chain. Qed.

Lemma random_setHeartbeat period w :
  random (ChargePoint.setHeartbeat period w) = random w.
Proof. apply sends_well_setHeartbeat. Qed.

#[export] Hint Resolve sends_well_setHeartbeat : sends.
#[export] Hint Rewrite random_setHeartbeat : oracle.

Lemma sends_well_triggerMessage requestedMessage c w :
  sends_well w (ChargePoint.triggerMessage requestedMessage c w).
Proof. unfold ChargePoint.triggerMessage. name_ids_ok. sends_chain. Qed.

Lemma random_triggerMessage requestedMessage c w :
  random (ChargePoint.triggerMessage requestedMessage c w) = random w.
Proof. apply sends_well_triggerMessage. Qed.

#[export] Hint Resolve sends_well_triggerMessage : sends.
#[export] Hint Rewrite random_triggerMessage : oracle.

Lemma sends_well_local_update c a w : sends_well w (local_update c a w).
Proof.
  unfold local_update, ChargePoint.setConnectorAvailability_body.
  destruct (JS.strict_eq_num c 0); name_ids_ok; sends_chain.
Qed.

Lemma random_local_update c a w : random (local_update c a w) = random w.
Proof. apply sends_well_local_update. Qed.

#[export] Hint Resolve sends_well_local_update : sends.
#[export] Hint Rewrite random_local_update : oracle.

Lemma sends_well_setConnectorAvailability c a w :
  sends_well w (ChargePoint.setConnectorAvailability c a w).
Proof.
  rewrite setConnectorAvailability_cascade.
  destruct (JS.strict_eq_num c 0); [|apply sends_well_local_update].
  eapply sends_well_trans; [|apply sends_well_local_update].
  eapply sends_well_trans; apply sends_well_local_update.
Qed.

Lemma random_setConnectorAvailability c a w :
  random (ChargePoint.setConnectorAvailability c a w) = random w.
Proof. apply sends_well_setConnectorAvailability. Qed.

#[export] Hint Resolve sends_well_setConnectorAvailability : sends.
#[export] Hint Rewrite random_setConnectorAvailability : oracle.

Ltac sends_cases :=
  repeat match goal with
         | |- sends_well _ (world_of (Done _)) => cbn [world_of]
         | |- sends_well _ (world_of (TypeError _)) => cbn [world_of]
         | |- sends_well _ (world_of (if ?b then _ else _)) => destruct b
         | |- sends_well _ (world_of (match ?x with Some _ => _ | None => _ end)) =>
             destruct x
         end.

Lemma sends_well_handleCallRequest id request payload w :
  sends_well w (world_of (ChargePoint.handleCallRequest id request payload w)).
Proof.
  unfold ChargePoint.handleCallRequest. cbv beta zeta.
  sends_cases; sends_chain.
Qed.

Lemma sends_well_resultHandler la payload w :
  sends_well w (world_of (ChargePoint.resultHandler la payload w)).
Proof.
  unfold ChargePoint.resultHandler. cbv beta zeta.
  sends_cases; sends_chain.
Qed.

(** Whatever happens to the charge point, the oracle is left alone and
    every CALL handed to a socket carries a well-formed identifier. *)
Lemma sends_well_exec i w : sends_well w (Shell.exec i w).
Proof.
  destruct i; cbn [Shell.exec].
  - unfold ChargePoint.wsConnect. name_ids_ok. sends_chain.
  - apply sends_well_wsDisconnect.
  - apply sends_well_authorize.
  - apply sends_well_startTransaction.
  - apply sends_well_stopTransaction.
  - apply sends_well_stopTransactionWithId.
  - apply sends_well_sendHeartbeat.
  - apply sends_well_sendMeterValue.
  - apply sends_well_setMeterValue.
  - apply sends_well_setConnectorStatus.
  - apply sends_well_setConnectorAvailability.
  - apply sends_well_set_statusChangeCb.
  - apply sends_well_set_loggingCb.
  - apply sends_well_set_availabilityChangeCb.
  - apply sends_well_set_remoteStartStopResponse.
  - apply sends_well_set_remoteStartDelaySeconds.
  - apply sends_well_setKey.
  - unfold ChargePoint.onopen. name_ids_ok. sends_chain.
  - unfold ChargePoint.onerror. sends_cases; sends_chain.
  - unfold ChargePoint.onmessage, ChargePoint.handleCallResult.
    destruct (JS.strict_eq_num (JS.index ddata 0) 2);
      [apply sends_well_handleCallRequest|].
    destruct (JS.strict_eq_num (JS.index ddata 0) 3);
      [apply sends_well_resultHandler|].
    destruct (JS.strict_eq_num (JS.index ddata 0) 4); apply sends_well_refl.
  - unfold ChargePoint.onclose. name_ids_ok. sends_chain.
  - apply sends_well_refl.
  - unfold Shell.wake. destruct (nth_error (sleepers w) n) as [[delay tagId]|].
    + unfold ChargePoint.resumeRemoteStart.
      eapply sends_well_trans; [|apply sends_well_startTransaction].
      apply sends_well_set_sleepers.
    + apply sends_well_refl.
Qed.

(** C10: as long as [Math.random()] returns numbers in [[0, 1)], every
    identifier that [generateId] produces has exactly 36 characters, each
    an ASCII upper-case letter, lower-case letter or digit; and whatever
    happens to the charge point, every CALL it hands to a socket in
    response carries such an identifier as its [uniqueId]. *)
Theorem generateId_well_formed w :
  unit_draws w ->
  well_formed_id (fst (generateId w))
  /\ forall i, exists l,
       wire (Shell.exec i w) = (wire w ++ l)%list /\ Forall call_ok l.
Proof.
  intros Hd. split; [by apply generateId_shape|].
  intros i. destruct (sends_well_exec i w) as (_ & l & Hl & Hok).
  exists l. split; [exact Hl|by apply Hok].
Qed.

Lemma generateId_well_formed_witness :
  unit_draws booted
  /\ well_formed_id (fst (generateId booted))
  /\ forall i, exists l,
       wire (Shell.exec i booted) = (wire booted ++ l)%list /\ Forall call_ok l.
Proof.
  split; [exact blank_unit_draws|].
  apply (generateId_well_formed booted). exact blank_unit_draws.
Defined.

(** ** Numbers read back *)

Lemma digit_value_pretty_N_char r :
  (r < 10)%N -> JS.digit_value 10 (pretty_N_char r) = Some (Z.of_N r).
Proof.
  intros Hr.
  assert (r = 0 \/ r = 1 \/ r = 2 \/ r = 3 \/ r = 4 \/ r = 5 \/ r = 6 \/ r = 7
          \/ r = 8 \/ r = 9)%N as Hcases by lia.
  repeat (destruct Hcases as [->|Hcases]; [reflexivity|]). by subst.
Qed.

(** Reading back the digits that [pretty] printed. *)
Lemma read_digits_pretty_N_go x :
  forall s acc, (0 < x)%N ->
    exists k, JS.read_digits 10 acc (pretty_N_go x s)
              = JS.read_digits 10 (Some (default 0 acc * 10 ^ k + Z.of_N x)) s
              /\ 0 <= k.
Proof.
  induction (N.lt_wf_0 x) as [x _ IH]; intros s acc Hx.
  rewrite pretty_N_go_step by exact Hx.
  assert (x `mod` 10 < 10)%N as Hr by (apply N.mod_lt; lia).
  assert (x = 10 * (x `div` 10) + x `mod` 10)%N as Hdm by (apply N.div_mod; lia).
  destruct (decide (x `div` 10 = 0)%N) as [Hq|Hq].
  - rewrite Hq, pretty_N_go_0. exists 1. split; [|lia]. simpl JS.read_digits at 1.
    rewrite (digit_value_pretty_N_char _ Hr). rewrite Hq in Hdm.
    replace (default 0 acc * 10 ^ 1 + Z.of_N x)
      with (default 0 acc * 10 + Z.of_N (x `mod` 10)) by lia.
    reflexivity.
  - destruct (IH (x `div` 10)%N ltac:(apply N.div_lt; lia)
                (String (pretty_N_char (x `mod` 10)) s) acc ltac:(lia))
      as (k & -> & Hk).
    exists (k + 1). split; [|lia]. simpl JS.read_digits at 1.
    rewrite (digit_value_pretty_N_char _ Hr). cbn [default].
    replace ((default 0 acc * 10 ^ k + Z.of_N (x `div` 10)) * 10 + Z.of_N (x `mod` 10))
      with (default 0 acc * 10 ^ (k + 1) + Z.of_N x); [reflexivity|].
    rewrite Z.pow_add_r by lia. lia.
Qed.

(** A positive number is printed with a leading digit from 1 to 9. *)
Lemma pretty_N_go_head x s :
  (0 < x)%N ->
  exists r rest, pretty_N_go x s = String (pretty_N_char r) rest /\ (0 < r < 10)%N.
Proof.
  revert s. induction (N.lt_wf_0 x) as [x _ IH]; intros s Hx.
  rewrite pretty_N_go_step by exact Hx.
  destruct (decide (x `div` 10 = 0)%N) as [Hq|Hq].
  - rewrite Hq, pretty_N_go_0. exists (x `mod` 10)%N, s. split; [done|].
    assert (x = 10 * (x `div` 10) + x `mod` 10)%N by (apply N.div_mod; lia).
    assert (x `mod` 10 < 10)%N by (apply N.mod_lt; lia). lia.
  - apply IH; [apply N.div_lt; lia|by apply N.neq_0_lt_0].
Qed.

(** The decimal digits of a positive number: no white space, sign or
    radix prefix in front, and [read_digits] reads the number back. *)
Lemma pretty_positive_digits p :
  JS.skip_spaces (pretty (Zpos p)) = pretty (Zpos p)
  /\ JS.strip_sign (pretty (Zpos p)) = (1, pretty (Zpos p))
  /\ JS.strip_hex_prefix (pretty (Zpos p)) = None
  /\ fst (JS.read_digits 10 None (pretty (Zpos p))) = Some (Zpos p).
Proof.
  change (pretty (Zpos p)) with (pretty_N_go (Npos p) "").
  destruct (pretty_N_go_head (Npos p) "" ltac:(lia)) as (r & rest & Hhead & Hr).
  destruct (read_digits_pretty_N_go (Npos p) "" None ltac:(lia)) as (k & Hread & _).
  rewrite Hread. rewrite Hhead.
  assert (r = 1 \/ r = 2 \/ r = 3 \/ r = 4 \/ r = 5 \/ r = 6 \/ r = 7 \/ r = 8 \/ r = 9)%N
    as Hcases by lia.
  split; [|split; [|split]]; [| | |reflexivity];
    repeat (destruct Hcases as [->|Hcases]; [reflexivity|]); by subst.
Qed.

(** [parseInt(String(n))] is [n]. *)
Lemma parseInt_pretty n : JS.parseInt (pretty n) = JNum n.
Proof.
  destruct n as [|p|p]; [reflexivity| |];
    destruct (pretty_positive_digits p) as (Hspace & Hsign & Hhex & Hread).
  - unfold JS.parseInt. by rewrite Hspace, Hsign, Hhex, Hread.
  - change (pretty (Zneg p)) with (String "-" (pretty (Zpos p))).
    unfold JS.parseInt. cbn [JS.skip_spaces]. change (JS.is_space "-") with false.
    cbn [JS.strip_sign]. by rewrite Hhex, Hread.
Qed.

Lemma pretty_nonempty (n : Z) : pretty n <> "".
Proof.
  intros H. pose proof (parseInt_pretty n) as Hp. rewrite H in Hp. discriminate Hp.
Qed.

Lemma parseInt_empty : JS.parseInt "" = JNaN.
Proof. reflexivity. Qed.

Lemma toString_zero : JS.toString (JNum 0) = "0".
Proof. by vm_compute. Qed.

(** ** Dates and session keys *)

Lemma below_cases (P : nat -> Prop) n :
  Forall P (seq 0 n) -> forall k, (k < n)%nat -> P k.
Proof.
  intros H k Hk. rewrite List.Forall_forall in H. apply H, in_seq. lia.
Qed.

Lemma pad_length n :
  0 <= n <= 99 -> String.length (pad (JS.toString (JNum n))) = 2%nat.
Proof.
  intros Hn.
  assert (Forall (fun k => String.length (pad (JS.toString (JNum (Z.of_nat k)))) = 2%nat)
            (seq 0 100)) as H
    by (apply (bool_decide_unpack _); by vm_compute).
  pose proof (below_cases _ _ H (Z.to_nat n) ltac:(lia)) as Hk.
  cbv beta in Hk.
  by rewrite Z2Nat.id in Hk by lia.
Qed.

Lemma hours_length n :
  0 <= n <= 23 ->
  String.length (JS.toString (JNum n)) = (if n <? 10 then 1%nat else 2%nat).
Proof.
  intros Hn.
  assert (Forall (fun k => String.length (JS.toString (JNum (Z.of_nat k)))
                           = (if Z.of_nat k <? 10 then 1%nat else 2%nat))
            (seq 0 24)) as H
    by (apply (bool_decide_unpack _); by vm_compute).
  pose proof (below_cases _ _ H (Z.to_nat n) ltac:(lia)) as Hk.
  cbv beta in Hk.
  by rewrite Z2Nat.id in Hk by lia.
Qed.

Lemma year_length n :
  1000 <= n <= 9999 -> String.length (JS.toString (JNum n)) = 4%nat.
Proof.
  intros Hn.
  assert (Forall (fun k => String.length (JS.toString (JNum (Z.of_nat k + 1000))) = 4%nat)
            (seq 0 (90 * 100))) as H
    by (apply (bool_decide_unpack _); by vm_compute).
  pose proof (below_cases _ _ H (Z.to_nat (n - 1000)) ltac:(lia)) as Hk.
  cbv beta in Hk.
  rewrite Z2Nat.id in Hk by lia. by replace (n - 1000 + 1000) with n in Hk by lia.
Qed.

(** X1: for a date of the years 1000 to 9999, [formatDate] writes 20
    characters from ten o'clock on and 19 before: the day, the month,
    the minutes and the seconds are padded to two digits, the hours are
    not (the script tests the [length] of the number that [getHours]
    returned). *)
Theorem formatDate_length date :
  calendar_date date ->
  String.length (formatDate date) = (if getHours date <? 10 then 19%nat else 20%nat).
Proof.
  intros (Hy & Hm & Hd & Hh & Hmin & Hs). unfold formatDate.
  rewrite !length_append. cbn [String.length].
  rewrite (year_length _ Hy), (hours_length _ Hh).
  rewrite !pad_length by lia.
  by destruct (getHours date <? 10).
Qed.

Lemma formatDate_length_witness :
  calendar_date (mkDate 2024 0 5 7 3 9)
  /\ formatDate (mkDate 2024 0 5 7 3 9) = "2024-01-05T7:03:09Z"
  /\ String.length (formatDate (mkDate 2024 0 5 7 3 9))
     = (if getHours (mkDate 2024 0 5 7 3 9) <? 10 then 19%nat else 20%nat).
Proof.
  assert (calendar_date (mkDate 2024 0 5 7 3 9)) as H
    by (unfold calendar_date; simpl; lia).
  split; [exact H|]. split; [by vm_compute|].
  apply (formatDate_length (mkDate 2024 0 5 7 3 9)). exact H.
Defined.

(** X2: [getSessionKey] after [setSessionKey]: under the key just
    written it reads [String(value)], or the default when that is the
    empty string; under any other key it reads what it read before. *)
Theorem session_key_round_trip key value key' default_value w :
  getSessionKey key' default_value (setSessionKey key value w)
  = if String.eqb key' key
    then if String.eqb (JS.toString value) "" then default_value else JS.toString value
    else getSessionKey key' default_value w.
Proof.
  unfold getSessionKey, setSessionKey. cbn [sessionStorage set_sessionStorage].
  destruct (String.eqb_spec key' key) as [->|Hne].
  - by rewrite lookup_insert_eq.
  - by rewrite lookup_insert_ne.
Qed.

(** ** What every input keeps *)

(** Every method is a sequence of a few kinds of steps; what each kind
    of step keeps, every input keeps. *)

Lemma effects_refl a b w : effects a b w w.
Proof. apply rtc_refl. Qed.

Lemma effects_trans a b w1 w2 w3 :
  effects a b w1 w2 -> effects a b w2 w3 -> effects a b w1 w3.
Proof. apply rtc_trans. Qed.

Lemma effects_logMsg a b msg w : effects a b w (ChargePoint.logMsg msg w).
Proof. apply rtc_once, eff_log. Qed.

Lemma effects_setStatus a b s msg w :
  In s statuses -> effects a b w (ChargePoint.setStatus s msg w).
Proof. intros Hs. by apply rtc_once, eff_status. Qed.

Lemma effects_setLastAction a b action w : effects a b w (ChargePoint.setLastAction action w).
Proof. apply rtc_once, eff_lastAction. Qed.

Lemma effects_meter a b v w : effects a b w (setSessionKey KEY_METER_VALUE v w).
Proof. apply rtc_once, eff_meter. Qed.

Lemma effects_connector a b c v w :
  effects a b w (setSessionKey (KEY_CONN_STATUS +:+ JS.toString c) v w).
Proof. apply rtc_once, eff_connector. Qed.

Lemma effects_availability_cb a b c v w : effects a b w (add_event (AvailabilityChange c v) w).
Proof. apply rtc_once, eff_availability_cb. Qed.

Lemma effects_add_wire a b e w : effects a b w (add_wire e w).
Proof. apply rtc_once, eff_wire. Qed.

Lemma effects_draws a b n w : effects a b w (set_random_pos n w).
Proof. apply rtc_once, eff_draws. Qed.

Lemma effects_clock a b n w : effects a b w (set_clock_pos n w).
Proof. apply rtc_once, eff_clock. Qed.

Lemma effects_setHeartbeat a b period w : effects a b w (ChargePoint.setHeartbeat period w).
Proof. apply rtc_once, eff_heartbeat. Qed.

Lemma effects_sleepers a b l w : effects a b w (set_sleepers l w).
Proof. apply rtc_once, eff_sleepers. Qed.

Lemma effects_websocket a b s w : effects a b w (set_websocket s w).
Proof. apply rtc_once, eff_websocket. Qed.

Lemma effects_next_socket a b n w : effects a b w (set_next_socket n w).
Proof. apply rtc_once, eff_next_socket. Qed.

Lemma effects_transactionId b v w :
  JS.truthy v = true -> effects true b w (setSessionKey "TransactionId" v w).
Proof. intros Hv. by apply rtc_once, eff_transactionId. Qed.

Lemma effects_availability a c v w :
  effects a true w (setKey (KEY_CONN_AVAILABILITY +:+ JS.toString c) v w).
Proof. by apply rtc_once, eff_availability. Qed.

(** One of the six values. *)
Ltac a_status := unfold statuses; simpl; repeat first [left; reflexivity | right].

Create HintDb effects discriminated.
#[export] Hint Constants Opaque : effects.

#[export] Hint Resolve effects_logMsg effects_setLastAction effects_meter
  effects_connector effects_availability_cb effects_add_wire effects_draws
  effects_clock effects_setHeartbeat effects_sleepers effects_websocket
  effects_next_socket effects_availability : effects.
#[export] Hint Extern 1 (effects _ _ _ (ChargePoint.setStatus _ _ _)) =>
  (apply effects_setStatus; a_status) : effects.
#[export] Hint Extern 1 (effects _ _ _ (setSessionKey "TransactionId" _ _)) =>
  (apply effects_transactionId; first [assumption | apply negb_false_iff; assumption])
  : effects.

(** Follow a method step by step. *)
Ltac effects_chain :=
  repeat first
    [ apply effects_refl
    | match goal with
      | |- effects _ _ _ (if ?c then _ else _) => destruct c eqn:?
      | |- effects _ _ _ (match ?x with Some _ => _ | None => _ end) => destruct x eqn:?
      end
    | eapply effects_trans; [|solve [eauto 3 with effects]] ].

(** Decide the tests a handler makes before it acts. *)
Ltac effects_cases :=
  repeat match goal with
         | |- effects _ _ _ (world_of (Done _)) => cbn [world_of]
         | |- effects _ _ _ (world_of (TypeError _)) => cbn [world_of]
         | |- effects _ _ _ (world_of (if ?c then _ else _)) => destruct c eqn:?
         | |- effects _ _ _ (world_of (match ?x with Some _ => _ | None => _ end)) =>
             destruct x eqn:?
         end.

Lemma effects_wsSendData a b data w : effects a b w (ChargePoint.wsSendData data w).
Proof. unfold ChargePoint.wsSendData. effects_chain. Qed.
#[export] Hint Resolve effects_wsSendData : effects.

Lemma effects_sendHeartbeat a b w : effects a b w (ChargePoint.sendHeartbeat w).
Proof. unfold ChargePoint.sendHeartbeat. name_ids. effects_chain. Qed.

Lemma effects_sendBootNotification a b w : effects a b w (ChargePoint.sendBootNotification w).
Proof. unfold ChargePoint.sendBootNotification. name_ids. effects_chain. Qed.

Lemma effects_authorize a b tagId w : effects a b w (ChargePoint.authorize tagId w).
Proof. unfold ChargePoint.authorize. name_ids. effects_chain. Qed.

Lemma effects_sendMeterValue a b connectorId w :
  effects a b w (ChargePoint.sendMeterValue connectorId w).
Proof. unfold ChargePoint.sendMeterValue, utc_now. name_ids. effects_chain. Qed.

Lemma effects_sendStatusNotification a b connectorId w :
  effects a b w (ChargePoint.sendStatusNotification connectorId w).
Proof. unfold ChargePoint.sendStatusNotification, utc_now. name_ids. effects_chain. Qed.

#[export] Hint Resolve effects_sendHeartbeat effects_sendBootNotification effects_authorize
  effects_sendMeterValue effects_sendStatusNotification : effects.

Lemma effects_setMeterValue a b v updateServer w :
  effects a b w (ChargePoint.setMeterValue v updateServer w).
Proof. unfold ChargePoint.setMeterValue. name_ids. effects_chain. Qed.

Lemma effects_setConnectorStatus a b connectorId newStatus updateServer w :
  effects a b w (ChargePoint.setConnectorStatus connectorId newStatus updateServer w).
Proof. unfold ChargePoint.setConnectorStatus. name_ids. effects_chain. Qed.

#[export] Hint Resolve effects_setMeterValue effects_setConnectorStatus : effects.

Lemma effects_startTransaction a b tagId connectorId reservationId w :
  effects a b w (ChargePoint.startTransaction tagId connectorId reservationId w).
Proof. unfold ChargePoint.startTransaction, utc_now. name_ids. effects_chain. Qed.

Lemma effects_stopTransactionWithId a b transactionId tagId w :
  effects a b w (ChargePoint.stopTransactionWithId transactionId tagId w).
Proof. unfold ChargePoint.stopTransactionWithId, utc_now. name_ids. effects_chain. Qed.

Lemma effects_stopTransaction a b tagId w : effects a b w (ChargePoint.stopTransaction tagId w).
Proof. unfold ChargePoint.stopTransaction. apply effects_stopTransactionWithId. Qed.

Lemma effects_wsDisconnect a b w : effects a b w (ChargePoint.wsDisconnect w).
Proof. unfold ChargePoint.wsDisconnect. name_ids. effects_chain. Qed.

Lemma effects_triggerMessage a b requestedMessage c w :
  effects a b w (ChargePoint.triggerMessage requestedMessage c w).
Proof. unfold ChargePoint.triggerMessage. name_ids. effects_chain. Qed.

Lemma effects_local_update a c v w : effects a true w (local_update c v w).
Proof.
  unfold local_update, ChargePoint.setConnectorAvailability_body. name_ids.
  destruct (JS.strict_eq_num c 0); effects_chain.
Qed.

Lemma effects_setConnectorAvailability a c v w :
  effects a true w (ChargePoint.setConnectorAvailability c v w).
Proof.
  rewrite setConnectorAvailability_cascade.
  destruct (JS.strict_eq_num c 0); [|apply effects_local_update].
  eapply effects_trans; [|apply effects_local_update].
  eapply effects_trans; apply effects_local_update.
Qed.

#[export] Hint Resolve effects_startTransaction effects_stopTransactionWithId
  effects_stopTransaction effects_wsDisconnect effects_triggerMessage
  effects_setConnectorAvailability : effects.

Lemma effects_wsConnect a b wsurl cpid w : effects a b w (ChargePoint.wsConnect wsurl cpid w).
Proof. unfold ChargePoint.wsConnect. name_ids. effects_chain. Qed.

Lemma effects_onopen a b w : effects a b w (ChargePoint.onopen w).
Proof. unfold ChargePoint.onopen. name_ids. effects_chain. Qed.

Lemma effects_onerror a b readyState evt_type w :
  effects a b w (world_of (ChargePoint.onerror readyState evt_type w)).
Proof. unfold ChargePoint.onerror. effects_cases; effects_chain. Qed.

Lemma effects_onclose a b code w : effects a b w (ChargePoint.onclose code w).
Proof. unfold ChargePoint.onclose. name_ids. effects_chain. Qed.

Lemma effects_handleCallRequest a id request payload w :
  effects a (JS.strict_eq_str request "ChangeAvailability") w
    (world_of (ChargePoint.handleCallRequest id request payload w)).
Proof.
  unfold ChargePoint.handleCallRequest. cbv beta zeta.
  destruct (JS.strict_eq_str request "ChangeAvailability");
    effects_cases; effects_chain.
Qed.

Lemma effects_resultHandler b la payload w :
  effects (String.eqb la START_TRANSACTION) b w
    (world_of (ChargePoint.resultHandler la payload w)).
Proof.
  unfold ChargePoint.resultHandler. cbv beta zeta.
  destruct (String.eqb la START_TRANSACTION);
    effects_cases; effects_chain.
Qed.

Lemma effects_wake a b n w : effects a b w (Shell.wake n w).
Proof.
  unfold Shell.wake. destruct (nth_error (sleepers w) n) as [[delay tagId]|];
    [|apply effects_refl].
  unfold ChargePoint.resumeRemoteStart.
  eapply effects_trans; [|apply effects_startTransaction]. apply effects_sleepers.
Qed.

Lemma effects_onmessage ddata w :
  effects (may_store_id (Shell.SocketMessage ddata) w)
    (may_change_availability (Shell.SocketMessage ddata)) w
    (world_of (ChargePoint.onmessage ddata w)).
Proof.
  unfold ChargePoint.onmessage, may_store_id, may_change_availability. cbv beta zeta.
  destruct (JS.strict_eq_num (JS.index ddata 0) 2) eqn:H2.
  - rewrite andb_true_l. apply effects_handleCallRequest.
  - destruct (JS.strict_eq_num (JS.index ddata 0) 3).
    + rewrite andb_true_l. apply effects_resultHandler.
    + destruct (JS.strict_eq_num (JS.index ddata 0) 4); apply effects_refl.
Qed.

(** Every input that is not a setting is a sequence of steps; it can
    store a transaction id only if it [may_store_id], and write to the
    durable store only if it [may_change_availability]. *)
Lemma exec_effects i w :
  is_setting i = false ->
  effects (may_store_id i w) (may_change_availability i) w (Shell.exec i w).
Proof.
  destruct i; cbn [Shell.exec is_setting]; intros Hi; try discriminate Hi.
  - apply effects_wsConnect.
  - apply effects_wsDisconnect.
  - apply effects_authorize.
  - apply effects_startTransaction.
  - apply effects_stopTransaction.
  - apply effects_stopTransactionWithId.
  - apply effects_sendHeartbeat.
  - apply effects_sendMeterValue.
  - apply effects_setMeterValue.
  - apply effects_setConnectorStatus.
  - apply effects_setConnectorAvailability.
  - apply effects_onopen.
  - apply effects_onerror.
  - apply effects_onmessage.
  - apply effects_onclose.
  - apply effects_refl.
  - apply effects_wake.
Qed.

Lemma setHeartbeat_sessionStorage period w :
  sessionStorage (ChargePoint.setHeartbeat period w) = sessionStorage w.
Proof.
  unfold ChargePoint.setHeartbeat, setInterval, clearInterval.
  destruct (_heartbeat _); simpl; apply logMsg_sessionStorage.
Qed.

Lemma setHeartbeat_localStorage period w :
  localStorage (ChargePoint.setHeartbeat period w) = localStorage w.
Proof.
  unfold ChargePoint.setHeartbeat, setInterval, clearInterval.
  destruct (_heartbeat _); simpl; apply logMsg_localStorage.
Qed.

Lemma effect_sessionStorage a b w w' :
  effect a b w w' ->
  sessionStorage w' = sessionStorage w
  \/ exists k v, sessionStorage w' = <[k := v]> (sessionStorage w) /\ session_write a k v.
Proof.
  unfold session_write.
  destruct 1 as [msg w|s msg w Hs|action w|v w|c v w|v w Ha Hv|c v w Hb|c v w|e w|n w|n w
                 |period w|l w|s w|n w];
    try (left; reflexivity).
  - left. apply logMsg_sessionStorage.
  - right. exists KEY_CP_STATUS, s. split; [apply setStatus_sessionStorage|]. by left.
  - right. exists "LastAction", action. split; [reflexivity|]. right. by left.
  - right. exists KEY_METER_VALUE, (JS.toString v). split; [reflexivity|]. right. right. by left.
  - right. exists (KEY_CONN_STATUS +:+ JS.toString c), (JS.toString v).
    split; [reflexivity|]. right. right. right. left. by exists c.
  - right. exists "TransactionId", (JS.toString v). split; [reflexivity|].
    right. right. right. right. split; [exact Ha|]. split; [reflexivity|]. by exists v.
  - left. apply setHeartbeat_sessionStorage.
Qed.

Lemma effect_localStorage a b w w' :
  effect a b w w' ->
  localStorage w' = localStorage w
  \/ (b = true
      /\ exists c v,
           localStorage w' = <[KEY_CONN_AVAILABILITY +:+ JS.toString c := v]> (localStorage w)).
Proof.
  destruct 1 as [msg w|s msg w Hs|action w|v w|c v w|v w Ha Hv|c v w Hb|c v w|e w|n w|n w
                 |period w|l w|s w|n w];
    try (left; reflexivity).
  - left. apply logMsg_localStorage.
  - left. apply setStatus_localStorage.
  - right. split; [exact Hb|]. by exists c, (JS.toString v).
  - left. apply setHeartbeat_localStorage.
Qed.

Lemma effect_timers a b w w' :
  effect a b w w' ->
  (intervals w' = intervals w /\ _heartbeat w' = _heartbeat w)
  \/ exists period, w' = ChargePoint.setHeartbeat period w.
Proof.
  destruct 1 as [msg w|s msg w Hs|action w|v w|c v w|v w Ha Hv|c v w Hb|c v w|e w|n w|n w
                 |period w|l w|s w|n w];
    try (left; split; reflexivity).
  - left. split; [apply logMsg_intervals|apply logMsg_heartbeat].
  - left. split; [apply setStatus_intervals|apply setStatus_heartbeat].
  - right. by exists period.
Qed.

(** The status never leaves the six values. *)
Lemma status_lookup s w :
  sessionStorage w !! KEY_CP_STATUS = Some s -> In s statuses -> ChargePoint.status w = s.
Proof.
  intros Hs Hin. apply getSessionKey_read; [exact Hs|].
  unfold statuses in Hin. simpl in Hin.
  intros ->. repeat (destruct Hin as [Hin|Hin]; [discriminate Hin|]). exact Hin.
Qed.

Lemma script_key_connector c : script_key (KEY_CONN_STATUS +:+ JS.toString c) = true.
Proof.
  unfold script_key. apply orb_true_iff. right.
  unfold KEY_CONN_STATUS. simpl. by destruct (JS.toString c).
Qed.

Lemma session_write_script_key a k v : session_write a k v -> script_key k = true.
Proof.
  intros [[-> _]|[->|[->|[[c ->]|(_ & -> & _)]]]]; try reflexivity.
  apply script_key_connector.
Qed.

Lemma effects_status_valid a b w w' : effects a b w w' -> status_valid w -> status_valid w'.
Proof.
  intros Hsteps Hw. induction Hsteps as [w|w1 w2 w3 Hstep _ IH]; [exact Hw|].
  apply IH. clear IH. destruct Hw as (s & Hs & Hin). unfold status_valid.
  destruct (effect_sessionStorage _ _ _ _ Hstep) as [->|(k & v & -> & Hwrite)];
    [by exists s|].
  destruct (decide (k = KEY_CP_STATUS)) as [->|Hk].
  - exists v. rewrite lookup_insert_eq. split; [reflexivity|].
    destruct Hwrite as [[_ Hv]|[Hk|[Hk|[[c Hk]|(_ & Hk & _)]]]];
      [exact Hv|discriminate Hk..].
  - exists s. by rewrite lookup_insert_ne.
Qed.

Lemma effects_foreign_keys a b w w' k :
  effects a b w w' -> script_key k = false ->
  sessionStorage w' !! k = sessionStorage w !! k.
Proof.
  intros Hsteps Hk. induction Hsteps as [w|w1 w2 w3 Hstep _ IH]; [reflexivity|].
  rewrite IH. clear IH.
  destruct (effect_sessionStorage _ _ _ _ Hstep) as [->|(k' & v & -> & Hwrite)];
    [reflexivity|].
  apply lookup_insert_ne. intros ->.
  apply session_write_script_key in Hwrite. congruence.
Qed.

Lemma effects_keys_kept a b w w' k :
  effects a b w w' -> is_Some (sessionStorage w !! k) -> is_Some (sessionStorage w' !! k).
Proof.
  intros Hsteps Hk. induction Hsteps as [w|w1 w2 w3 Hstep _ IH]; [exact Hk|].
  apply IH. clear IH.
  destruct (effect_sessionStorage _ _ _ _ Hstep) as [->|(k' & v & -> & _)]; [exact Hk|].
  destruct (decide (k' = k)) as [->|Hne].
  - rewrite lookup_insert_eq. eauto.
  - by rewrite lookup_insert_ne.
Qed.

Lemma effects_transactionId_kept a b w w' :
  effects a b w w' ->
  sessionStorage w' !! "TransactionId" = sessionStorage w !! "TransactionId"
  \/ (a = true
      /\ exists v, JS.truthy v = true
                   /\ sessionStorage w' !! "TransactionId" = Some (JS.toString v)).
Proof.
  intros Hsteps. induction Hsteps as [w|w1 w2 w3 Hstep _ IH]; [by left|].
  destruct IH as [IH|IH]; [|by right]. rewrite IH. clear IH.
  destruct (effect_sessionStorage _ _ _ _ Hstep) as [->|(k & v & -> & Hwrite)];
    [by left|].
  destruct (decide (k = "TransactionId")) as [->|Hk].
  - right. destruct Hwrite as [[Hk _]|[Hk|[Hk|[[c Hk]|(Ha & _ & x & Hx & ->)]]]];
      [discriminate Hk..|].
    split; [exact Ha|]. exists x. split; [exact Hx|]. apply lookup_insert_eq.
  - left. by apply lookup_insert_ne.
Qed.

Lemma effects_localStorage_kept a w w' :
  effects a false w w' -> localStorage w' = localStorage w.
Proof.
  intros Hsteps. induction Hsteps as [w|w1 w2 w3 Hstep _ IH]; [reflexivity|].
  rewrite IH. destruct (effect_localStorage _ _ _ _ Hstep) as [H|[H _]]; [exact H|].
  discriminate H.
Qed.

Lemma effects_settings_kept a b w w' k :
  effects a b w w' -> String.prefix KEY_CONN_AVAILABILITY k = false ->
  localStorage w' !! k = localStorage w !! k.
Proof.
  intros Hsteps Hk. induction Hsteps as [w|w1 w2 w3 Hstep _ IH]; [reflexivity|].
  rewrite IH. clear IH.
  destruct (effect_localStorage _ _ _ _ Hstep) as [->|(_ & c & v & ->)]; [reflexivity|].
  apply lookup_insert_ne. intros <-.
  unfold KEY_CONN_AVAILABILITY in Hk. simpl in Hk.
  destruct (JS.toString c); discriminate Hk.
Qed.

Lemma setHeartbeat_single_timer period w :
  single_timer w -> single_timer (ChargePoint.setHeartbeat period w).
Proof.
  unfold single_timer, ChargePoint.setHeartbeat, setInterval, clearInterval.
  rewrite logMsg_heartbeat.
  destruct (_heartbeat w) as [h|]; simpl; rewrite logMsg_intervals.
  - intros [ms ->]. simpl. rewrite Pos.eqb_refl. simpl. eauto.
  - intros ->. eauto.
Qed.

Lemma effects_single_timer a b w w' : effects a b w w' -> single_timer w -> single_timer w'.
Proof.
  intros Hsteps Hw. induction Hsteps as [w|w1 w2 w3 Hstep _ IH]; [exact Hw|].
  apply IH. clear IH.
  destruct (effect_timers _ _ _ _ Hstep) as [[Hi Hh]|[period ->]].
  - unfold single_timer. by rewrite Hi, Hh.
  - by apply setHeartbeat_single_timer.
Qed.

Lemma setting_sessionStorage i w :
  is_setting i = true -> sessionStorage (Shell.exec i w) = sessionStorage w.
Proof. destruct i; intros H; first [discriminate H|reflexivity]. Qed.

Lemma setting_timers i w :
  is_setting i = true ->
  intervals (Shell.exec i w) = intervals w /\ _heartbeat (Shell.exec i w) = _heartbeat w.
Proof. destruct i; intros H; first [discriminate H|by split]. Qed.

Lemma exec_status_valid i w : status_valid w -> status_valid (Shell.exec i w).
Proof.
  intros Hw. destruct (is_setting i) eqn:Hi.
  - unfold status_valid. by rewrite setting_sessionStorage.
  - exact (effects_status_valid _ _ _ _ (exec_effects i w Hi) Hw).
Qed.

(** X3: in every world a session can reach, the status that [status()]
    reads is one of the six values [error], [disconnected],
    [connecting], [connected], [authorized] and [in_transaction]. *)
Theorem reachable_status_valid w :
  Shell.reachable w -> In (ChargePoint.status w) statuses.
Proof.
  intros Hreach.
  assert (status_valid w) as (s & Hs & Hin).
  { induction Hreach as [w0|w i _ IH].
    - exists CP_DISCONNECTED. split; [|unfold statuses; simpl; tauto].
      unfold Shell.ready. rewrite setStatus_sessionStorage. apply lookup_insert_eq.
    - by apply exec_status_valid. }
  by rewrite (status_lookup s w Hs Hin).
Qed.

Lemma reachable_status_valid_witness :
  Shell.reachable in_transaction_42 /\ In (ChargePoint.status in_transaction_42) statuses.
Proof.
  assert (Shell.reachable in_transaction_42) as Hreach
    by apply reachable_run, booted_reachable.
  split; [exact Hreach|].
  apply (reachable_status_valid in_transaction_42). exact Hreach.
Defined.

(** X4: whatever the input, the session store changes only under the
    script's own keys ([cp_status], [LastAction], [meter_value],
    [TransactionId] and the keys that start with [conn_status]); every
    other key reads as before. *)
Theorem session_store_confined i w k :
  script_key k = false ->
  sessionStorage (Shell.exec i w) !! k = sessionStorage w !! k.
Proof.
  intros Hk. destruct (is_setting i) eqn:Hi.
  - by rewrite setting_sessionStorage.
  - exact (effects_foreign_keys _ _ _ _ k (exec_effects i w Hi) Hk).
Qed.

Lemma session_store_confined_witness :
  script_key "theme" = false
  /\ sessionStorage
       (Shell.exec (Shell.StartTransaction (JStr "DEADBEEF") JUndef JUndef) booted) !! "theme"
     = sessionStorage booted !! "theme".
Proof.
  split; [reflexivity|].
  apply (session_store_confined (Shell.StartTransaction (JStr "DEADBEEF") JUndef JUndef)
           booted "theme"). reflexivity.
Defined.

(** X5: no input removes a key from the session store; a
    [TransactionId], once stored, stays stored when the transaction is
    stopped. *)
Theorem session_keys_kept i w k :
  is_Some (sessionStorage w !! k) -> is_Some (sessionStorage (Shell.exec i w) !! k).
Proof.
  intros Hk. destruct (is_setting i) eqn:Hi.
  - by rewrite setting_sessionStorage.
  - exact (effects_keys_kept _ _ _ _ k (exec_effects i w Hi) Hk).
Qed.

Lemma session_keys_kept_witness :
  is_Some (sessionStorage in_transaction_42 !! "TransactionId")
  /\ is_Some (sessionStorage
                (Shell.exec (Shell.StopTransaction (JStr "DEADBEEF")) in_transaction_42)
                !! "TransactionId").
Proof.
  assert (is_Some (sessionStorage in_transaction_42 !! "TransactionId")) as H
    by (exists "42"; by vm_compute).
  split; [exact H|].
  apply (session_keys_kept (Shell.StopTransaction (JStr "DEADBEEF")) in_transaction_42
           "TransactionId"). exact H.
Defined.

(** X6: an input leaves the stored [TransactionId] as it is, unless it
    is a CALLRESULT that arrives while [LastAction] is
    [StartTransaction]; the value it stores then is the [String] of a
    truthy value. *)
Theorem transactionId_written_by_start_reply i w :
  sessionStorage (Shell.exec i w) !! "TransactionId" = sessionStorage w !! "TransactionId"
  \/ (may_store_id i w = true
      /\ exists v, JS.truthy v = true
                   /\ sessionStorage (Shell.exec i w) !! "TransactionId"
                      = Some (JS.toString v)).
Proof.
  destruct (is_setting i) eqn:Hi.
  - left. by rewrite setting_sessionStorage.
  - exact (effects_transactionId_kept _ _ _ _ (exec_effects i w Hi)).
Qed.

(** X7: an input other than the saving of a setting leaves the durable
    store as it is unless it is the [setConnectorAvailability] command
    or a [ChangeAvailability] request, and even then every key that does
    not start with [conn_availability] reads as before. *)
Theorem durable_store_writes i w :
  (forall key value, i <> Shell.SaveSetting key value) ->
  (may_change_availability i = false -> localStorage (Shell.exec i w) = localStorage w)
  /\ forall k, String.prefix KEY_CONN_AVAILABILITY k = false ->
               localStorage (Shell.exec i w) !! k = localStorage w !! k.
Proof.
  intros Hi. destruct (is_setting i) eqn:Hset.
  - assert (localStorage (Shell.exec i w) = localStorage w) as ->; [|by split].
    destruct i; try discriminate Hset; try reflexivity. by destruct (Hi key value).
  - pose proof (exec_effects i w Hset) as Hsteps. split.
    + intros Hno. rewrite Hno in Hsteps. by eapply effects_localStorage_kept.
    + intros k Hk. by eapply effects_settings_kept.
Qed.

Lemma durable_store_writes_witness :
  (forall key value, Shell.Authorize (JStr "DEADBEEF") <> Shell.SaveSetting key value)
  /\ (may_change_availability (Shell.Authorize (JStr "DEADBEEF")) = false ->
      localStorage (Shell.exec (Shell.Authorize (JStr "DEADBEEF")) booted)
      = localStorage booted)
  /\ forall k, String.prefix KEY_CONN_AVAILABILITY k = false ->
               localStorage (Shell.exec (Shell.Authorize (JStr "DEADBEEF")) booted) !! k
               = localStorage booted !! k.
Proof.
  assert (forall key value,
             Shell.Authorize (JStr "DEADBEEF") <> Shell.SaveSetting key value) as H
    by (intros key value E; discriminate E).
  split; [exact H|].
  apply (durable_store_writes (Shell.Authorize (JStr "DEADBEEF")) booted). exact H.
Defined.

Lemma exec_single_timer i w : single_timer w -> single_timer (Shell.exec i w).
Proof.
  intros Hw. destruct (is_setting i) eqn:Hi.
  - unfold single_timer. destruct (setting_timers i w Hi) as [-> ->]. exact Hw.
  - exact (effects_single_timer _ _ _ _ (exec_effects i w Hi) Hw).
Qed.

(** X8: if no timer is armed when the page becomes ready then, after any
    sequence of inputs, none is armed while [_heartbeat] is [null], and
    otherwise exactly one, the one [_heartbeat] names: [setHeartbeat]
    removes the timer it replaces. *)
Theorem heartbeat_single_timer inputs w0 :
  intervals w0 = [] -> single_timer (Shell.run inputs (Shell.ready w0)).
Proof.
  intros Hw0.
  assert (single_timer (Shell.ready w0)) as Hready.
  { unfold single_timer, Shell.ready.
    rewrite setStatus_heartbeat, setStatus_intervals. exact Hw0. }
  revert Hready. generalize (Shell.ready w0). clear Hw0 w0.
  induction inputs as [|i inputs IH]; intros w Hw; [exact Hw|].
  apply IH. by apply exec_single_timer.
Qed.

Lemma heartbeat_single_timer_witness :
  intervals blank = []
  /\ single_timer
       (Shell.run
          [Shell.Connect "ws://cs/" "CP01"; Shell.SocketOpen;
           Shell.SocketMessage
             [JNum 3; JStr "boot"; JObj [("status", JStr "Accepted"); ("interval", JNum 300)]];
           Shell.SocketMessage
             [JNum 2; JStr "t"; JStr "TriggerMessage";
              JObj [("requestedMessage", JStr "BootNotification")]];
           Shell.SocketMessage
             [JNum 3; JStr "boot"; JObj [("status", JStr "Accepted"); ("interval", JNum 60)]]]
          (Shell.ready blank)).
Proof.
  split; [reflexivity|].
  apply (heartbeat_single_timer
           [Shell.Connect "ws://cs/" "CP01"; Shell.SocketOpen;
            Shell.SocketMessage
              [JNum 3; JStr "boot";
               JObj [("status", JStr "Accepted"); ("interval", JNum 300)]];
            Shell.SocketMessage
              [JNum 2; JStr "t"; JStr "TriggerMessage";
               JObj [("requestedMessage", JStr "BootNotification")]];
            Shell.SocketMessage
              [JNum 3; JStr "boot";
               JObj [("status", JStr "Accepted"); ("interval", JNum 60)]]] blank).
  reflexivity.
Defined.

(** ** What the methods send *)

Lemma JSON_stringify_object ms : JS.JSON_stringify (JObj ms) = JObj (stringify_members ms).
Proof. reflexivity. Qed.

Lemma stringify_members_cons k v rest :
  stringify_members ((k, v) :: rest)
  = match v with
    | JUndef => stringify_members rest
    | _ => (k, JS.JSON_stringify v) :: stringify_members rest
    end.
Proof. by destruct v. Qed.

Lemma lookup_member_stringify_none k ms :
  JS.lookup_member k ms = None -> JS.lookup_member k (stringify_members ms) = None.
Proof.
  induction ms as [|[k' v] rest IH]; [done|].
  rewrite stringify_members_cons. cbn [JS.lookup_member].
  destruct (JS.lookup_member k rest) as [x|]; [done|].
  destruct (String.eqb k' k) eqn:Hk; [done|]. intros _.
  destruct v; cbn [JS.lookup_member]; rewrite ?IH, ?Hk; done.
Qed.

Lemma lookup_member_some k ms :
  is_Some (JS.lookup_member k ms) -> k ∈ List.map fst ms.
Proof.
  induction ms as [|[k' v'] rest IH]; [by intros [? ?]|]. cbn [JS.lookup_member].
  destruct (JS.lookup_member k rest) as [x|].
  - intros _. simpl. apply elem_of_cons. right. apply IH. eauto.
  - destruct (String.eqb_spec k' k) as [->|]; [|by intros [? ?]]. intros _. simpl.
    apply elem_of_cons. by left.
Qed.

(** Reading a member of what [JSON.stringify] made of an object whose
    member names are all different. *)
Lemma get_field_stringify k ms :
  NoDup (List.map fst ms) ->
  JS.get_field (JS.JSON_stringify (JObj ms)) k
  = Some (match JS.lookup_member k ms with
          | Some v => json_member v
          | None => JUndef
          end).
Proof.
  rewrite JSON_stringify_object. cbn [JS.get_field]. intros Hnd. f_equal.
  induction ms as [|[k' v] rest IH]; [done|].
  simpl in Hnd. apply NoDup_cons in Hnd as [Hk' Hnd]. specialize (IH Hnd).
  rewrite stringify_members_cons. cbn [JS.lookup_member].
  destruct (JS.lookup_member k rest) as [x|] eqn:Hrest.
  - assert (String.eqb k' k = false) as Hne.
    { apply String.eqb_neq. intros ->. apply Hk', lookup_member_some. rewrite Hrest. eauto. }
    destruct v; cbn [JS.lookup_member]; try exact IH;
      destruct (JS.lookup_member k (stringify_members rest)); try exact IH;
      rewrite Hne; exact IH.
  - pose proof (lookup_member_stringify_none _ _ Hrest) as Hnone.
    destruct (String.eqb k' k) eqn:Hk; destruct v; cbn [JS.lookup_member json_member];
      rewrite ?Hnone, ?Hk; reflexivity.
Qed.

Lemma wsSendData_effect data w :
  sessionStorage (ChargePoint.wsSendData data w) = after_send (_websocket w) (sessionStorage w)
  /\ wire (ChargePoint.wsSendData data w) = (wire w ++ sent (_websocket w) data)%list.
Proof.
  rewrite wsSendData_sessionStorage, wsSendData_wire.
  destruct (_websocket w); simpl; by rewrite ?app_nil_r.
Qed.

Lemma wsSendData_with_socket data w sock :
  _websocket w = Some sock -> ChargePoint.wsSendData data w = add_wire (WsSend sock data) w.
Proof. intros Hsock. unfold ChargePoint.wsSendData. by rewrite Hsock. Qed.

Lemma lookup_after_send k sock store :
  k <> KEY_CP_STATUS -> after_send sock store !! k = store !! k.
Proof. intros Hk. destruct sock; [done|]. simpl. by rewrite lookup_insert_ne. Qed.

Lemma connector_key_not c :
  KEY_CONN_STATUS +:+ JS.toString c <> KEY_CP_STATUS
  /\ KEY_CONN_STATUS +:+ JS.toString c <> KEY_METER_VALUE
  /\ KEY_CONN_STATUS +:+ JS.toString c <> "LastAction"
  /\ KEY_CONN_STATUS +:+ JS.toString c <> "TransactionId".
Proof. repeat split; intros H; discriminate H. Qed.

(** [sendStatusNotification], with or without a socket. *)
Lemma sendStatusNotification_effect c w :
  sessionStorage (ChargePoint.sendStatusNotification c w)
  = after_send (_websocket w) (<["LastAction" := "StatusNotification"]> (sessionStorage w))
  /\ _websocket (ChargePoint.sendStatusNotification c w) = _websocket w
  /\ exists id payload,
       wire (ChargePoint.sendStatusNotification c w)
       = (wire w ++ sent (_websocket w)
                      (JArr [JNum 2; JStr id; JStr "StatusNotification"; payload]))%list
       /\ JS.get_field payload "status" = Some (JStr (ChargePoint.connectorStatus c w))
       /\ JS.get_field payload "connectorId" = Some (json_member c).
Proof.
  unfold ChargePoint.sendStatusNotification.
  generalize (ChargePoint.connectorStatus c w). intros st.
  name_id. unfold utc_now. cbv beta iota zeta.
  match goal with
  | |- context [JArr [JNum 2; JStr id; JStr "StatusNotification"; JObj ?ms]] =>
      remember ms as members eqn:Hmembers
  end.
  rewrite wsSendData_sessionStorage, wsSendData_websocket, wsSendData_wire.
  fields. unfold ChargePoint.setLastAction, setSessionKey. simpl.
  split; [reflexivity|]. split; [reflexivity|].
  exists id, (JS.JSON_stringify (JObj members)).
  split; [by destruct (_websocket w); simpl; rewrite ?app_nil_r|].
  subst members.
  rewrite !get_field_stringify by (apply (bool_decide_unpack _); by vm_compute).
  by split.
Qed.

Lemma setConnectorStatus_notified c st w :
  sessionStorage (ChargePoint.setConnectorStatus c (JStr st) true w)
  = after_send (_websocket w)
      (<["LastAction" := "StatusNotification"]>
         (<[KEY_CONN_STATUS +:+ JS.toString c := st]> (sessionStorage w)))
  /\ _websocket (ChargePoint.setConnectorStatus c (JStr st) true w) = _websocket w
  /\ exists id payload,
       wire (ChargePoint.setConnectorStatus c (JStr st) true w)
       = (wire w ++ sent (_websocket w)
                      (JArr [JNum 2; JStr id; JStr "StatusNotification"; payload]))%list
       /\ JS.get_field payload "status" = Some (JStr st)
       /\ JS.get_field payload "connectorId" = Some (json_member c).
Proof.
  unfold ChargePoint.setConnectorStatus.
  destruct (sendStatusNotification_effect c
              (setSessionKey (KEY_CONN_STATUS +:+ JS.toString c) (JStr st) w))
    as (Hs & Hsock & id & payload & Hwire & Hst & Hc).
  rewrite connectorStatus_written in Hst.
  split; [exact Hs|]. split; [exact Hsock|].
  exists id, payload. split; [exact Hwire|]. split; [exact Hst|exact Hc].
Qed.

(** [sendMeterValue], with or without a socket. *)
Lemma sendMeterValue_effect connectorId w :
  sessionStorage (ChargePoint.sendMeterValue connectorId w)
  = after_send (_websocket w) (<["LastAction" := "MeterValues"]> (sessionStorage w))
  /\ exists id ts payload,
       wire (ChargePoint.sendMeterValue connectorId w)
       = (wire w ++ sent (_websocket w)
                      (JArr [JNum 2; JStr id; JStr "MeterValues"; payload]))%list
       /\ JS.get_field payload "connectorId"
          = Some (json_member (JS.default_arg connectorId (JNum 0)))
       /\ JS.get_field payload "transactionId"
          = Some (json_member (JS.parseInt (getSessionKey "TransactionId" "" w)))
       /\ JS.get_field payload "meterValue"
          = Some (JArr [JObj [("sampledValue",
                               JArr [JObj [("value", JStr (getSessionKey KEY_METER_VALUE "" w));
                                           ("context", JStr "Sample.Periodic");
                                           ("format", JStr "Raw");
                                           ("measurand", JStr "Energy.Active.Import.Register");
                                           ("location", JStr "Outlet");
                                           ("unit", JStr "Wh")]]);
                              ("timestamp", JStr ts)]]).
Proof.
  unfold ChargePoint.sendMeterValue.
  assert (getSessionKey KEY_METER_VALUE ""
            (ChargePoint.setLastAction "MeterValues" w)
          = getSessionKey KEY_METER_VALUE "" w) as ->.
  { unfold getSessionKey, ChargePoint.setLastAction.
    rewrite setSessionKey_sessionStorage. by rewrite lookup_insert_ne. }
  generalize (getSessionKey KEY_METER_VALUE "" w). intros meter.
  name_id.
  match goal with
  | |- context [getSessionKey "TransactionId" "" ?x] =>
      assert (getSessionKey "TransactionId" "" x = getSessionKey "TransactionId" "" w) as ->
        by (unfold getSessionKey, ChargePoint.setLastAction; simpl;
            by rewrite lookup_insert_ne)
  end.
  generalize (JS.parseInt (getSessionKey "TransactionId" "" w)). intros tid.
  unfold utc_now. cbv beta iota zeta.
  match goal with
  | |- context [JArr [JNum 2; JStr id; JStr "MeterValues"; JObj ?ms]] =>
      remember ms as members eqn:Hmembers
  end.
  rewrite wsSendData_sessionStorage, wsSendData_wire.
  fields. unfold ChargePoint.setLastAction, setSessionKey. simpl.
  split; [reflexivity|].
  eexists id, _, (JS.JSON_stringify (JObj members)).
  split; [by destruct (_websocket w); simpl; rewrite ?app_nil_r|].
  subst members.
  rewrite !get_field_stringify by (apply (bool_decide_unpack _); by vm_compute).
  split; [reflexivity|]. split; reflexivity.
Qed.

Lemma meterValue_lookup n w :
  sessionStorage w !! KEY_METER_VALUE = Some (pretty n) -> ChargePoint.meterValue w = JNum n.
Proof.
  intros H. unfold ChargePoint.meterValue.
  rewrite (getSessionKey_read _ _ _ _ H (pretty_nonempty n)). apply parseInt_pretty.
Qed.

(** ** The meter *)


(** X10: over an open socket [sendMeterValue(c)] sends one MeterValues
    CALL: its [connectorId] is [c] (0 when absent), its [transactionId]
    is what [JSON.stringify] makes of [parseInt] of the stored
    [TransactionId], and its one sampled value is the stored meter
    string, the empty string when none is stored. *)
Theorem sendMeterValue_frame connectorId w sock :
  _websocket w = Some sock ->
  exists id ts payload,
    wire (ChargePoint.sendMeterValue connectorId w)
    = (wire w ++ [WsSend sock (JArr [JNum 2; JStr id; JStr "MeterValues"; payload])])%list
    /\ JS.get_field payload "connectorId"
       = Some (json_member (JS.default_arg connectorId (JNum 0)))
    /\ JS.get_field payload "transactionId"
       = Some (json_member (JS.parseInt (getSessionKey "TransactionId" "" w)))
    /\ JS.get_field payload "meterValue"
       = Some (JArr [JObj [("sampledValue",
                            JArr [JObj [("value", JStr (getSessionKey KEY_METER_VALUE "" w));
                                        ("context", JStr "Sample.Periodic");
                                        ("format", JStr "Raw");
                                        ("measurand", JStr "Energy.Active.Import.Register");
                                        ("location", JStr "Outlet");
                                        ("unit", JStr "Wh")]]);
                           ("timestamp", JStr ts)]]).
Proof.
  intros Hsock.
  destruct (sendMeterValue_effect connectorId w) as (_ & id & ts & payload & Hwire & H).
  rewrite Hsock in Hwire. exists id, ts, payload. split; [exact Hwire|exact H].
Qed.

Lemma sendMeterValue_frame_witness :
  _websocket booted = Some 0%nat
  /\ exists id ts payload,
       wire (ChargePoint.sendMeterValue JUndef booted)
       = (wire booted ++ [WsSend 0 (JArr [JNum 2; JStr id; JStr "MeterValues"; payload])])%list
       /\ JS.get_field payload "connectorId"
          = Some (json_member (JS.default_arg JUndef (JNum 0)))
       /\ JS.get_field payload "transactionId"
          = Some (json_member (JS.parseInt (getSessionKey "TransactionId" "" booted)))
       /\ JS.get_field payload "meterValue"
          = Some (JArr [JObj [("sampledValue",
                               JArr [JObj [("value",
                                            JStr (getSessionKey KEY_METER_VALUE "" booted));
                                           ("context", JStr "Sample.Periodic");
                                           ("format", JStr "Raw");
                                           ("measurand", JStr "Energy.Active.Import.Register");
                                           ("location", JStr "Outlet");
                                           ("unit", JStr "Wh")]]);
                              ("timestamp", JStr ts)]]).
Proof.
  split; [reflexivity|].
  apply (sendMeterValue_frame JUndef booted 0%nat). reflexivity.
Defined.

(** ** Starting and stopping a transaction *)

(** [startTransaction], with or without a socket: the status, the meter
    reset, the StartTransaction CALL, the connector's new status with its
    StatusNotification, and [LastAction] last. *)
Lemma startTransaction_effect tagId connectorId reservationId w :
  let c := JS.default_arg connectorId (JNum 1) in
  let r := JS.default_arg reservationId (JNum 0) in
  sessionStorage (ChargePoint.startTransaction tagId connectorId reservationId w)
  = <["LastAction" := START_TRANSACTION]>
      (after_send (_websocket w)
         (<["LastAction" := "StatusNotification"]>
            (<[KEY_CONN_STATUS +:+ JS.toString c := CONN_CHARGING]>
               (after_send (_websocket w)
                  (<[KEY_METER_VALUE := "0"]>
                     (<[KEY_CP_STATUS := CP_INTRANSACTION]> (sessionStorage w)))))))
  /\ _websocket (ChargePoint.startTransaction tagId connectorId reservationId w)
     = _websocket w
  /\ exists id1 payload1 id2 payload2,
       wire (ChargePoint.startTransaction tagId connectorId reservationId w)
       = (wire w
          ++ sent (_websocket w) (JArr [JNum 2; JStr id1; JStr START_TRANSACTION; payload1])
          ++ sent (_websocket w)
               (JArr [JNum 2; JStr id2; JStr "StatusNotification"; payload2]))%list
       /\ (JS.get_field payload1 "connectorId" = Some (json_member c)
           /\ JS.get_field payload1 "idTag" = Some (json_member tagId)
           /\ JS.get_field payload1 "meterStart" = Some (JNum 0)
           /\ JS.get_field payload1 "reservationId" = Some (json_member r))
       /\ JS.get_field payload2 "status" = Some (JStr CONN_CHARGING)
       /\ JS.get_field payload2 "connectorId" = Some (json_member c).
Proof.
  intros c r. unfold ChargePoint.startTransaction, utc_now. fold c r. name_ids.
  match goal with
  | |- context [JArr [JNum 2; JStr id; JStr START_TRANSACTION; JObj ?ms]] =>
      remember ms as members eqn:Hmembers
  end.
  match goal with
  | |- context [ChargePoint.wsSendData ?frame ?x] =>
      set (strtT := frame); set (w3 := x)
  end.
  assert (sessionStorage w3
          = <[KEY_METER_VALUE := "0"]>
              (<[KEY_CP_STATUS := CP_INTRANSACTION]> (sessionStorage w))
          /\ _websocket w3 = _websocket w /\ wire w3 = wire w) as (Hs3 & Hsock3 & Hwire3).
  { subst w3. unfold ChargePoint.setMeterValue. fields. unfold setSessionKey. simpl.
    change (pretty 0) with (JS.toString (JNum 0)). rewrite toString_zero.
    split; [reflexivity|]. split; reflexivity. }
  destruct (wsSendData_effect strtT w3) as (Hs4 & Hwire4).
  pose proof (wsSendData_websocket strtT w3) as Hsock4.
  destruct (setConnectorStatus_notified c CONN_CHARGING (ChargePoint.wsSendData strtT w3))
    as (Hs5 & Hsock5 & id2 & payload2 & Hwire5 & Hst & Hc).
  unfold ChargePoint.setLastAction.
  rewrite setSessionKey_sessionStorage, setSessionKey_websocket, setSessionKey_wire.
  rewrite Hs5, Hsock5, Hwire5, Hs4, Hsock4, Hwire4, Hs3, Hsock3, Hwire3.
  split; [reflexivity|]. split; [reflexivity|].
  exists id, (JS.JSON_stringify (JObj members)), id2, payload2.
  split; [by rewrite <- app_assoc|].
  split; [|split; [exact Hst|exact Hc]].
  subst members.
  rewrite !get_field_stringify by (apply (bool_decide_unpack _); by vm_compute).
  by repeat split.
Qed.

Lemma status_INTRANSACTION w :
  sessionStorage w !! KEY_CP_STATUS = Some CP_INTRANSACTION ->
  ChargePoint.status w = CP_INTRANSACTION.
Proof. intros H. by apply getSessionKey_read. Qed.

(** X11: over an open socket
    [startTransaction(tagId, connectorId, reservationId)] leaves the
    status [in_transaction] and sends two CALLs: a StartTransaction with
    the connector (1 by default), the tag, [meterStart] 0 and the
    reservation id (0 by default), then a StatusNotification that
    reports that connector as [Charging]. *)
Theorem startTransaction_frames tagId connectorId reservationId w sock :
  _websocket w = Some sock ->
  let c := JS.default_arg connectorId (JNum 1) in
  let r := JS.default_arg reservationId (JNum 0) in
  ChargePoint.status (ChargePoint.startTransaction tagId connectorId reservationId w)
  = CP_INTRANSACTION
  /\ exists id1 payload1 id2 payload2,
       wire (ChargePoint.startTransaction tagId connectorId reservationId w)
       = (wire w
          ++ [WsSend sock (JArr [JNum 2; JStr id1; JStr START_TRANSACTION; payload1]);
              WsSend sock (JArr [JNum 2; JStr id2; JStr "StatusNotification"; payload2])])%list
       /\ (JS.get_field payload1 "connectorId" = Some (json_member c)
           /\ JS.get_field payload1 "idTag" = Some (json_member tagId)
           /\ JS.get_field payload1 "meterStart" = Some (JNum 0)
           /\ JS.get_field payload1 "reservationId" = Some (json_member r))
       /\ JS.get_field payload2 "status" = Some (JStr CONN_CHARGING)
       /\ JS.get_field payload2 "connectorId" = Some (json_member c).
Proof.
  intros Hsock c r.
  destruct (startTransaction_effect tagId connectorId reservationId w)
    as (Hs & _ & id1 & payload1 & id2 & payload2 & Hwire & Hstart & Hstatus).
  fold c r in Hs, Hstart, Hstatus. rewrite Hsock in Hs, Hwire.
  split.
  - apply status_INTRANSACTION. rewrite Hs. cbn [after_send].
    rewrite !lookup_insert_ne by differ. apply lookup_insert_eq.
  - exists id1, payload1, id2, payload2. split; [exact Hwire|].
    split; [exact Hstart|exact Hstatus].
Qed.

Lemma startTransaction_frames_witness :
  _websocket booted = Some 0%nat
  /\ let c := JS.default_arg JUndef (JNum 1) in
     let r := JS.default_arg JUndef (JNum 0) in
     ChargePoint.status (ChargePoint.startTransaction (JStr "DEADBEEF") JUndef JUndef booted)
     = CP_INTRANSACTION
     /\ exists id1 payload1 id2 payload2,
          wire (ChargePoint.startTransaction (JStr "DEADBEEF") JUndef JUndef booted)
          = (wire booted
             ++ [WsSend 0 (JArr [JNum 2; JStr id1; JStr START_TRANSACTION; payload1]);
                 WsSend 0 (JArr [JNum 2; JStr id2; JStr "StatusNotification"; payload2])])%list
          /\ (JS.get_field payload1 "connectorId" = Some (json_member c)
              /\ JS.get_field payload1 "idTag" = Some (json_member (JStr "DEADBEEF"))
              /\ JS.get_field payload1 "meterStart" = Some (JNum 0)
              /\ JS.get_field payload1 "reservationId" = Some (json_member r))
          /\ JS.get_field payload2 "status" = Some (JStr CONN_CHARGING)
          /\ JS.get_field payload2 "connectorId" = Some (json_member c).
Proof.
  split; [reflexivity|].
  apply (startTransaction_frames (JStr "DEADBEEF") JUndef JUndef booted 0%nat). reflexivity.
Defined.

(** X12: without a socket [startTransaction] sends nothing and leaves
    the status [error], not [in_transaction]. *)
Theorem startTransaction_offline tagId connectorId reservationId w :
  _websocket w = None ->
  ChargePoint.status (ChargePoint.startTransaction tagId connectorId reservationId w)
  = CP_ERROR
  /\ wire (ChargePoint.startTransaction tagId connectorId reservationId w) = wire w.
Proof.
  intros Hsock.
  destruct (startTransaction_effect tagId connectorId reservationId w)
    as (Hs & _ & id1 & payload1 & id2 & payload2 & Hwire & _).
  rewrite Hsock in Hs, Hwire. split.
  - apply getSessionKey_read; [|differ]. rewrite Hs. cbn [after_send].
    rewrite lookup_insert_ne by differ. apply lookup_insert_eq.
  - rewrite Hwire. cbn [sent]. by rewrite !app_nil_r.
Qed.

Lemma startTransaction_offline_witness :
  _websocket (Shell.ready blank) = None
  /\ ChargePoint.status
       (ChargePoint.startTransaction (JStr "DEADBEEF") JUndef JUndef (Shell.ready blank))
     = CP_ERROR
  /\ wire (ChargePoint.startTransaction (JStr "DEADBEEF") JUndef JUndef (Shell.ready blank))
     = wire (Shell.ready blank).
Proof.
  split; [reflexivity|].
  apply (startTransaction_offline (JStr "DEADBEEF") JUndef JUndef (Shell.ready blank)).
  reflexivity.
Defined.

(** X13: with or without a socket, after [startTransaction] the meter
    value reads 0 whatever it was before, the connector's status reads
    [Charging], and [LastAction] is [StartTransaction] (it is set again
    after the StatusNotification). *)
Theorem startTransaction_resets_meter tagId connectorId reservationId w :
  ChargePoint.meterValue (ChargePoint.startTransaction tagId connectorId reservationId w)
  = JNum 0
  /\ ChargePoint.getLastAction (ChargePoint.startTransaction tagId connectorId reservationId w)
     = START_TRANSACTION
  /\ ChargePoint.connectorStatus (JS.default_arg connectorId (JNum 1))
       (ChargePoint.startTransaction tagId connectorId reservationId w)
     = CONN_CHARGING.
Proof.
  destruct (startTransaction_effect tagId connectorId reservationId w) as (Hs & _ & _).
  destruct (connector_key_not (JS.default_arg connectorId (JNum 1))) as (Hc1 & Hc2 & Hc3 & _).
  split; [|split].
  - apply (meterValue_lookup 0). rewrite Hs.
    rewrite lookup_insert_ne by done. rewrite lookup_after_send by done.
    rewrite lookup_insert_ne by done. rewrite lookup_insert_ne by (intros E; by apply Hc2).
    rewrite lookup_after_send by done. apply lookup_insert_eq.
  - apply getSessionKey_read; [|done]. rewrite Hs. apply lookup_insert_eq.
  - unfold ChargePoint.connectorStatus. apply getSessionKey_read; [|done]. rewrite Hs.
    rewrite lookup_insert_ne by (intros E; by apply Hc3).
    rewrite lookup_after_send by (intros E; by apply Hc1).
    rewrite lookup_insert_ne by (intros E; by apply Hc3).
    apply lookup_insert_eq.
Qed.

(** A CALLRESULT is handled by the branch for [LastAction]. *)
Lemma onmessage_result id payload w :
  ChargePoint.onmessage [JNum 3; id; payload] w
  = ChargePoint.resultHandler (ChargePoint.getLastAction w) payload w.
Proof. reflexivity. Qed.


(** What [stopTransactionWithId] does over an open socket. *)
Lemma stopTransactionWithId_with_socket transactionId tagId w sock :
  _websocket w = Some sock ->
  let tag := JS.default_arg tagId (JStr "DEADBEEF") in
  sessionStorage (ChargePoint.stopTransactionWithId transactionId tagId w)
  = <[KEY_CONN_STATUS +:+ JS.toString (JNum 1) := CONN_FINISHING]>
      (<[KEY_CP_STATUS := CP_AUTHORIZED]>
         (<["LastAction" := STOP_TRANSACTION]> (sessionStorage w)))
  /\ _websocket (ChargePoint.stopTransactionWithId transactionId tagId w) = Some sock
  /\ exists id payload,
       wire (ChargePoint.stopTransactionWithId transactionId tagId w)
       = (wire w ++ [WsSend sock (JArr [JNum 2; JStr id; JStr "StopTransaction";
                                        payload])])%list
       /\ JS.get_field payload "transactionId" = Some (json_member transactionId)
       /\ JS.get_field payload "meterStop" = Some (json_member (ChargePoint.meterValue w))
       /\ JS.get_field payload "idTag"
          = Some (if isEmpty tag then JUndef else json_member tag).
Proof.
  intros Hsock tag. unfold ChargePoint.stopTransactionWithId. fold tag.
  assert (ChargePoint.meterValue
            (ChargePoint.setStatus CP_AUTHORIZED ""
               (ChargePoint.setLastAction STOP_TRANSACTION w))
          = ChargePoint.meterValue w) as ->.
  { unfold ChargePoint.meterValue, getSessionKey.
    rewrite setStatus_sessionStorage. unfold ChargePoint.setLastAction.
    rewrite setSessionKey_sessionStorage. by rewrite !lookup_insert_ne by done. }
  generalize (ChargePoint.meterValue w). intros mv.
  name_id. unfold utc_now. cbv beta iota zeta.
  match goal with
  | |- context [JObj (if negb (isEmpty tag) then ?l1 else ?l2)] =>
      remember (if negb (isEmpty tag) then l1 else l2) as stopParams eqn:Hparams
  end.
  unfold ChargePoint.setConnectorStatus. rewrite setSessionKey_sessionStorage.
  rewrite setSessionKey_websocket, setSessionKey_wire.
  rewrite wsSendData_sessionStorage, wsSendData_websocket, wsSendData_wire.
  fields. unfold ChargePoint.setLastAction, setSessionKey. simpl. rewrite Hsock.
  split; [reflexivity|]. split; [reflexivity|].
  exists id, (JS.JSON_stringify (JObj stopParams)). split; [reflexivity|].
  subst stopParams.
  destruct (isEmpty tag); cbn [negb];
    rewrite !get_field_stringify by (apply (bool_decide_unpack _); by vm_compute);
    by repeat split.
Qed.



(** X15: over an open socket, with the meter at [n],
    [stopTransaction(tagId)] sends one StopTransaction CALL:
    [transactionId] is what [JSON.stringify] makes of [parseInt] of the
    stored id, [meterStop] is [n], and [idTag] is the tag, [DEADBEEF]
    when no tag was passed, and left out when the tag is empty. *)
Theorem stopTransaction_frame tagId n w sock :
  _websocket w = Some sock ->
  sessionStorage w !! KEY_METER_VALUE = Some (pretty n) ->
  let tag := JS.default_arg tagId (JStr "DEADBEEF") in
  exists id payload,
    wire (ChargePoint.stopTransaction tagId w)
    = (wire w ++ [WsSend sock (JArr [JNum 2; JStr id; JStr "StopTransaction"; payload])])%list
    /\ JS.get_field payload "transactionId"
       = Some (json_member (JS.parseInt (getSessionKey "TransactionId" "" w)))
    /\ JS.get_field payload "meterStop" = Some (JNum n)
    /\ JS.get_field payload "idTag" = Some (if isEmpty tag then JUndef else json_member tag).
Proof.
  intros Hsock Hmeter tag. unfold ChargePoint.stopTransaction.
  destruct (stopTransactionWithId_with_socket
              (JS.parseInt (getSessionKey "TransactionId" "" w)) tagId w sock Hsock)
    as (_ & _ & id & payload & Hwire & Htid & Hstop & Htag).
  rewrite (meterValue_lookup n w Hmeter) in Hstop.
  exists id, payload. split; [exact Hwire|]. split; [exact Htid|].
  split; [exact Hstop|exact Htag].
Qed.

Lemma stopTransaction_frame_witness :
  let w := ChargePoint.setMeterValue (JNum 5000) false in_transaction_42 in
  _websocket w = Some 0%nat
  /\ sessionStorage w !! KEY_METER_VALUE = Some (pretty 5000)
  /\ let tag := JS.default_arg (JStr "") (JStr "DEADBEEF") in
     exists id payload,
       wire (ChargePoint.stopTransaction (JStr "") w)
       = (wire w ++ [WsSend 0 (JArr [JNum 2; JStr id; JStr "StopTransaction"; payload])])%list
       /\ JS.get_field payload "transactionId"
          = Some (json_member (JS.parseInt (getSessionKey "TransactionId" "" w)))
       /\ JS.get_field payload "meterStop" = Some (JNum 5000)
       /\ JS.get_field payload "idTag"
          = Some (if isEmpty tag then JUndef else json_member tag).
Proof.
  intros w. split; [by vm_compute|]. split; [by vm_compute|].
  apply (stopTransaction_frame (JStr "") 5000 w 0%nat); by vm_compute.
Defined.

(** X16: over an open socket, [stopTransaction] with no [TransactionId]
    in the store sends a StopTransaction CALL all the same, with [null]
    as [transactionId], and sets the status to [authorized] and
    connector 1 to [Finishing]. *)
Theorem stopTransaction_without_id tagId w sock :
  _websocket w = Some sock ->
  sessionStorage w !! "TransactionId" = None ->
  ChargePoint.status (ChargePoint.stopTransaction tagId w) = CP_AUTHORIZED
  /\ ChargePoint.connectorStatus (JNum 1) (ChargePoint.stopTransaction tagId w)
     = CONN_FINISHING
  /\ exists id payload,
       wire (ChargePoint.stopTransaction tagId w)
       = (wire w ++ [WsSend sock (JArr [JNum 2; JStr id; JStr "StopTransaction";
                                        payload])])%list
       /\ JS.get_field payload "transactionId" = Some JNull.
Proof.
  intros Hsock Htx. unfold ChargePoint.stopTransaction.
  assert (getSessionKey "TransactionId" "" w = "") as ->
    by (unfold getSessionKey; by rewrite Htx).
  rewrite parseInt_empty.
  destruct (stopTransactionWithId_with_socket JNaN tagId w sock Hsock)
    as (Hs & _ & id & payload & Hwire & Htid & _).
  split; [|split].
  - apply getSessionKey_read; [|done]. rewrite Hs.
    rewrite lookup_insert_ne by differ. apply lookup_insert_eq.
  - unfold ChargePoint.connectorStatus. apply getSessionKey_read; [|done].
    rewrite Hs. apply lookup_insert_eq.
  - exists id, payload. split; [exact Hwire|exact Htid].
Qed.

Lemma stopTransaction_without_id_witness :
  _websocket booted = Some 0%nat
  /\ sessionStorage booted !! "TransactionId" = None
  /\ ChargePoint.status (ChargePoint.stopTransaction (JStr "DEADBEEF") booted) = CP_AUTHORIZED
  /\ ChargePoint.connectorStatus (JNum 1) (ChargePoint.stopTransaction (JStr "DEADBEEF") booted)
     = CONN_FINISHING
  /\ exists id payload,
       wire (ChargePoint.stopTransaction (JStr "DEADBEEF") booted)
       = (wire booted ++ [WsSend 0 (JArr [JNum 2; JStr id; JStr "StopTransaction";
                                          payload])])%list
       /\ JS.get_field payload "transactionId" = Some JNull.
Proof.
  split; [reflexivity|]. split; [by vm_compute|].
  apply (stopTransaction_without_id (JStr "DEADBEEF") booted 0%nat);
    [reflexivity|by vm_compute].
Defined.

Lemma stop_result_effect id payload w :
  ChargePoint.getLastAction w = STOP_TRANSACTION ->
  ChargePoint.onmessage [JNum 3; id; payload] w
  = Done (setSessionKey (KEY_CONN_STATUS +:+ JS.toString (JNum 1)) (JStr CONN_AVAILABLE) w).
Proof.
  intros Hla. rewrite onmessage_result, Hla. reflexivity.
Qed.

Lemma stop_reply_after id payload store stopped :
  sessionStorage stopped
  = <[KEY_CONN_STATUS +:+ JS.toString (JNum 1) := CONN_FINISHING]>
      (<[KEY_CP_STATUS := CP_AUTHORIZED]> (<["LastAction" := STOP_TRANSACTION]> store)) ->
  let w' := world_of (ChargePoint.onmessage [JNum 3; id; payload] stopped) in
  ChargePoint.connectorStatus (JNum 1) stopped = CONN_FINISHING
  /\ ChargePoint.connectorStatus (JNum 1) w' = CONN_AVAILABLE
  /\ ChargePoint.status w' = CP_AUTHORIZED
  /\ wire w' = wire stopped.
Proof.
  intros Hs. cbv zeta.
  assert (ChargePoint.getLastAction stopped = STOP_TRANSACTION) as Hla.
  { apply getSessionKey_read; [|differ]. rewrite Hs.
    rewrite !lookup_insert_ne by differ. apply lookup_insert_eq. }
  rewrite (stop_result_effect id payload stopped Hla). cbn [world_of].
  split; [|split; [|split]].
  - unfold ChargePoint.connectorStatus. apply getSessionKey_read; [|differ].
    rewrite Hs. apply lookup_insert_eq.
  - apply connectorStatus_written.
  - apply getSessionKey_read; [|differ]. rewrite setSessionKey_sessionStorage, Hs.
    rewrite !lookup_insert_ne by differ. apply lookup_insert_eq.
  - reflexivity.
Qed.

(** X17: over an open socket [stopTransaction] leaves connector 1
    [Finishing]; the next CALLRESULT, whatever its payload, sets
    connector 1 to [Available] in the store, sends nothing and leaves
    the status [authorized]. *)
Theorem stop_reply_frees_connector tagId id payload w sock :
  _websocket w = Some sock ->
  let stopped := ChargePoint.stopTransaction tagId w in
  let w' := world_of (ChargePoint.onmessage [JNum 3; id; payload] stopped) in
  ChargePoint.connectorStatus (JNum 1) stopped = CONN_FINISHING
  /\ ChargePoint.connectorStatus (JNum 1) w' = CONN_AVAILABLE
  /\ ChargePoint.status w' = CP_AUTHORIZED
  /\ wire w' = wire stopped.
Proof.
  intros Hsock. unfold ChargePoint.stopTransaction.
  destruct (stopTransactionWithId_with_socket
              (JS.parseInt (getSessionKey "TransactionId" "" w)) tagId w sock Hsock)
    as (Hs & _ & _).
  exact (stop_reply_after id payload _ _ Hs).
Qed.

Lemma stop_reply_frees_connector_witness :
  _websocket in_transaction_42 = Some 0%nat
  /\ let stopped := ChargePoint.stopTransaction (JStr "DEADBEEF") in_transaction_42 in
     let w' := world_of (ChargePoint.onmessage [JNum 3; JStr "stop"; JObj []] stopped) in
     ChargePoint.connectorStatus (JNum 1) stopped = CONN_FINISHING
     /\ ChargePoint.connectorStatus (JNum 1) w' = CONN_AVAILABLE
     /\ ChargePoint.status w' = CP_AUTHORIZED
     /\ wire w' = wire stopped.
Proof.
  split; [by vm_compute|].
  apply (stop_reply_frees_connector (JStr "DEADBEEF") (JStr "stop") (JObj [])
           in_transaction_42 0%nat). by vm_compute.
Defined.

(** ** The replies to BootNotification and Authorize *)




(** X19: when the status of that CALLRESULT is anything but [Accepted]
    ([Pending] as well as [Rejected]), the socket, if one is held, is
    asked to close with code 3001 and the status becomes [disconnected];
    the socket stays referenced and no timer is armed or removed. *)
Theorem boot_refused id payload st w :
  ChargePoint.getLastAction w = BOOT_NOTIFICATION ->
  JS.get_field payload "status" = Some st ->
  JS.loose_eq_str st "Accepted" = false ->
  let w' := world_of (ChargePoint.onmessage [JNum 3; id; payload] w) in
  ChargePoint.status w' = CP_DISCONNECTED
  /\ wire w'
     = match _websocket w with
       | Some sock => (wire w ++ [WsClose sock 3001])%list
       | None => wire w
       end
  /\ _websocket w' = _websocket w
  /\ _heartbeat w' = _heartbeat w
  /\ intervals w' = intervals w.
Proof.
  intros Hla Hst Hno w'. subst w'. rewrite onmessage_result, Hla.
  unfold ChargePoint.resultHandler.
  change (String.eqb BOOT_NOTIFICATION BOOT_NOTIFICATION) with true. cbv iota.
  rewrite Hst, Hno. cbn [world_of]. unfold ChargePoint.wsDisconnect.
  split; [apply status_setStatus|]. rewrite logMsg_websocket.
  rewrite setStatus_wire, setStatus_websocket, setStatus_heartbeat, setStatus_intervals.
  destruct (_websocket w) eqn:Hsock; simpl;
    rewrite logMsg_wire, logMsg_websocket, logMsg_heartbeat, logMsg_intervals;
    by repeat split.
Qed.

Lemma boot_refused_witness :
  let w := Shell.run [Shell.Connect "ws://cs/" "CP01"; Shell.SocketOpen] (Shell.ready blank) in
  let payload := JObj [("status", JStr "Pending"); ("interval", JNum 300)] in
  ChargePoint.getLastAction w = BOOT_NOTIFICATION
  /\ JS.get_field payload "status" = Some (JStr "Pending")
  /\ JS.loose_eq_str (JStr "Pending") "Accepted" = false
  /\ let w' := world_of (ChargePoint.onmessage [JNum 3; JStr "boot"; payload] w) in
     ChargePoint.status w' = CP_DISCONNECTED
     /\ wire w'
        = match _websocket w with
          | Some sock => (wire w ++ [WsClose sock 3001])%list
          | None => wire w
          end
     /\ _websocket w' = _websocket w
     /\ _heartbeat w' = _heartbeat w
     /\ intervals w' = intervals w.
Proof.
  intros w payload.
  split; [by vm_compute|]. split; [reflexivity|]. split; [reflexivity|].
  apply (boot_refused (JStr "boot") payload (JStr "Pending") w);
    [by vm_compute|reflexivity|reflexivity].
Defined.

(** X20: a CALLRESULT that arrives while [LastAction] is [Authorize]
    leaves the status as it is when [idTagInfo.status] is [Invalid] and
    makes it [authorized] for every other value, [Blocked], [Expired] or
    none at all; nothing is sent and no other session key changes. *)
Theorem authorize_result id payload idTagInfo st w :
  ChargePoint.getLastAction w = AUTHORIZE ->
  JS.get_field payload "idTagInfo" = Some idTagInfo ->
  JS.get_field idTagInfo "status" = Some st ->
  let w' := world_of (ChargePoint.onmessage [JNum 3; id; payload] w) in
  ChargePoint.status w'
  = (if JS.loose_eq_str st "Invalid" then ChargePoint.status w else CP_AUTHORIZED)
  /\ wire w' = wire w
  /\ forall k, k <> KEY_CP_STATUS -> sessionStorage w' !! k = sessionStorage w !! k.
Proof.
  intros Hla Hinfo Hst w'. subst w'. rewrite onmessage_result, Hla.
  unfold ChargePoint.resultHandler.
  change (String.eqb AUTHORIZE BOOT_NOTIFICATION) with false.
  change (String.eqb AUTHORIZE AUTHORIZE) with true. cbv iota.
  rewrite Hinfo, Hst. destruct (JS.loose_eq_str st "Invalid"); cbn [world_of].
  - unfold ChargePoint.status, getSessionKey.
    rewrite logMsg_sessionStorage, logMsg_wire. by repeat split.
  - split; [apply status_setStatus|].
    rewrite setStatus_wire, setStatus_sessionStorage, logMsg_wire, logMsg_sessionStorage.
    split; [reflexivity|]. intros k Hk. by apply lookup_insert_ne.
Qed.

Lemma authorize_result_witness :
  let w := Shell.exec (Shell.Authorize (JStr "DEADBEEF")) booted in
  let payload := JObj [("idTagInfo", JObj [("status", JStr "Blocked")])] in
  ChargePoint.getLastAction w = AUTHORIZE
  /\ JS.get_field payload "idTagInfo" = Some (JObj [("status", JStr "Blocked")])
  /\ JS.get_field (JObj [("status", JStr "Blocked")]) "status" = Some (JStr "Blocked")
  /\ let w' := world_of (ChargePoint.onmessage [JNum 3; JStr "auth"; payload] w) in
     ChargePoint.status w'
     = (if JS.loose_eq_str (JStr "Blocked") "Invalid"
        then ChargePoint.status w else CP_AUTHORIZED)
     /\ wire w' = wire w
     /\ forall k, k <> KEY_CP_STATUS -> sessionStorage w' !! k = sessionStorage w !! k.
Proof.
  intros w payload.
  split; [by vm_compute|]. split; [reflexivity|]. split; [reflexivity|].
  apply (authorize_result (JStr "auth") payload (JObj [("status", JStr "Blocked")])
           (JStr "Blocked") w); [by vm_compute|reflexivity|reflexivity].
Defined.

(** ** The requests of the server *)

Lemma onmessage_call uid request payload w :
  ChargePoint.onmessage [JNum 2; JStr uid; request; payload] w
  = ChargePoint.handleCallRequest (JStr uid) request payload w.
Proof. reflexivity. Qed.

(** What follows an answer only adds to the wire. *)
Lemma answered_then frame w w1 w' sock :
  _websocket w1 = Some sock -> wire w1 = wire w ->
  quiet (ChargePoint.wsSendData frame w1) w' ->
  exists more, wire w' = (wire w ++ WsSend sock frame :: more)%list.
Proof.
  intros Hsock Hwire (_ & _ & [l Hl]). exists l.
  rewrite Hl, wsSendData_wire, Hsock, Hwire. by rewrite <- app_assoc.
Qed.

(** X21: over an open socket, a CALL of the server either raises the
    [TypeError] of a missing payload, and then nothing has changed, or
    is answered before anything else is sent: the first frame handed to
    the socket is a CALLRESULT or a CALLERROR under the CALL's
    [uniqueId]. *)
Theorem request_answered_first uid request payload w sock :
  _websocket w = Some sock ->
  match ChargePoint.onmessage [JNum 2; JStr uid; request; payload] w with
  | TypeError w' => w' = w
  | Done w' =>
      exists frame more,
        answers uid frame /\ wire w' = (wire w ++ WsSend sock frame :: more)%list
  end.
Proof.
  intros Hsock. rewrite onmessage_call.
  unfold ChargePoint.handleCallRequest. cbv beta zeta.
  repeat match goal with
         | |- match (if ?c then _ else _) with _ => _ end => destruct c
         | |- match (match ?x with Some _ => _ | None => _ end) with _ => _ end =>
             destruct x
         end;
    try reflexivity;
    match goal with
    | |- exists frame more, _ /\ wire ?w' = _ =>
        match w' with
        | context [ChargePoint.wsSendData ?f (ChargePoint.logMsg ?m w)] =>
            destruct (answered_then f w (ChargePoint.logMsg m w) w' sock) as [more Hmore];
              [by rewrite logMsg_websocket|apply logMsg_wire| |
               exists f, more; split; [|exact Hmore];
               eexists; first [left; reflexivity|right; reflexivity]]
        | context [ChargePoint.wsSendData ?f w] =>
            destruct (answered_then f w w w' sock) as [more Hmore];
              [exact Hsock|reflexivity| |
               exists f, more; split; [|exact Hmore];
               eexists; first [left; reflexivity|right; reflexivity]]
        end
    end.
  all: quiet_chain.
Qed.

Lemma request_answered_first_witness :
  _websocket booted = Some 0%nat
  /\ match ChargePoint.onmessage
             [JNum 2; JStr "r1"; JStr "Reset"; JObj [("type", JStr "Soft")]] booted with
     | TypeError w' => w' = booted
     | Done w' =>
         exists frame more,
           answers "r1" frame /\ wire w' = (wire booted ++ WsSend 0 frame :: more)%list
     end.
Proof.
  split; [reflexivity|].
  apply (request_answered_first "r1" (JStr "Reset") (JObj [("type", JStr "Soft")])
           booted 0%nat). reflexivity.
Defined.

(** X22: a CALL of three elements (no payload) for a request the script
    knows, other than [UnlockConnector], is never answered: the handler
    stops at its first read of the payload, and the world is as before. *)
Theorem request_without_payload uid request w :
  recognized request = true ->
  JS.strict_eq_str request "UnlockConnector" = false ->
  ChargePoint.onmessage [JNum 2; JStr uid; request] w = TypeError w.
Proof.
  unfold recognized. cbn [existsb]. intros Hrec Hunlock.
  unfold ChargePoint.onmessage, ChargePoint.handleCallRequest, JS.index.
  cbn [nth length JS.strict_eq_num Z.eqb Pos.eqb Nat.ltb Nat.leb JS.get_field].
  rewrite Hunlock in Hrec |- *.
  destruct (JS.strict_eq_str request "Reset"); [reflexivity|].
  destruct (JS.strict_eq_str request "RemoteStartTransaction"); [reflexivity|].
  destruct (JS.strict_eq_str request "RemoteStopTransaction"); [reflexivity|].
  destruct (JS.strict_eq_str request "TriggerMessage"); [reflexivity|].
  destruct (JS.strict_eq_str request "ChangeAvailability"); [reflexivity|].
  destruct (JS.strict_eq_str request "GetConfiguration"); [reflexivity|].
  discriminate Hrec.
Qed.

Lemma request_without_payload_witness :
  recognized (JStr "Reset") = true
  /\ JS.strict_eq_str (JStr "Reset") "UnlockConnector" = false
  /\ ChargePoint.onmessage [JNum 2; JStr "r1"; JStr "Reset"] booted = TypeError booted.
Proof.
  split; [reflexivity|]. split; [reflexivity|].
  apply (request_without_payload "r1" (JStr "Reset") booted); reflexivity.
Defined.

(** X23: over an open socket a Reset request, of whatever type, is
    answered [Accepted]; then the socket is asked to close with code
    3001 and the status becomes [disconnected].  The socket stays
    referenced and the timers stay armed. *)
Theorem reset_request uid payload rstType w sock :
  _websocket w = Some sock ->
  JS.get_field payload "type" = Some rstType ->
  let w' := world_of (ChargePoint.onmessage [JNum 2; JStr uid; JStr "Reset"; payload] w) in
  wire w' = (wire w ++ [WsSend sock (status_reply uid "Accepted"); WsClose sock 3001])%list
  /\ ChargePoint.status w' = CP_DISCONNECTED
  /\ _websocket w' = Some sock
  /\ intervals w' = intervals w.
Proof.
  intros Hsock Hget. cbv zeta. rewrite onmessage_call.
  unfold ChargePoint.handleCallRequest.
  change (JS.strict_eq_str (JStr "Reset") "Reset") with true.
  cbv iota beta zeta. rewrite Hget. cbn [world_of].
  rewrite !(wsSendData_with_socket _ _ sock) by (by rewrite logMsg_websocket).
  unfold ChargePoint.wsDisconnect. cbn [_websocket add_wire set_wire].
  rewrite logMsg_websocket, Hsock.
  split; [|split; [apply status_setStatus|]].
  - rewrite setStatus_wire. cbn [wire add_wire set_wire]. rewrite logMsg_wire.
    by rewrite <- app_assoc.
  - rewrite setStatus_websocket, setStatus_intervals.
    cbn [_websocket intervals add_wire set_wire].
    by rewrite logMsg_websocket, logMsg_intervals.
Qed.

Lemma reset_request_witness :
  let payload := JObj [("type", JStr "Hard")] in
  _websocket booted = Some 0%nat
  /\ JS.get_field payload "type" = Some (JStr "Hard")
  /\ let w' := world_of (ChargePoint.onmessage [JNum 2; JStr "r1"; JStr "Reset"; payload]
                           booted) in
     wire w'
     = (wire booted ++ [WsSend 0 (status_reply "r1" "Accepted"); WsClose 0 3001])%list
     /\ ChargePoint.status w' = CP_DISCONNECTED
     /\ _websocket w' = Some 0%nat
     /\ intervals w' = intervals booted.
Proof.
  intros payload. split; [reflexivity|]. split; [reflexivity|].
  apply (reset_request "r1" payload (JStr "Hard") booted 0%nat); reflexivity.
Defined.


Lemma logMsg_remoteStartStopResponse msg w :
  _remoteStartStopResponse (ChargePoint.logMsg msg w) = _remoteStartStopResponse w.
Proof. unfold ChargePoint.logMsg. by destruct (_loggingCb w). Qed.






Lemma remote_stop_effect uid payload stop_id w sock :
  _websocket w = Some sock ->
  JS.get_field payload "transactionId" = Some stop_id ->
  String.eqb (_remoteStartStopResponse w) "Rejected" = false ->
  ChargePoint.onmessage [JNum 2; JStr uid; JStr "RemoteStopTransaction"; payload] w
  = Done (ChargePoint.stopTransactionWithId stop_id JUndef
            (add_wire (WsSend sock (status_reply uid (_remoteStartStopResponse w)))
               (ChargePoint.logMsg
                  ("Reception of a RemoteStopTransaction request for transaction "
                   +:+ JS.toString stop_id) w))).
Proof.
  intros Hsock Hget Hacc. rewrite onmessage_call.
  unfold ChargePoint.handleCallRequest.
  change (JS.strict_eq_str (JStr "RemoteStopTransaction") "Reset") with false.
  change (JS.strict_eq_str (JStr "RemoteStopTransaction") "RemoteStartTransaction")
    with false.
  change (JS.strict_eq_str (JStr "RemoteStopTransaction") "RemoteStopTransaction")
    with true.
  cbv iota beta zeta. rewrite Hget.
  rewrite !(wsSendData_with_socket _ _ sock) by (by rewrite logMsg_websocket).
  repeat first
    [ progress cbn [_remoteStartStopResponse add_wire set_wire]
    | rewrite logMsg_remoteStartStopResponse ].
  by rewrite Hacc.
Qed.

(** X25: over an open socket, and unless [_remoteStartStopResponse] is
    [Rejected], a RemoteStopTransaction request is answered and followed
    by one StopTransaction CALL for the [transactionId] that the request
    names, whatever the stored one is, with [DEADBEEF] as [idTag]; the
    status becomes [authorized]. *)
Theorem remote_stop uid payload stop_id w sock :
  _websocket w = Some sock ->
  JS.get_field payload "transactionId" = Some stop_id ->
  String.eqb (_remoteStartStopResponse w) "Rejected" = false ->
  let w' := world_of (ChargePoint.onmessage
                        [JNum 2; JStr uid; JStr "RemoteStopTransaction"; payload] w) in
  ChargePoint.status w' = CP_AUTHORIZED
  /\ exists id stop,
       wire w'
       = (wire w
          ++ [WsSend sock (status_reply uid (_remoteStartStopResponse w));
              WsSend sock (JArr [JNum 2; JStr id; JStr "StopTransaction"; stop])])%list
       /\ JS.get_field stop "transactionId" = Some (json_member stop_id)
       /\ JS.get_field stop "idTag" = Some (JStr "DEADBEEF").
Proof.
  intros Hsock Hget Hacc. cbv zeta.
  rewrite (remote_stop_effect uid payload stop_id w sock Hsock Hget Hacc). cbn [world_of].
  match goal with
  | |- context [ChargePoint.stopTransactionWithId _ _ ?x] =>
      destruct (stopTransactionWithId_with_socket stop_id JUndef x sock)
        as (Hs & _ & id & stop & Hwire & Htid & _ & Htag);
        [cbn [_websocket add_wire set_wire]; by rewrite logMsg_websocket|]
  end.
  cbn [wire add_wire set_wire] in Hwire. rewrite logMsg_wire in Hwire.
  split.
  - apply getSessionKey_read; [|differ]. rewrite Hs.
    rewrite lookup_insert_ne by differ. apply lookup_insert_eq.
  - exists id, stop. split; [by rewrite Hwire, <- app_assoc|].
    split; [exact Htid|exact Htag].
Qed.

Lemma remote_stop_witness :
  let payload := JObj [("transactionId", JNum 7)] in
  _websocket booted = Some 0%nat
  /\ JS.get_field payload "transactionId" = Some (JNum 7)
  /\ String.eqb (_remoteStartStopResponse booted) "Rejected" = false
  /\ let w' := world_of (ChargePoint.onmessage
                           [JNum 2; JStr "rs"; JStr "RemoteStopTransaction"; payload]
                           booted) in
     ChargePoint.status w' = CP_AUTHORIZED
     /\ exists id stop,
          wire w'
          = (wire booted
             ++ [WsSend 0 (status_reply "rs" (_remoteStartStopResponse booted));
                 WsSend 0 (JArr [JNum 2; JStr id; JStr "StopTransaction"; stop])])%list
          /\ JS.get_field stop "transactionId" = Some (json_member (JNum 7))
          /\ JS.get_field stop "idTag" = Some (JStr "DEADBEEF").
Proof.
  intros payload. split; [reflexivity|]. split; [reflexivity|]. split; [reflexivity|].
  apply (remote_stop "rs" payload (JNum 7) booted 0%nat); reflexivity.
Defined.

Lemma trigger_effect uid payload requestedMessage cid w sock :
  _websocket w = Some sock ->
  JS.get_field payload "requestedMessage" = Some requestedMessage ->
  JS.get_field payload "connectorId" = Some cid ->
  ChargePoint.onmessage [JNum 2; JStr uid; JStr "TriggerMessage"; payload] w
  = Done (ChargePoint.triggerMessage requestedMessage
            (if JS.truthy cid then cid else JNum 0)
            (add_wire (WsSend sock (status_reply uid "Accepted"))
               (ChargePoint.logMsg ("Reception of a TriggerMessage request ("
                                    +:+ JS.toString requestedMessage +:+ ")") w))).
Proof.
  intros Hsock Hget Hcid. rewrite onmessage_call.
  unfold ChargePoint.handleCallRequest.
  change (JS.strict_eq_str (JStr "TriggerMessage") "Reset") with false.
  change (JS.strict_eq_str (JStr "TriggerMessage") "RemoteStartTransaction") with false.
  change (JS.strict_eq_str (JStr "TriggerMessage") "RemoteStopTransaction") with false.
  change (JS.strict_eq_str (JStr "TriggerMessage") "TriggerMessage") with true.
  cbv iota beta zeta. rewrite Hget, Hcid.
  by rewrite !(wsSendData_with_socket _ _ sock) by (by rewrite logMsg_websocket).
Qed.

(** X26: over an open socket a TriggerMessage request for anything but
    BootNotification, Heartbeat, MeterValues or StatusNotification is
    answered [Accepted] and triggers nothing: the answer is all that is
    sent, and the session store is as before. *)
Theorem trigger_unsupported uid payload requestedMessage cid w sock :
  _websocket w = Some sock ->
  JS.get_field payload "requestedMessage" = Some requestedMessage ->
  JS.get_field payload "connectorId" = Some cid ->
  triggers requestedMessage = false ->
  let w' := world_of (ChargePoint.onmessage
                        [JNum 2; JStr uid; JStr "TriggerMessage"; payload] w) in
  wire w' = (wire w ++ [WsSend sock (status_reply uid "Accepted")])%list
  /\ sessionStorage w' = sessionStorage w.
Proof.
  intros Hsock Hget Hcid Hno. cbv zeta.
  rewrite (trigger_effect uid payload requestedMessage cid w sock Hsock Hget Hcid).
  cbn [world_of]. unfold triggers in Hno. cbn [existsb] in Hno.
  rewrite !orb_false_iff in Hno. destruct Hno as (H1 & H2 & H3 & H4 & _).
  unfold ChargePoint.triggerMessage. rewrite H1, H2, H3, H4.
  destruct (JS.strict_eq_str requestedMessage "DiagnosticStatusNotification");
    [|destruct (JS.strict_eq_str requestedMessage "FirmwareStatusNotification")];
    rewrite ?logMsg_wire, ?logMsg_sessionStorage;
    cbn [wire sessionStorage add_wire set_wire];
    by rewrite logMsg_wire, logMsg_sessionStorage.
Qed.

Lemma trigger_unsupported_witness :
  let payload := JObj [("requestedMessage", JStr "DiagnosticsStatusNotification")] in
  _websocket booted = Some 0%nat
  /\ JS.get_field payload "requestedMessage" = Some (JStr "DiagnosticsStatusNotification")
  /\ JS.get_field payload "connectorId" = Some JUndef
  /\ triggers (JStr "DiagnosticsStatusNotification") = false
  /\ let w' := world_of (ChargePoint.onmessage
                           [JNum 2; JStr "t1"; JStr "TriggerMessage"; payload] booted) in
     wire w' = (wire booted ++ [WsSend 0 (status_reply "t1" "Accepted")])%list
     /\ sessionStorage w' = sessionStorage booted.
Proof.
  intros payload.
  split; [reflexivity|]. split; [reflexivity|]. split; [reflexivity|]. split; [reflexivity|].
  apply (trigger_unsupported "t1" payload (JStr "DiagnosticsStatusNotification") JUndef
           booted 0%nat); reflexivity.
Defined.

(** X27: over an open socket a TriggerMessage request for a
    StatusNotification is answered [Accepted] and followed by one
    StatusNotification CALL for the connector the request names,
    connector 0 when it names none or names 0, with the status stored
    for that connector. *)
Theorem trigger_status_notification uid payload cid w sock :
  _websocket w = Some sock ->
  JS.get_field payload "requestedMessage" = Some (JStr "StatusNotification") ->
  JS.get_field payload "connectorId" = Some cid ->
  let c := if JS.truthy cid then cid else JNum 0 in
  let w' := world_of (ChargePoint.onmessage
                        [JNum 2; JStr uid; JStr "TriggerMessage"; payload] w) in
  exists id notification,
    wire w'
    = (wire w
       ++ [WsSend sock (status_reply uid "Accepted");
           WsSend sock (JArr [JNum 2; JStr id; JStr "StatusNotification";
                              notification])])%list
    /\ JS.get_field notification "connectorId" = Some (json_member c)
    /\ JS.get_field notification "status" = Some (JStr (ChargePoint.connectorStatus c w)).
Proof.
  intros Hsock Hget Hcid. cbv zeta.
  rewrite (trigger_effect uid payload _ cid w sock Hsock Hget Hcid). cbn [world_of].
  unfold ChargePoint.triggerMessage.
  change (JS.strict_eq_str (JStr "StatusNotification") "BootNotification") with false.
  change (JS.strict_eq_str (JStr "StatusNotification") "Heartbeat") with false.
  change (JS.strict_eq_str (JStr "StatusNotification") "MeterValues") with false.
  change (JS.strict_eq_str (JStr "StatusNotification") "StatusNotification") with true.
  cbv iota.
  assert (JS.default_arg (if JS.truthy cid then cid else JNum 0) (JNum 0)
          = if JS.truthy cid then cid else JNum 0) as ->
    by (destruct (JS.truthy cid) eqn:Ht;
        [destruct cid; first [reflexivity|discriminate Ht]|reflexivity]).
  match goal with
  | |- context [ChargePoint.sendStatusNotification ?c ?x] =>
      destruct (sendStatusNotification_effect c x)
        as (_ & _ & id & notification & Hwire & Hst & Hc);
        assert (_websocket x = Some sock) as Hsock'
          by (cbn [_websocket add_wire set_wire]; by rewrite logMsg_websocket);
        assert (ChargePoint.connectorStatus c x = ChargePoint.connectorStatus c w) as Hsame
          by (unfold ChargePoint.connectorStatus, getSessionKey;
              cbn [sessionStorage add_wire set_wire]; by rewrite logMsg_sessionStorage)
  end.
  rewrite Hsock' in Hwire. rewrite Hsame in Hst.
  cbn [wire add_wire set_wire sent] in Hwire. rewrite logMsg_wire in Hwire.
  exists id, notification. split; [by rewrite Hwire, <- app_assoc|].
  split; [exact Hc|exact Hst].
Qed.

Lemma trigger_status_notification_witness :
  let payload := JObj [("requestedMessage", JStr "StatusNotification")] in
  _websocket booted = Some 0%nat
  /\ JS.get_field payload "requestedMessage" = Some (JStr "StatusNotification")
  /\ JS.get_field payload "connectorId" = Some JUndef
  /\ let c := if JS.truthy JUndef then JUndef else JNum 0 in
     let w' := world_of (ChargePoint.onmessage
                           [JNum 2; JStr "t1"; JStr "TriggerMessage"; payload] booted) in
     exists id notification,
       wire w'
       = (wire booted
          ++ [WsSend 0 (status_reply "t1" "Accepted");
              WsSend 0 (JArr [JNum 2; JStr id; JStr "StatusNotification";
                              notification])])%list
       /\ JS.get_field notification "connectorId" = Some (json_member c)
       /\ JS.get_field notification "status"
          = Some (JStr (ChargePoint.connectorStatus c booted)).
Proof.
  intros payload. split; [reflexivity|]. split; [reflexivity|]. split; [reflexivity|].
  apply (trigger_status_notification "t1" payload JUndef booted 0%nat); reflexivity.
Defined.

Lemma change_availability_effect uid payload avail connectorId w sock :
  _websocket w = Some sock ->
  JS.get_field payload "type" = Some avail ->
  JS.get_field payload "connectorId" = Some connectorId ->
  ChargePoint.onmessage [JNum 2; JStr uid; JStr "ChangeAvailability"; payload] w
  = Done (ChargePoint.setConnectorAvailability (JS.toNumber connectorId) avail
            (add_wire (WsSend sock (status_reply uid "Accepted"))
               (ChargePoint.logMsg
                  ("Reception of a ChangeAvailability request (connector "
                   +:+ JS.toString connectorId +:+ " " +:+ JS.toString avail +:+ ")") w))).
Proof.
  intros Hsock Htype Hc. rewrite onmessage_call.
  unfold ChargePoint.handleCallRequest.
  change (JS.strict_eq_str (JStr "ChangeAvailability") "Reset") with false.
  change (JS.strict_eq_str (JStr "ChangeAvailability") "RemoteStartTransaction") with false.
  change (JS.strict_eq_str (JStr "ChangeAvailability") "RemoteStopTransaction") with false.
  change (JS.strict_eq_str (JStr "ChangeAvailability") "TriggerMessage") with false.
  change (JS.strict_eq_str (JStr "ChangeAvailability") "ChangeAvailability") with true.
  cbv iota beta zeta. rewrite Htype, Hc.
  by rewrite !(wsSendData_with_socket _ _ sock) by (by rewrite logMsg_websocket).
Qed.

(** The availability written for a connector is the one read back. *)
Lemma availability_written n a w :
  a <> "" ->
  ChargePoint.availability (JNum n)
    (ChargePoint.setConnectorAvailability (JNum n) (JStr a) w) = a.
Proof.
  intros Ha. unfold ChargePoint.availability, getKey. cbn [JS.default_arg].
  assert (localStorage (ChargePoint.setConnectorAvailability (JNum n) (JStr a) w)
          !! (KEY_CONN_AVAILABILITY +:+ JS.toString (JNum n)) = Some a) as ->.
  { rewrite setConnectorAvailability_cascade.
    destruct (JS.strict_eq_num (JNum n) 0) eqn:Hn.
    - simpl in Hn. apply Z.eqb_eq in Hn. subst n.
      rewrite !(proj1 (local_update_effect _ _ _)).
      destruct connector_keys as (_ & _ & _ & -> & -> & ->).
      rewrite !lookup_insert_ne by (intros E; discriminate E). apply lookup_insert_eq.
    - rewrite (proj1 (local_update_effect _ _ _)). apply lookup_insert_eq. }
  by destruct (String.eqb_spec a "").
Qed.

(** X28: over an open socket a ChangeAvailability request with a number
    as [connectorId] and a non-empty string as [type] is answered
    [Accepted] before anything else is sent, whatever the type says, and
    afterwards [availability(connectorId)] reads that type. *)
Theorem change_availability_request uid payload n a w sock :
  _websocket w = Some sock ->
  JS.get_field payload "type" = Some (JStr a) ->
  JS.get_field payload "connectorId" = Some (JNum n) ->
  a <> "" ->
  let w' := world_of (ChargePoint.onmessage
                        [JNum 2; JStr uid; JStr "ChangeAvailability"; payload] w) in
  ChargePoint.availability (JNum n) w' = a
  /\ exists more,
       wire w' = (wire w ++ WsSend sock (status_reply uid "Accepted") :: more)%list.
Proof.
  intros Hsock Htype Hc Ha. cbv zeta.
  rewrite (change_availability_effect uid payload _ _ w sock Hsock Htype Hc).
  cbn [world_of JS.toNumber].
  split; [by apply availability_written|].
  match goal with
  | |- context [ChargePoint.setConnectorAvailability ?c ?v ?x] =>
      destruct (quiet_setConnectorAvailability c v x) as (_ & _ & [more Hmore])
  end.
  exists more. rewrite Hmore. cbn [wire add_wire set_wire].
  by rewrite logMsg_wire, <- app_assoc.
Qed.

Lemma change_availability_request_witness :
  let payload := JObj [("connectorId", JNum 0); ("type", JStr "Inoperative")] in
  _websocket booted = Some 0%nat
  /\ JS.get_field payload "type" = Some (JStr "Inoperative")
  /\ JS.get_field payload "connectorId" = Some (JNum 0)
  /\ "Inoperative" <> ""
  /\ let w' := world_of (ChargePoint.onmessage
                           [JNum 2; JStr "ca"; JStr "ChangeAvailability"; payload] booted) in
     ChargePoint.availability (JNum 0) w' = "Inoperative"
     /\ exists more,
          wire w'
          = (wire booted ++ WsSend 0 (status_reply "ca" "Accepted") :: more)%list.
Proof.
  intros payload.
  split; [reflexivity|]. split; [reflexivity|]. split; [reflexivity|].
  split; [intros E; discriminate E|].
  apply (change_availability_request "ca" payload 0 "Inoperative" booted 0%nat);
    first [reflexivity|intros E; discriminate E].
Defined.

(** ** The socket *)

(** X29: [wsConnect] with no socket held opens one, to the URL
    [wsurl + cpid] with the sub-protocols [ocpp1.6] and [ocpp1.5], and
    writes nothing to the session store.  A second [wsConnect] opens nothing:
    it asks the held socket to close with code 3001 and sets the status
    to [error].  Once the close callback has come with that code the
    status is [disconnected] and no socket is held, and the next
    [wsConnect] opens a new socket. *)
Theorem connect_twice wsurl cpid wsurl' cpid' w :
  _websocket w = None ->
  let sock := next_socket w in
  let once := ChargePoint.wsConnect wsurl cpid w in
  let twice := ChargePoint.wsConnect wsurl' cpid' once in
  let closed := ChargePoint.onclose 3001 twice in
  let again := ChargePoint.wsConnect wsurl' cpid' closed in
  (wire once = (wire w ++ [WsNew sock (wsurl +:+ cpid) ["ocpp1.6"; "ocpp1.5"]])%list
   /\ _websocket once = Some sock
   /\ sessionStorage once = sessionStorage w)
  /\ (wire twice = (wire once ++ [WsClose sock 3001])%list
      /\ _websocket twice = Some sock
      /\ ChargePoint.status twice = CP_ERROR)
  /\ (_websocket closed = None /\ ChargePoint.status closed = CP_DISCONNECTED)
  /\ wire again
     = (wire twice ++ [WsNew (S sock) (wsurl' +:+ cpid') ["ocpp1.6"; "ocpp1.5"]])%list
  /\ _websocket again = Some (S sock).
Proof.
  intros Hsock. cbv zeta.
  assert (ChargePoint.wsConnect wsurl cpid w
          = set_websocket (Some (next_socket w))
              (add_wire (WsNew (next_socket w) (wsurl +:+ cpid) ["ocpp1.6"; "ocpp1.5"])
                 (set_next_socket (S (next_socket w)) w))) as ->.
  { unfold ChargePoint.wsConnect. by rewrite Hsock. }
  set (once := set_websocket _ _).
  assert (_websocket once = Some (next_socket w)
          /\ next_socket once = S (next_socket w)
          /\ wire once
             = (wire w ++ [WsNew (next_socket w) (wsurl +:+ cpid) ["ocpp1.6"; "ocpp1.5"]])%list
          /\ sessionStorage once = sessionStorage w) as (Hs1 & Hn1 & Hw1 & Hst1)
    by (by repeat split).
  clearbody once.
  split; [by repeat split|].
  assert (ChargePoint.wsConnect wsurl' cpid' once
          = add_wire (WsClose (next_socket w) 3001)
              (ChargePoint.setStatus CP_ERROR
                 "Socket already opened. Closing it. Retry later" once)) as ->.
  { unfold ChargePoint.wsConnect. by rewrite Hs1. }
  set (twice := add_wire _ _).
  assert (_websocket twice = Some (next_socket w)
          /\ next_socket twice = S (next_socket w)
          /\ wire twice = (wire once ++ [WsClose (next_socket w) 3001])%list
          /\ ChargePoint.status twice = CP_ERROR) as (Hs2 & Hn2 & Hw2 & Hst2).
  { subst twice. cbn [_websocket next_socket wire add_wire set_wire].
    rewrite setStatus_websocket, setStatus_wire.
    split; [exact Hs1|]. split; [|split; [reflexivity|apply status_setStatus]].
    unfold ChargePoint.setStatus, setSessionKey.
    by destruct (_statusChangeCb _). }
  clearbody twice.
  split; [by repeat split|].
  unfold ChargePoint.onclose. change (3001 =? 3001) with true. cbv iota.
  set (closed := set_websocket None _).
  assert (_websocket closed = None
          /\ next_socket closed = S (next_socket w)
          /\ wire closed = wire twice
          /\ ChargePoint.status closed = CP_DISCONNECTED) as (Hs3 & Hn3 & Hw3 & Hst3).
  { subst closed. cbn [_websocket next_socket wire set_websocket].
    rewrite logMsg_wire, setStatus_wire.
    split; [reflexivity|]. split; [|split; [reflexivity|]].
    - unfold ChargePoint.logMsg, ChargePoint.setStatus, setSessionKey.
      by destruct (_loggingCb _), (_statusChangeCb _).
    - unfold ChargePoint.status, getSessionKey. cbn [sessionStorage set_websocket].
      rewrite logMsg_sessionStorage, setStatus_sessionStorage, lookup_insert_eq.
      reflexivity. }
  clearbody closed.
  split; [by split|].
  unfold ChargePoint.wsConnect. rewrite Hs3, Hn3.
  cbn [wire _websocket set_websocket add_wire set_wire set_next_socket].
  by rewrite Hw3.
Qed.

Lemma connect_twice_witness :
  _websocket (Shell.ready blank) = None
  /\ let w := Shell.ready blank in
     let sock := next_socket w in
     let once := ChargePoint.wsConnect "ws://cs/" "CP01" w in
     let twice := ChargePoint.wsConnect "ws://cs/" "CP02" once in
     let closed := ChargePoint.onclose 3001 twice in
     let again := ChargePoint.wsConnect "ws://cs/" "CP02" closed in
     (wire once
      = (wire w ++ [WsNew sock ("ws://cs/" +:+ "CP01") ["ocpp1.6"; "ocpp1.5"]])%list
      /\ _websocket once = Some sock
      /\ sessionStorage once = sessionStorage w)
     /\ (wire twice = (wire once ++ [WsClose sock 3001])%list
         /\ _websocket twice = Some sock
         /\ ChargePoint.status twice = CP_ERROR)
     /\ (_websocket closed = None /\ ChargePoint.status closed = CP_DISCONNECTED)
     /\ wire again
        = (wire twice ++ [WsNew (S sock) ("ws://cs/" +:+ "CP02") ["ocpp1.6"; "ocpp1.5"]])%list
     /\ _websocket again = Some (S sock).
Proof.
  split; [reflexivity|].
  apply (connect_twice "ws://cs/" "CP01" "ws://cs/" "CP02" (Shell.ready blank)).
  reflexivity.
Defined.

(** X30: the close callback drops the socket and sets the status to
    [disconnected] for code 3001 and to [error] for every other code;
    the timers stay armed.  A heartbeat sent after it reaches no socket
    and leaves the status [error]. *)
Theorem send_after_close code w :
  let closed := ChargePoint.onclose code w in
  ChargePoint.status closed = (if code =? 3001 then CP_DISCONNECTED else CP_ERROR)
  /\ _websocket closed = None
  /\ intervals closed = intervals w
  /\ wire (ChargePoint.sendHeartbeat closed) = wire w
  /\ ChargePoint.status (ChargePoint.sendHeartbeat closed) = CP_ERROR.
Proof.
  cbv zeta.
  assert (ChargePoint.status (ChargePoint.onclose code w)
          = (if code =? 3001 then CP_DISCONNECTED else CP_ERROR)
          /\ _websocket (ChargePoint.onclose code w) = None
          /\ intervals (ChargePoint.onclose code w) = intervals w
          /\ wire (ChargePoint.onclose code w) = wire w) as (Hst & Hsock & Hint & Hwire).
  { unfold ChargePoint.onclose, ChargePoint.status, getSessionKey.
    destruct (code =? 3001); cbn [sessionStorage _websocket intervals wire set_websocket];
      rewrite logMsg_sessionStorage, logMsg_intervals, logMsg_wire,
        setStatus_sessionStorage, setStatus_intervals, setStatus_wire, lookup_insert_eq;
      by repeat split. }
  set (closed := ChargePoint.onclose code w) in *. clearbody closed.
  split; [exact Hst|]. split; [exact Hsock|]. split; [exact Hint|].
  unfold ChargePoint.sendHeartbeat. name_id.
  match goal with
  | |- context [ChargePoint.wsSendData ?f ?x] =>
      assert (_websocket x = None) as Hnone
        by (rewrite logMsg_websocket; unfold ChargePoint.setLastAction; exact Hsock);
      assert (wire x = wire closed) as Hw
        by (rewrite logMsg_wire; reflexivity);
      unfold ChargePoint.wsSendData; rewrite Hnone
  end.
  split; [by rewrite setStatus_wire, Hw|apply status_setStatus].
Qed.
